(** * Exchange adapters [dx], [gemini] and [bleutrade]: a shallow embedding

    The three adapters are JavaScript classes over a common base class.
    Their payloads and their normalized records are plain JavaScript
    objects, so the embedding works on one type [value] of JavaScript
    values; a thrown exception is the [Throw] branch of [result].

    Numbers are exact rationals: the rounding of IEEE doubles, their
    overflow to infinity and the exponent notation of very large or very
    small numbers are outside the model. *)

From Stdlib Require Import ZArith QArith Qabs Qround String Ascii List Bool Lia.
Import ListNotations.

Set Warnings "-register-all".

Local Open Scope string_scope.
Local Open Scope Z_scope.

(** ** JavaScript values *)

Module JS.

(** The fields of an object are its own properties, listed in the order
    [Object.keys] enumerates them, each key once. Every object also
    inherits the members of [Object.prototype]: [VInherited k] is the
    member inherited under the name [k], which is the function [Object]
    for [constructor], the prototype itself for [__proto__], and a
    method for the other names. *)
Inductive value : Type :=
| VUndefined
| VNull
| VBool (b : bool)
| VNum (q : Q)
| VNaN
| VStr (s : string)
| VArr (items : list value)
| VObj (fields : list (string * value))
| VInherited (name : string).

(** The error classes of [base/errors] that the three adapters name,
    and the built-in [TypeError] of the language. [StringObject] is no
    error class: it stands for a thrown [new Object (message)], which is
    a String object holding the message. *)
Inductive error_class : Type :=
| ExchangeError
| ArgumentsRequired
| BadRequest
| AuthenticationError
| PermissionDenied
| InsufficientFunds
| InvalidAddress
| InvalidOrder
| OrderNotFound
| NotSupported
| DDoSProtection
| ExchangeNotAvailable
| InvalidNonce
| RequestTimeout
| TypeError
| StringObject.

Record exn : Type := Exn { e_class : error_class; e_message : string }.

Inductive result (A : Type) : Type :=
| Ok (a : A)
| Throw (e : exn).

Arguments Ok {A} a.
Arguments Throw {A} e.

Definition bind {A B : Type} (r : result A) (k : A -> result B) : result B :=
  match r with
  | Ok a => k a
  | Throw e => Throw e
  end.

Notation "'do' x <- r ; k" := (bind r (fun x => k))
  (at level 10, x name, r at level 100, k at level 200).

(** *** Strings *)

Fixpoint assoc {A : Type} (k : string) (l : list (string * A)) : option A :=
  match l with
  | [] => None
  | (k', v) :: l' => if String.eqb k k' then Some v else assoc k l'
  end.

Definition is_upper (c : ascii) : bool :=
  let n := nat_of_ascii c in (65 <=? n)%nat && (n <=? 90)%nat.

Definition is_lower (c : ascii) : bool :=
  let n := nat_of_ascii c in (97 <=? n)%nat && (n <=? 122)%nat.

Definition lower_char (c : ascii) : ascii :=
  if is_upper c then ascii_of_nat (nat_of_ascii c + 32) else c.

Definition upper_char (c : ascii) : ascii :=
  if is_lower c then ascii_of_nat (nat_of_ascii c - 32) else c.

Fixpoint map_string (f : ascii -> ascii) (s : string) : string :=
  match s with
  | EmptyString => EmptyString
  | String c s' => String (f c) (map_string f s')
  end.

(** [s.toLowerCase ()] and [s.toUpperCase ()], on ASCII letters. *)
Definition toLowerCase (s : string) : string := map_string lower_char s.
Definition toUpperCase (s : string) : string := map_string upper_char s.

(** [s.indexOf (key) >= 0]. *)
Fixpoint includes (key s : string) : bool :=
  if String.prefix key s then true
  else match s with
       | EmptyString => false
       | String _ s' => includes key s'
       end.

Fixpoint rev_string (acc s : string) : string :=
  match s with
  | EmptyString => acc
  | String c s' => rev_string (String c acc) s'
  end.

(** [s.split (sep)] for a separator that is not empty. [skip] counts the
    characters of a separator just matched that are still to be dropped,
    [cur] holds the current piece in reverse. *)
Fixpoint split_aux (sep : string) (skip : nat) (cur : string) (s : string)
  : list string :=
  match s with
  | EmptyString => [rev_string EmptyString cur]
  | String c s' =>
      match skip with
      | S n => split_aux sep n cur s'
      | O =>
          if String.prefix sep s
          then rev_string EmptyString cur
               :: split_aux sep (String.length sep - 1) EmptyString s'
          else split_aux sep O (String c cur) s'
      end
  end.

Definition split (sep s : string) : list string :=
  split_aux sep O EmptyString s.

(** [s.replace (pat, by)] with a string pattern: the first occurrence
    only. *)
Fixpoint replace_aux (pat by_ : string) (s : string) : string :=
  if String.prefix pat s
  then by_ ++ String.substring (String.length pat) (String.length s) s
  else match s with
       | EmptyString => EmptyString
       | String c s' => String c (replace_aux pat by_ s')
       end.

Definition replace (pat by_ s : string) : string := replace_aux pat by_ s.

(** [s.slice (i, j)] for [0 <= i <= j]. *)
Definition slice (i j : nat) (s : string) : string :=
  String.substring i (j - i) s.

(** *** Numbers and their decimal notation *)

Definition digit_of (c : ascii) : option Z :=
  let n := nat_of_ascii c in
  if ((48 <=? n)%nat && (n <=? 57)%nat)%bool
  then Some (Z.of_nat n - 48) else None.

Definition char_of_digit (d : Z) : ascii := ascii_of_nat (48 + Z.to_nat d).

(** Reads the digits a string starts with: their value on top of [acc],
    their number on top of [n], and the rest of the string. *)
Fixpoint read_digits (s : string) (acc : Z) (n : nat) : Z * nat * string :=
  match s with
  | EmptyString => (acc, n, EmptyString)
  | String c s' =>
      match digit_of c with
      | Some d => read_digits s' (10 * acc + d) (S n)
      | None => (acc, n, s)
      end
  end.

Definition is_space (c : ascii) : bool :=
  let n := nat_of_ascii c in
  ((n =? 32)%nat || ((9 <=? n)%nat && (n <=? 13)%nat))%bool.

Fixpoint skip_spaces (s : string) : string :=
  match s with
  | String c s' => if is_space c then skip_spaces s' else s
  | EmptyString => s
  end.

Definition read_sign (s : string) : Z * string :=
  match s with
  | String "-" s' => (-1, s')
  | String "+" s' => (1, s')
  | _ => (1, s)
  end.

(** [parseInt (s, 10)] of a string; [None] is [NaN]. *)
Definition parseInt_string (s : string) : option Z :=
  let (sg, s1) := read_sign (skip_spaces s) in
  match read_digits s1 0 O with
  | (_, O, _) => None
  | (v, _, _) => Some (sg * v)
  end.

(** The rational [m * 10 ^ e]. *)
Definition scale10 (m e : Z) : Q :=
  if 0 <=? e then Qred (inject_Z (m * 10 ^ e))
  else Qred (Qmake m (Z.to_pos (10 ^ (- e)))).

(** An exponent part, if the string starts with one, and the rest. *)
Definition read_exponent (s : string) : Z * string :=
  match s with
  | String c s' =>
      if (Ascii.eqb c "e" || Ascii.eqb c "E")%bool
      then let (sg, s1) := read_sign s' in
           match read_digits s1 0 O with
           | (_, O, _) => (0, s)
           | (v, _, s2) => (sg * v, s2)
           end
      else (0, s)
  | EmptyString => (0, s)
  end.

(** The decimal literal a string starts with, and the rest; [None] when
    there is no digit. *)
Definition read_float (s : string) : option (Q * string) :=
  let (sg, s1) := read_sign s in
  let '(ip, ni, s2) := read_digits s1 0 O in
  let '(m, nf, s3) :=
    match s2 with
    | String "." s2' => read_digits s2' ip O
    | _ => (ip, O, s2)
    end in
  match (ni + nf)%nat with
  | O => None
  | _ => let (e, s4) := read_exponent s3 in
         Some (scale10 (sg * m) (e - Z.of_nat nf), s4)
  end.

(** [parseFloat (s)] of a string: the longest prefix that is a decimal
    literal; [None] is [NaN]. *)
Definition parseFloat_string (s : string) : option Q :=
  option_map fst (read_float (skip_spaces s)).

(** [Number (s)] of a string: the whole string is a decimal literal, or
    is blank. *)
Definition number_of_string (s : string) : option Q :=
  match skip_spaces s with
  | EmptyString => Some 0%Q
  | s1 => match read_float s1 with
          | Some (q, rest) =>
              match skip_spaces rest with
              | EmptyString => Some q
              | _ => None
              end
          | None => None
          end
  end.

(** The decimal digits of a natural number, most significant first;
    [fuel] bounds their number. *)
Fixpoint digits_of (fuel : nat) (n : Z) (acc : string) : string :=
  match fuel with
  | O => acc
  | S fuel' =>
      let acc' := String (char_of_digit (n mod 10)) acc in
      if n <? 10 then acc' else digits_of fuel' (n / 10) acc'
  end.

Definition nat_to_string (n : Z) : string :=
  digits_of (S (Z.to_nat (Z.log2 n))) n EmptyString.

(** The digits after the point of [r / d], for [0 <= r < d], until the
    division is exact or [fuel] digits are written. *)
Fixpoint fraction_digits (fuel : nat) (r d : Z) : string :=
  match fuel with
  | O => EmptyString
  | S fuel' =>
      if r =? 0 then EmptyString
      else String (char_of_digit (10 * r / d))
                  (fraction_digits fuel' (10 * r mod d) d)
  end.

(** The plain decimal notation of a number: exact when the expansion
    terminates, cut after as many digits as the denominator has bits
    otherwise. Zero has no sign. The exponent notation the language
    writes below [1e-6] and from [1e21] on is left out. *)
Definition number_to_string (q : Q) : string :=
  let n := Qnum q in
  let d := Zpos (Qden q) in
  let a := Z.abs n in
  let frac := fraction_digits (Pos.size_nat (Qden q)) (a mod d) d in
  let sign := if n <? 0 then "-" else "" in
  let point := match frac with EmptyString => "" | _ => "." end in
  (sign ++ nat_to_string (a / d) ++ point ++ frac)%string.

(** *** Coercions and operators *)

(** [String (v)]. *)
Fixpoint to_string (v : value) : string :=
  match v with
  | VUndefined => "undefined"
  | VNull => "null"
  | VBool true => "true"
  | VBool false => "false"
  | VNum q => number_to_string q
  | VNaN => "NaN"
  | VStr s => s
  | VArr items =>
      let item x :=
        match x with
        | VUndefined | VNull => ""
        | _ => to_string x
        end in
      (fix join (l : list value) : string :=
         match l with
         | [] => ""
         | [x] => item x
         | x :: l' => item x ++ "," ++ join l'
         end) items
  | VObj _ => "[object Object]"
  | VInherited name =>
      if String.eqb name "__proto__" then "[object Object]"
      else "function "
           ++ (if String.eqb name "constructor" then "Object" else name)
           ++ "() { [native code] }"
  end.

(** [Number (v)]; [None] is [NaN]. *)
Definition to_number (v : value) : option Q :=
  match v with
  | VUndefined | VNaN => None
  | VNull => Some 0%Q
  | VBool b => Some (if b then 1%Q else 0%Q)
  | VNum q => Some q
  | VStr s => number_of_string s
  | VArr _ | VObj _ | VInherited _ => number_of_string (to_string v)
  end.

Definition of_number (n : option Q) : value :=
  match n with
  | Some q => VNum (Qred q)
  | None => VNaN
  end.

(** The truth value of [v] in a condition. *)
Definition truthy (v : value) : bool :=
  match v with
  | VUndefined | VNull | VNaN => false
  | VBool b => b
  | VNum q => negb (Qeq_bool q 0)
  | VStr s => negb (String.eqb s "")
  | VArr _ | VObj _ | VInherited _ => true
  end.

(** [a === b] on primitive values and on inherited members; two objects
    are never found equal, the model has no object identity. *)
Definition strict_eq (a b : value) : bool :=
  match a, b with
  | VUndefined, VUndefined => true
  | VNull, VNull => true
  | VBool x, VBool y => Bool.eqb x y
  | VNum x, VNum y => Qeq_bool x y
  | VStr x, VStr y => String.eqb x y
  | VInherited x, VInherited y => String.eqb x y
  | _, _ => false
  end.

Definition is_string_like (v : value) : bool :=
  match v with
  | VStr _ | VArr _ | VObj _ | VInherited _ => true
  | _ => false
  end.

(** The arithmetic operators, on exact rationals: the result is the one
    of the language up to the rounding of doubles. *)
Definition arith (op : Q -> Q -> Q) (a b : value) : value :=
  match to_number a, to_number b with
  | Some x, Some y => of_number (Some (op x y))
  | _, _ => VNaN
  end.

(** [a + b]: concatenation as soon as one side is a string (or an
    object, which turns into one), addition otherwise. *)
Definition add (a b : value) : value :=
  if (is_string_like a || is_string_like b)%bool
  then VStr (to_string a ++ to_string b)
  else arith Qplus a b.

Definition sub (a b : value) : value := arith Qminus a b.
Definition mul (a b : value) : value := arith Qmult a b.

(** [a / b]; a division by zero gives an infinity or [NaN] in the
    language and [NaN] here. *)
Definition div (a b : value) : value :=
  match to_number b with
  | Some y => if Qeq_bool y 0 then VNaN else arith Qdiv a b
  | None => VNaN
  end.

(** [- a]. *)
Definition neg (a : value) : value :=
  match to_number a with
  | Some x => of_number (Some (- x)%Q)
  | None => VNaN
  end.

(** [a < b] and [a >= b] on numbers; [false] when a side is [NaN]. *)
Definition lt (a b : value) : bool :=
  match to_number a, to_number b with
  | Some x, Some y => match (x ?= y)%Q with Lt => true | _ => false end
  | _, _ => false
  end.

Definition ge (a b : value) : bool :=
  match to_number a, to_number b with
  | Some x, Some y => match (x ?= y)%Q with Lt => false | _ => true end
  | _, _ => false
  end.

(** [Math.abs (a)]. *)
Definition abs (a : value) : value :=
  match to_number a with
  | Some x => of_number (Some (Qabs x))
  | None => VNaN
  end.

(** The names of the members every object inherits from
    [Object.prototype]. *)
Definition object_members : list string :=
  ["constructor"; "__defineGetter__"; "__defineSetter__"; "hasOwnProperty";
   "__lookupGetter__"; "__lookupSetter__"; "isPrototypeOf";
   "propertyIsEnumerable"; "toString"; "valueOf"; "__proto__";
   "toLocaleString"].

Definition inherited (k : string) : bool :=
  existsb (String.eqb k) object_members.

(** [v[k]]: the own property [k] of an object, else the member it
    inherits under that name, and [undefined] when there is neither; the
    item [k] of an array. The [length] and the methods of an array, the
    properties of a string and the members of an inherited member are
    not modelled: they read as [undefined]. *)
Definition own (v : value) (k : string) : value :=
  match v with
  | VObj fields =>
      match assoc k fields with
      | Some x => x
      | None => if inherited k then VInherited k else VUndefined
      end
  | VArr items =>
      match parseInt_string k with
      | Some i =>
          if (0 <=? i) && String.eqb (number_to_string (inject_Z i)) k
          then nth (Z.to_nat i) items VUndefined
          else VUndefined
      | None => VUndefined
      end
  | _ => VUndefined
  end.

(** [v[k]]: a [TypeError] on [undefined] and [null]. *)
Definition get (v : value) (k : string) : result value :=
  match v with
  | VUndefined | VNull =>
      Throw (Exn TypeError
               ("Cannot read property '" ++ k ++ "' of " ++ to_string v))
  | _ => Ok (own v k)
  end.

(** [k in v] for an object [v]: an own property, or a name every
    object inherits. *)
Definition has (k : string) (v : value) : bool :=
  match v with
  | VObj fields =>
      match assoc k fields with
      | Some _ => true
      | None => inherited k
      end
  | _ => false
  end.

(** [k in v]: own and inherited properties of an object, and a
    [TypeError] when [v] is a primitive value. For an array it is
    whether [v[k]] is there in the model: an item that is not
    [undefined]. For an inherited member, whose own members are not
    modelled, it is whether [k] is a name every object inherits. *)
Definition contains (k : value) (v : value) : result bool :=
  match v with
  | VObj _ => Ok (has (to_string k) v)
  | VArr _ => Ok (negb (strict_eq (own v (to_string k)) VUndefined))
  | VInherited _ => Ok (inherited (to_string k))
  | _ => Throw (Exn TypeError
                  ("Cannot use 'in' operator to search for '"
                   ++ to_string k ++ "' in " ++ to_string v))
  end.

(** [Object.keys (v)]; the keys of a string, its indices, are not
    modelled. *)
Definition keys (v : value) : result (list string) :=
  match v with
  | VObj fields => Ok (map fst fields)
  | VArr items =>
      Ok (map (fun n => number_to_string (inject_Z (Z.of_nat n)))
              (seq 0 (List.length items)))
  | VUndefined | VNull =>
      Throw (Exn TypeError "Cannot convert undefined or null to object")
  | _ => Ok []
  end.

(** The items a [for] loop over [v.length] visits; [undefined] and
    [null] have no [length]. *)
Definition elements (v : value) : result (list value) :=
  match v with
  | VArr items => Ok items
  | VUndefined | VNull =>
      Throw (Exn TypeError
               ("Cannot read property 'length' of " ++ to_string v))
  | _ => Ok []
  end.

(** A loop that pushes one record per item. *)
Fixpoint for_each (f : value -> result value) (l : list value)
  : result (list value) :=
  match l with
  | [] => Ok []
  | x :: l' => do y <- f x; do ys <- for_each f l'; Ok (y :: ys)
  end.

(** [s.split (sep)] on a value that may not be a string. *)
Definition split_value (sep : string) (v : value) : result (list value) :=
  match v with
  | VStr s => Ok (map VStr (split sep s))
  | _ => Throw (Exn TypeError
                  ("Cannot read property 'split' of " ++ to_string v))
  end.

Fixpoint characters (s : string) : list string :=
  match s with
  | EmptyString => []
  | String c s' => String c EmptyString :: characters s'
  end.

(** [v.split (sep)] when the separator is a value too: no separator, no
    cut; an empty one cuts between the characters. *)
Definition split_by (sep : value) (v : value) : result (list value) :=
  match v with
  | VStr s =>
      match sep with
      | VUndefined => Ok [v]
      | VStr EmptyString => Ok (map VStr (characters s))
      | _ => Ok (map VStr (split (to_string sep) s))
      end
  | _ => Throw (Exn TypeError
                  ("Cannot read property 'split' of " ++ to_string v))
  end.

Definition num (z : Z) : value := VNum (inject_Z z).

(** [v.toString ()], [v.toLowerCase ()], [v.slice (i, j)] and
    [v.replace (pat, by)] on a value that may not be a string. *)
Definition toString (v : value) : result value :=
  match v with
  | VUndefined | VNull =>
      Throw (Exn TypeError
               ("Cannot read property 'toString' of " ++ to_string v))
  | _ => Ok (VStr (to_string v))
  end.

Definition string_method (name : string) (f : string -> value) (v : value)
  : result value :=
  match v with
  | VStr s => Ok (f s)
  | VUndefined | VNull =>
      Throw (Exn TypeError
               ("Cannot read property '" ++ name ++ "' of " ++ to_string v))
  | _ => Throw (Exn TypeError (name ++ " is not a function"))
  end.

(** [parseInt (v)] and [parseFloat (v)] of any value. *)
Definition parseInt (v : value) : value :=
  match parseInt_string (to_string v) with
  | Some z => num z
  | None => VNaN
  end.

Definition parseFloat (v : value) : value :=
  match parseFloat_string (to_string v) with
  | Some q => VNum q
  | None => VNaN
  end.

Definition newline : string := String (ascii_of_nat 10) EmptyString.
Definition dquote : string := String (ascii_of_nat 34) EmptyString.

End JS.

(** ** The base class

    [base/Exchange.js] and [base/functions] are not part of the sources
    at hand. What the adapters use of them is modelled here, or taken as
    a parameter in [Helpers]. *)

Module Base.

Import JS.

(** *** Objects *)

Fixpoint set_field (k : string) (v : value) (fields : list (string * value))
  : list (string * value) :=
  match fields with
  | [] => [(k, v)]
  | (k', v') :: rest =>
      if String.eqb k k' then (k, v) :: rest
      else (k', v') :: set_field k v rest
  end.

(** [o[k] = v] on an object: the own property [k] is added or replaced.
    The assignment to [__proto__], which replaces the prototype of the
    object and adds no property, is left out. *)
Definition set (o : value) (k : string) (v : value) : value :=
  match o with
  | VObj fields => VObj (set_field k v fields)
  | _ => o
  end.

(** Modelled from the spec: [extend] of the base class, missing from the
    sources. Every adapter passes the request it built and the caller's
    [params] through it before sending; it is the merge of the two
    objects in which the entries of the second replace those of the
    first ([Object.assign ({}, a, b)]). *)
Definition extend (a b : value) : value :=
  match a, b with
  | VObj fa, VObj fb =>
      VObj (fold_left (fun acc kv => set_field (fst kv) (snd kv) acc) fb fa)
  | VObj _, _ => a
  | _, VObj _ => b
  | _, _ => VObj []
  end.

(** Modelled from the spec: [indexBy] of the base class, missing from
    the sources; section 4.1 has the market loader build its lookup maps
    from the list of markets, by symbol and by exchange-native id. *)
Definition indexBy (items : list value) (key : string) : value :=
  VObj (fold_left
          (fun acc m => set_field (to_string (own m key)) m acc) items []).

(** *** Defensive accessors *)

(** Modelled from the spec: [safeFloat], [safeInteger], [safeString],
    [safeString2] and [safeValue] of the base class, missing from the
    sources. Section 4.3: fields are parsed defensively, a missing or
    unusable field gives the default, which is [undefined] when the
    caller names none. The numeric ones read a number or a numeric
    string, [safeString] turns what is there into a string. *)
Definition safeFloat (o : value) (k : string) (default : value) : value :=
  match own o k with
  | VNum q => VNum q
  | VStr s =>
      match parseFloat_string s with
      | Some q => VNum q
      | None => default
      end
  | _ => default
  end.

Definition truncate (q : Q) : Z := Z.quot (Qnum q) (Zpos (Qden q)).

Definition safeInteger (o : value) (k : string) (default : value) : value :=
  match own o k with
  | VNum q => VNum (inject_Z (truncate q))
  | VStr s =>
      match parseInt_string s with
      | Some i => VNum (inject_Z i)
      | None => default
      end
  | _ => default
  end.

Definition safeString (o : value) (k : string) (default : value) : value :=
  match own o k with
  | VUndefined | VNull => default
  | x => VStr (to_string x)
  end.

Definition safeString2 (o : value) (k1 k2 : string) (default : value)
  : value :=
  match safeString o k1 VUndefined with
  | VUndefined => safeString o k2 default
  | x => x
  end.

Definition safeValue (o : value) (k : string) (default : value) : value :=
  match own o k with
  | VUndefined | VNull => default
  | x => x
  end.

(** *** Precision *)

Definition round_half_away (q : Q) : Z :=
  let n := Qnum q in
  let d := Zpos (Qden q) in
  Z.sgn n * ((2 * Z.abs n + d) / (2 * d)).

(** The last [k] decimal digits of [n], in front of [acc]. *)
Fixpoint fixed_digits (k : nat) (n : Z) (acc : string) : string :=
  match k with
  | O => acc
  | S k' => fixed_digits k' (n / 10) (String (char_of_digit (n mod 10)) acc)
  end.

Fixpoint drop_zeros (s : string) : string :=
  match s with
  | String "0" s' => drop_zeros s'
  | _ => s
  end.

Definition strip_zeros (s : string) : string :=
  rev_string EmptyString (drop_zeros (rev_string EmptyString s)).

(** Modelled from the spec: [decimalToPrecision (x, ROUND, places,
    DECIMAL_PLACES, NO_PADDING)] of [base/functions/number], missing
    from the sources; section 2 calls it numeric precision
    normalization. It rounds a number to [places] decimal places, half
    away from zero, and writes the digits in plain decimal notation with
    no padding zeros and no sign on zero. What it does when [x] is not a
    finite number is not modelled: a [TypeError] stands for it. *)
Definition decimalToPrecision (x : value) (places : nat) : result string :=
  match x with
  | VNum q =>
      let p := 10 ^ Z.of_nat places in
      let scaled := round_half_away (q * inject_Z p)%Q in
      let a := Z.abs scaled in
      let sign := if scaled <? 0 then "-" else "" in
      let frac := strip_zeros (fixed_digits places (a mod p) EmptyString) in
      let point := match frac with EmptyString => "" | _ => "." end in
      Ok (sign ++ nat_to_string (a / p) ++ point ++ frac)%string
  | _ => Throw (Exn TypeError "decimalToPrecision: not a finite number")
  end.

(** Modelled from the spec: [precisionFromString] of
    [base/functions/number], missing from the sources: the number of
    decimal places a decimal notation shows, zeros at its end not
    counted. *)
Definition precisionFromString (s : string) : nat :=
  match split "." (strip_zeros s) with
  | _ :: frac :: _ => String.length frac
  | _ => O
  end.

(** *** What stays a parameter

    Serialization, dates, signatures, the currency table and the
    list-level parsers of the base class, and [Math.log10]: the adapters
    only pass values through them. *)

Class Helpers : Type := {
  json : value -> string;
  iso8601 : value -> value;
  parse8601 : value -> value;
  commonCurrencyCode : value -> value;
  log10 : value -> value;
  urlencode : value -> string;
  implodeParams : string -> value -> string;
  extractParams : string -> list string;
  omit : value -> list string -> value;
  encode : value -> value;
  decode : string -> string;
  stringToBase64 : value -> string;
  hmac : string -> value -> string -> string;
  account : value;
  sum : value -> value -> value;
  parseBalance : value -> result value;
  parseOrderBook :
    option (value -> value -> value -> result value) ->
    value -> value -> value -> value -> value -> value -> result value;
  parseOrders :
    (value -> value -> result value) -> value -> value -> value -> value ->
    result value;
  parseTrades :
    (value -> value -> result value) -> value -> value -> value -> value ->
    value -> result value;
  parseOHLCVs :
    (value -> result value) -> value -> value -> value -> value -> value ->
    result value;
  parseTransactions : (value -> result value) -> value -> result value;
  filterBy : value -> string -> value -> value;
  filterBySymbol : value -> value -> value;
  filterByCurrencySinceLimit : value -> value -> value -> value -> value;
  valid_address : value -> bool
}.

(** *** The state of an exchange object and of its surroundings *)

Record instance : Type := {
  id : string;
  markets : value;
  markets_by_id : value;
  currencies : value;
  currencies_by_id : value;
  options : value;
  apiKey : value;
  secret : value
}.

(** What an adapter does to the outside: a request handed to the
    transport, and a symbol looked up in the market cache, with whether
    the cache was populated at that moment. *)
Inductive event : Type :=
| Sent (endpoint : string) (request : value)
| Resolved (symbol : value) (loaded : bool).

(** [respond] is what the request pipeline of the base class (signing,
    transport, error dispatch) gives for an endpoint and a request after
    a given history; [clock] is the successive readings of
    [milliseconds ()]. The trace has the latest event first. *)
Record world : Type := {
  this : instance;
  respond : list event -> string -> value -> result value;
  clock : nat -> Z;
  ticks : nat;
  trace : list event
}.

Definition with_this (f : instance -> instance) (w : world) : world :=
  {| this := f (this w); respond := respond w; clock := clock w;
     ticks := ticks w; trace := trace w |}.

Definition log (e : event) (w : world) : world :=
  {| this := this w; respond := respond w; clock := clock w;
     ticks := ticks w; trace := e :: trace w |}.

Definition tick (w : world) : world :=
  {| this := this w; respond := respond w; clock := clock w;
     ticks := S (ticks w); trace := trace w |}.

Definition set_options (o : value) (i : instance) : instance :=
  {| id := id i; markets := markets i; markets_by_id := markets_by_id i;
     currencies := currencies i; currencies_by_id := currencies_by_id i;
     options := o; apiKey := apiKey i; secret := secret i |}.

(** *** Asynchronous methods

    A method is a program over the operations of the base class that
    touch the cache, the clock or the network; an [await] is the
    continuation of its operation. *)
Inductive prog : Type :=
| Return (v : value)
| Raise (e : exn)
| LoadMarkets (k : prog)
| Market (symbol : value) (k : value -> prog)
| Currency (code : value) (k : value -> prog)
| Request (endpoint : string) (request : value) (k : value -> prog)
| Milliseconds (k : value -> prog)
| This (k : instance -> prog)
| SetOptions (o : value) (k : prog).

Definition lift {A : Type} (r : result A) (k : A -> prog) : prog :=
  match r with
  | Ok v => k v
  | Throw e => Raise e
  end.

Notation "'let!' x := r 'in' k" := (lift r (fun x => k))
  (at level 10, x name, r at level 100, k at level 200).

(** What follows [p]: [k] on the value [p] returns. *)
Fixpoint and_then (p : prog) (k : value -> prog) : prog :=
  match p with
  | Return v => k v
  | Raise e => Raise e
  | LoadMarkets p' => LoadMarkets (and_then p' k)
  | Market symbol k' => Market symbol (fun m => and_then (k' m) k)
  | Currency code k' => Currency code (fun c => and_then (k' c) k)
  | Request endpoint request k' =>
      Request endpoint request (fun r => and_then (k' r) k)
  | Milliseconds k' => Milliseconds (fun t => and_then (k' t) k)
  | This k' => This (fun i => and_then (k' i) k)
  | SetOptions o p' => SetOptions o (and_then p' k)
  end.

(** Modelled from the spec: [market (symbol)] and [currency (code)] of
    the base class, missing from the sources: the lookup of a symbol in
    the market cache, which raises [ExchangeError] on a symbol the cache
    does not hold (section 8: the unknown-symbol failure). *)
Definition market (i : instance) (symbol : value) : result value :=
  if truthy (markets i) then
    match symbol with
    | VStr s =>
        if has s (markets i) then Ok (own (markets i) s)
        else Throw (Exn ExchangeError
                      (id i ++ " does not have market symbol " ++ s))
    | _ => Throw (Exn ExchangeError
                    (id i ++ " does not have market symbol "
                     ++ to_string symbol))
    end
  else Throw (Exn ExchangeError (id i ++ " markets not loaded")).

Definition currency (i : instance) (code : value) : result value :=
  if truthy (currencies i) then
    match code with
    | VStr s =>
        if has s (currencies i) then Ok (own (currencies i) s)
        else Throw (Exn ExchangeError
                      (id i ++ " does not have currency code " ++ s))
    | _ => Throw (Exn ExchangeError
                    (id i ++ " does not have currency code "
                     ++ to_string code))
    end
  else Throw (Exn ExchangeError (id i ++ " currencies not loaded")).

(** [marketId (symbol)]: the exchange-native id of the market of a
    symbol. *)
Definition MarketId (symbol : value) (k : value -> prog) : prog :=
  Market symbol (fun m => k (own m "id")).

Definition skip (w : world) : result unit * world := (Ok tt, w).

(** The run of a program; [load] is what [loadMarkets ()] does. *)
Fixpoint exec (load : world -> result unit * world) (p : prog) (w : world)
  : result value * world :=
  match p with
  | Return v => (Ok v, w)
  | Raise e => (Throw e, w)
  | LoadMarkets k =>
      match load w with
      | (Ok _, w') => exec load k w'
      | (Throw e, w') => (Throw e, w')
      end
  | Market symbol k =>
      let w' := log (Resolved symbol (truthy (markets (this w)))) w in
      match market (this w) symbol with
      | Ok m => exec load (k m) w'
      | Throw e => (Throw e, w')
      end
  | Currency code k =>
      match currency (this w) code with
      | Ok c => exec load (k c) w
      | Throw e => (Throw e, w)
      end
  | Request endpoint request k =>
      let w' := log (Sent endpoint request) w in
      match respond w (trace w) endpoint request with
      | Ok response => exec load (k response) w'
      | Throw e => (Throw e, w')
      end
  | Milliseconds k =>
      exec load (k (VNum (inject_Z (clock w (ticks w))))) (tick w)
  | This k => exec load (k (this w)) w
  | SetOptions o k => exec load k (with_this (set_options o) w)
  end.

Definition items_of (v : value) : list value :=
  match v with
  | VArr items => items
  | VObj fields => map snd fields
  | _ => []
  end.

Definition currency_entries (m : value) : list value :=
  [VObj [("id", match own m "baseId" with
                | VUndefined => own m "base"
                | x => x
                end);
         ("code", own m "base")];
   VObj [("id", match own m "quoteId" with
                | VUndefined => own m "quote"
                | x => x
                end);
         ("code", own m "quote")]].

(** Modelled from the spec: [setMarkets] and [loadMarkets] of the base
    class, missing from the sources. Section 4.1: the loader fetches the
    instrument list once and caches it, with lookup maps by symbol and
    by exchange-native id; later calls reuse the cache. The currencies
    of the cache are the base and quote currencies of the markets. *)
Definition setMarkets (ms : value) (i : instance) : instance :=
  let cs := flat_map currency_entries (items_of ms) in
  {| id := id i;
     markets := indexBy (items_of ms) "symbol";
     markets_by_id := indexBy (items_of ms) "id";
     currencies := indexBy cs "code";
     currencies_by_id := indexBy cs "id";
     options := options i; apiKey := apiKey i; secret := secret i |}.

Definition loadMarkets (fetchMarkets : prog) (w : world)
  : result unit * world :=
  if truthy (markets (this w)) then (Ok tt, w)
  else match exec skip fetchMarkets w with
       | (Ok ms, w') => (Ok tt, with_this (setMarkets ms) w')
       | (Throw e, w') => (Throw e, w')
       end.

(** The run of a method of an adapter whose market loader is
    [fetchMarkets]. *)
Definition run (fetchMarkets : prog) (p : prog) (w : world)
  : result value * world :=
  exec (loadMarkets fetchMarkets) p w.

(** *** Credentials, addresses, error tables *)

Definition credential (i : instance) (key : string) : value :=
  if String.eqb key "apiKey" then apiKey i
  else if String.eqb key "secret" then secret i
  else VUndefined.

(** Modelled from the spec: [checkRequiredCredentials] of the base
    class, missing from the sources. Section 4.2: a private request
    fails fast with [AuthenticationError] when a credential the exchange
    requires is missing. The table of required credentials is the
    adapter's. *)
Fixpoint checkRequiredCredentials (required : list (string * bool))
  (i : instance) : result unit :=
  match required with
  | [] => Ok tt
  | (key, needed) :: rest =>
      if (needed && negb (truthy (credential i key)))%bool
      then Throw (Exn AuthenticationError
                    (id i ++ " requires `" ++ key ++ "`"))
      else checkRequiredCredentials rest i
  end.

(** Modelled from the spec: [checkAddress] of the base class, missing
    from the sources. Section 8: an invalid destination address fails
    validation; which addresses are valid is the parameter
    [valid_address]. *)
Definition checkAddress `{Helpers} (i : instance) (address : value)
  : result value :=
  if valid_address address then Ok address
  else Throw (Exn InvalidAddress
                (id i ++ " address is invalid or has less than the minimum number of characters: "
                 ++ to_string address)).

(** Modelled from the spec: [findBroadlyMatchedKey] of the base class,
    missing from the sources. Section 4.4: the broad table is matched by
    substring; the first key of the table, in its order, that occurs in
    the string is the match. A string method called on what is not a
    string is a [TypeError]. *)
Fixpoint first_match (table : list (string * error_class)) (s : string)
  : option string :=
  match table with
  | [] => None
  | (key, _) :: rest => if includes key s then Some key else first_match rest s
  end.

Definition findBroadlyMatchedKey (broad : list (string * error_class))
  (message : value) : result (option string) :=
  match broad, message with
  | [], _ => Ok None
  | _, VStr s => Ok (first_match broad s)
  | _, _ => Throw (Exn TypeError "string.indexOf is not a function")
  end.

(** [key in table] for a table of error classes, which is an object
    literal of [describe ()]: an own key, or a name every object
    inherits. *)
Definition listed (table : list (string * error_class)) (key : string)
  : bool :=
  match assoc key table with
  | Some _ => true
  | None => inherited key
  end.

(** What [throw new table[key] (message)] throws once [key in table]
    holds. Under an own key it is the error of the class the table
    gives. Under an inherited name there is no error class: [Object]
    makes a String object of the message, and that is what is thrown;
    the other members are no constructors and [new] fails with a
    [TypeError]. *)
Definition throw_new (table : list (string * error_class))
  (key message : string) : exn :=
  match assoc key table with
  | Some class => Exn class message
  | None =>
      if String.eqb key "constructor" then Exn StringObject message
      else Exn TypeError "table[key] is not a constructor"
  end.

End Base.

(** ** The [dx] adapter *)

Module Dx.

Import JS Base.

Section Adapter.

Context `{Helpers}.

(** *** What [describe ()] declares *)

Definition name : string := "dx".

Definition api_url : string := "https://acl.dx.exchange".

Definition timeframes : value :=
  VObj [("1m", VStr "1m"); ("5m", VStr "5m"); ("1h", VStr "1h");
        ("1d", VStr "1d")].

Definition requiredCredentials : list (string * bool) :=
  [("apiKey", true); ("secret", false)].

Definition exact : list (string * error_class) :=
  [("EOF", BadRequest)].

Definition broad : list (string * error_class) :=
  [("json: cannot unmarshal object into Go value of type", BadRequest);
   ("not allowed to cancel this order", BadRequest);
   ("request timed out", RequestTimeout);
   ("balance_freezing.freezing validation.balance_freeze", InsufficientFunds);
   ("order_creation.validation.validation", InvalidOrder)].

Definition default_options : value :=
  VObj [("orderTypes", VObj [("market", num 1); ("limit", num 2)]);
        ("orderSide", VObj [("buy", num 1); ("sell", num 2)])].

(** *** Numbers on the wire *)

(** [numberToObject (number)]: the value/decimals pair the exchange takes
    for prices and quantities. The digits are those of the exact number:
    [parseInt] rounds them from [2^53] on. *)
Definition numberToObject (number : value) : result value :=
  do string <- decimalToPrecision number 10;
  let decimals := precisionFromString string in
  let valueStr := replace "." "" string in
  Ok (VObj [("value", safeInteger (VObj [("a", VStr valueStr)]) "a" VUndefined);
            ("decimals", num (Z.of_nat decimals))]).

(** [objectToNumber (obj)]: the number that the value and the decimals
    write in exponent notation, read exactly where [parseFloat] rounds
    to a double. *)
Definition objectToNumber (obj : value) : result value :=
  do v <- get obj "value";
  do value <- decimalToPrecision v 0;
  do d <- get obj "decimals";
  do decimals <- decimalToPrecision (neg d) 0;
  Ok (safeFloat (VObj [("a", VStr (value ++ "e" ++ decimals))]) "a" VUndefined).

(** *** Markets *)

(** The body of the loop of [fetchMarkets]: the market of one
    instrument. *)
Definition parseInstrument (instrument : value) : result value :=
  let id := safeString instrument "id" VUndefined in
  let numericId := safeInteger instrument "id" VUndefined in
  let asset := safeValue instrument "asset" (VObj []) in
  let fullName := safeString asset "fullName" VUndefined in
  do parts <- split_value "/" fullName;
  let base := nth 0 parts VUndefined in
  let quote := nth 1 parts VUndefined in
  do multiplier <- get instrument "meQuantityMultiplier";
  let amountPrecision :=
    if negb (strict_eq multiplier (num 0)) then log10 multiplier else num 0 in
  let base := commonCurrencyCode base in
  let quote := commonCurrencyCode quote in
  let baseId := safeString asset "baseCurrencyId" VUndefined in
  let quoteId := safeString asset "quotedCurrencyId" VUndefined in
  let baseNumericId := safeInteger asset "baseCurrencyId" VUndefined in
  let quoteNumericId := safeInteger asset "quotedCurrencyId" VUndefined in
  let symbol := add (add base (VStr "/")) quote in
  Ok (VObj
        [("id", id); ("numericId", numericId); ("symbol", symbol);
         ("base", base); ("quote", quote);
         ("baseId", baseId); ("quoteId", quoteId);
         ("baseNumericId", baseNumericId);
         ("quoteNumericId", quoteNumericId);
         ("info", instrument);
         ("precision",
          VObj [("amount", amountPrecision);
                ("price", safeInteger asset "tailDigits" VUndefined)]);
         ("limits",
          VObj [("amount",
                 VObj [("min", safeFloat instrument "minOrderQuantity" VUndefined);
                       ("max", safeFloat instrument "maxOrderQuantity" VUndefined)]);
                ("price", VObj [("min", num 0); ("max", VUndefined)]);
                ("cost", VObj [("min", num 0); ("max", VUndefined)])])]).

Definition fetchMarkets (params : value) : prog :=
  Request "publicPostAssetManagementGetInstruments" params (fun markets =>
  let! result := get markets "result" in
  let! instruments := get result "instruments" in
  let! result :=
    (do items <- elements instruments;
     do ms <- for_each parseInstrument items;
     Ok (VArr ms)) in
  Return result).

(** *** Tickers and candles *)

Definition parseTicker (i : instance) (ticker market : value) : result value :=
  do tickerKeys <- keys ticker;
  let tickerKey := nth 0 (map VStr tickerKeys) VUndefined in
  let instrumentId := safeInteger (VObj [("a", tickerKey)]) "a" VUndefined in
  do ticker <- get ticker (to_string tickerKey);
  do m <- get (markets_by_id i) (to_string instrumentId);
  do symbol <- get m "symbol";
  let last := safeFloat ticker "last" VUndefined in
  let timestamp := div (safeInteger ticker "time" VUndefined) (num 1000) in
  Ok (VObj
        [("symbol", symbol);
         ("timestamp", timestamp);
         ("datetime", iso8601 timestamp);
         ("high", safeFloat ticker "high24" VUndefined);
         ("low", safeFloat ticker "low24" VUndefined);
         ("bid", VUndefined);
         ("bidVolume", VUndefined);
         ("ask", VUndefined);
         ("askVolume", VUndefined);
         ("vwap", VUndefined);
         ("open", VUndefined);
         ("close", last);
         ("last", last);
         ("previousClose", VUndefined);
         ("change", safeFloat ticker "change" VUndefined);
         ("percentage", VUndefined);
         ("average", VUndefined);
         ("baseVolume", safeFloat ticker "volume24" VUndefined);
         ("quoteVolume", safeFloat ticker "volume24converted" VUndefined);
         ("info", ticker)]).

Definition fetchTicker (symbol params : value) : prog :=
  LoadMarkets (
  Market symbol (fun market =>
  let request :=
    VObj [("instrumentIds", VArr [own market "numericId"]);
          ("currencyId", own market "quoteNumericId")] in
  Request "publicPostAssetManagementGetTicker" (extend request params)
    (fun response =>
  This (fun i =>
  let! result := get response "result" in
  let! tickers := get result "tickers" in
  let! ticker := parseTicker i tickers market in
  Return ticker)))).

Definition parseOHLCV (ohlcv : value) : result value :=
  Ok (VArr [mul (safeFloat ohlcv "date" VUndefined) (num 1000);
            safeFloat ohlcv "open" VUndefined;
            safeFloat ohlcv "high" VUndefined;
            safeFloat ohlcv "low" VUndefined;
            safeFloat ohlcv "close" VUndefined;
            safeFloat ohlcv "volume" VUndefined]).

Definition fetchOHLCV (symbol timeframe since limit params : value) : prog :=
  LoadMarkets (
  Market symbol (fun market =>
  let request :=
    VObj [("timestampFrom", since);
          ("timestampTill", VUndefined);
          ("instrumentId", own market "numericId");
          ("type", own timeframes (to_string timeframe));
          ("pagination", VObj [("limit", limit); ("offset", num 0)])] in
  Request "publicPostAssetManagementHistory" (extend request params)
    (fun response =>
  let! result := get response "result" in
  let! assets := get result "assets" in
  let! candles := parseOHLCVs parseOHLCV assets market timeframe since limit in
  Return candles))).

(** *** Orders *)

Definition parseOrder (i : instance) (order market : value) : result value :=
  let innerOrder := safeValue order "order" VUndefined in
  let wrapped := negb (strict_eq innerOrder VUndefined) in
  (* fetchClosedOrders returns orders in an extra object *)
  let order := if wrapped then innerOrder else order in
  let orderStatusMap :=
    if wrapped then VObj [("1", VStr "closed"); ("2", VStr "canceled")]
    else VObj [("1", VStr "open")] in
  do direction <- get order "direction";
  do orderSide <- get (options i) "orderSide";
  do sell <- get orderSide "sell";
  let side := if strict_eq direction sell then VStr "sell" else VStr "buy" in
  let orderStatus := safeString order "status" VUndefined in
  do known <- contains orderStatus orderStatusMap;
  let status :=
    if known then own orderStatusMap (to_string orderStatus)
    else VUndefined in
  let marketId := safeString order "instrumentId" VUndefined in
  do listed <- contains marketId (markets_by_id i);
  let market :=
    if listed then own (markets_by_id i) (to_string marketId) else market in
  do symbol <- (if listed then get market "symbol" else Ok VUndefined);
  do orderTypes <- get (options i) "orderTypes";
  do kind <- get order "orderType";
  do marketType <- get orderTypes "market";
  let orderType :=
    if strict_eq kind marketType then VStr "market" else VStr "limit" in
  let timestamp := mul (own order "time") (num 1000) in
  do quantity <- objectToNumber (own order "quantity");
  do filledQuantity <- objectToNumber (own order "filledQuantity");
  let id := safeString order "externalOrderId" VUndefined in
  let datetime := iso8601 timestamp in
  do price <- objectToNumber (own order "price");
  Ok (VObj
        [("info", order);
         ("id", id);
         ("timestamp", timestamp);
         ("datetime", datetime);
         ("lastTradeTimestamp", VUndefined);
         ("symbol", symbol);
         ("type", orderType);
         ("side", side);
         ("price", price);
         ("average", VUndefined);
         ("amount", quantity);
         ("remaining", sub quantity filledQuantity);
         ("filled", filledQuantity);
         ("status", status);
         ("fee", VUndefined)]).

(** The common body of [fetchOpenOrders] and [fetchClosedOrders]. *)
Definition fetchOrdersFrom (endpoint list_key : string)
  (symbol since limit params : value) : prog :=
  LoadMarkets (
  let request :=
    VObj [("pagination", VObj [("limit", limit); ("offset", num 0)])] in
  let send (market request : value) :=
    Request endpoint (extend request params) (fun response =>
    This (fun i =>
    let! result := get response "result" in
    let! orders := get result list_key in
    let! parsed := parseOrders (parseOrder i) orders market since limit in
    Return parsed)) in
  if negb (strict_eq symbol VUndefined)
  then Market symbol (fun market =>
         send market (set request "instrumentId" (own market "numericId")))
  else send VUndefined request).

Definition fetchOpenOrders : value -> value -> value -> value -> prog :=
  fetchOrdersFrom "privatePostOrderManagementOpenOrders" "orders".

Definition fetchClosedOrders : value -> value -> value -> value -> prog :=
  fetchOrdersFrom "privatePostOrderManagementOrderHistory" "ordersForHistory".

Definition parseBidAsk (bidask priceKey amountKey : value) : result value :=
  do p <- get bidask (to_string priceKey);
  do price <- objectToNumber p;
  do a <- get bidask (to_string amountKey);
  do amount <- objectToNumber a;
  Ok (VArr [price; amount]).

Definition fetchOrderBook (symbol limit params : value) : prog :=
  LoadMarkets (
  Market symbol (fun market =>
  let request := VObj [("instrumentId", own market "numericId")] in
  Request "publicPostOrderManagementGetOrderBook" (extend request params)
    (fun response =>
  let orderbook := safeValue response "result" VUndefined in
  let! book :=
    parseOrderBook (Some parseBidAsk) orderbook VUndefined
      (VStr "sell") (VStr "buy") (VStr "price") (VStr "qty") in
  Return book))).

Definition createOrder (symbol type side amount price params : value)
  : prog :=
  LoadMarkets (
  This (fun i =>
  let! orderSide := get (options i) "orderSide" in
  let direction := safeInteger orderSide (to_string side) VUndefined in
  Market symbol (fun market =>
  let! quantity := numberToObject amount in
  let order :=
    VObj [("direction", direction);
          ("instrumentId", own market "numericId");
          ("orderType", num 2);
          ("quantity", quantity)] in
  let! orderTypes := get (options i) "orderTypes" in
  let! orderType := get orderTypes (to_string type) in
  let order := set order "orderType" orderType in
  let! order :=
    (if strict_eq type (VStr "limit")
     then do p <- numberToObject price; Ok (set order "price" p)
     else Ok order) in
  let request := VObj [("order", order)] in
  Request "privatePostOrderManagementCreate" (extend request params)
    (fun result =>
  (* todo: rewrite for parseOrder *)
  let! inner := get result "result" in
  let! id := get inner "externalOrderId" in
  Return (VObj [("info", result); ("id", id)]))))).

Definition cancelOrder (id symbol params : value) : prog :=
  let request := VObj [("externalOrderId", id)] in
  Request "privatePostOrderManagementCancel" (extend request params) Return.

(** *** Session and balance *)

Definition signIn (params : value) : prog :=
  This (fun i =>
  let! _ := checkRequiredCredentials requiredCredentials i in
  let request := VObj [("token", apiKey i); ("secret", secret i)] in
  Request "publicPostAuthorizationLoginByToken" (extend request params)
    (fun response =>
  let! result := get response "result" in
  let! expiresIn := get result "expiry" in
  Milliseconds (fun now =>
  This (fun i =>
  let opts := set (options i) "expires" (sum now (mul expiresIn (num 1000))) in
  let! token := get result "token" in
  SetOptions (set opts "accessToken" token) (Return response))))).

(** The loop of [fetchBalance] over the currency ids of the response. *)
Fixpoint collectBalances (i : instance) (balances : value)
  (currencyIds : list string) (result : value) : JS.result value :=
  match currencyIds with
  | [] => Ok result
  | currencyId :: rest =>
      let balance := safeValue balances currencyId (VObj []) in
      do listed <- contains (VStr currencyId) (currencies_by_id i);
      do result <-
        (if listed then
           do code <- get (own (currencies_by_id i) currencyId) "code";
           let account :=
             VObj [("free", safeFloat balance "available" VUndefined);
                   ("used", safeFloat balance "frozen" VUndefined);
                   ("total", safeFloat balance "total" VUndefined)] in
           Ok (set result (to_string code) account)
         else Ok result);
      collectBalances i balances rest result
  end.

Definition fetchBalance (params : value) : prog :=
  LoadMarkets (
  Request "privatePostBalanceGet" params (fun response =>
  This (fun i =>
  let result := VObj [("info", response)] in
  let! inner := get response "result" in
  let balances := safeValue inner "balance" VUndefined in
  let! currencyIds := keys balances in
  let! result := collectBalances i balances currencyIds result in
  let! balance := parseBalance result in
  Return balance))).

(** *** Signing and error dispatch *)

Definition sign (path api method : string) (params headers body : value)
  : prog :=
  let params :=
    match params with
    | VArr [] =>
        (* In PHP params = array () causes this to fail, because
           the API requests an object, not an array, even if it is empty *)
        VObj [("__associative", VBool true)]
    | _ => params
    end in
  Milliseconds (fun now =>
  let parameters :=
    VObj [("jsonrpc", VStr "2.0");
          ("id", now);
          ("method", VStr path);
          ("params", VArr [params])] in
  let url := api_url in
  let headers := VObj [("Content-Type", VStr "application/json-rpc")] in
  let url :=
    if String.eqb method "GET" then url ++ "?" ++ urlencode parameters
    else url in
  let body :=
    if String.eqb method "GET" then body else VStr (json parameters) in
  let finish (headers : value) :=
    Return (VObj [("url", VStr url); ("method", VStr method);
                  ("body", body); ("headers", headers)]) in
  if String.eqb api "private" then
    This (fun i =>
    let token := safeString (options i) "accessToken" VUndefined in
    if strict_eq token VUndefined
    then Raise (Exn AuthenticationError
                  (id i ++ " " ++ path
                   ++ " endpoint requires a prior call to signIn() method"))
    else
      let expires := safeInteger (options i) "expires" VUndefined in
      if negb (strict_eq expires VUndefined)
      then Milliseconds (fun now =>
             if ge now expires
             then Raise (Exn AuthenticationError
                           (id i ++ " accessToken expired, call signIn() method"))
             else finish (set headers "Authorization" token))
      else finish (set headers "Authorization" token))
  else finish headers).

(** The class and the message of the exception [handleErrors] throws
    for a response, [Ok tt] when it returns. *)
Definition handleErrors (i : instance) (response : value) : result unit :=
  if negb (truthy response) then Ok tt (* fallback to default error handler *)
  else
    do error <- get response "error";
    if truthy error then
      let feedback := (id i ++ " " ++ json response)%string in
      if listed exact (to_string error)
      then Throw (throw_new exact (to_string error) feedback)
      else
        do broadKey <- findBroadlyMatchedKey broad error;
        match broadKey with
        | Some key => Throw (throw_new broad key feedback)
        | None => Throw (Exn ExchangeError feedback) (* unknown error *)
        end
    else Ok tt.

End Adapter.

End Dx.

(** ** The [gemini] adapter *)

Module Gemini.

Import JS Base.

Section Adapter.

Context `{Helpers}.

(** The table of required credentials is the one of the base class,
    which the adapter does not override. *)
Variable requiredCredentials : list (string * bool).

(** *** What [describe ()] declares *)

Definition name : string := "Gemini".

Definition version : string := "v1".

Definition api_urls : value :=
  VObj [("public", VStr "https://api.gemini.com");
        ("private", VStr "https://api.gemini.com");
        ("web", VStr "https://docs.gemini.com")].

Definition exact : list (string * error_class) :=
  [("AuctionNotOpen", BadRequest);
   ("ClientOrderIdTooLong", BadRequest);
   ("ClientOrderIdMustBeString", BadRequest);
   ("ConflictingOptions", BadRequest);
   ("EndpointMismatch", BadRequest);
   ("EndpointNotFound", BadRequest);
   ("IneligibleTiming", BadRequest);
   ("InsufficientFunds", InsufficientFunds);
   ("InvalidJson", BadRequest);
   ("InvalidNonce", InvalidNonce);
   ("InvalidOrderType", InvalidOrder);
   ("InvalidPrice", InvalidOrder);
   ("InvalidQuantity", InvalidOrder);
   ("InvalidSide", InvalidOrder);
   ("InvalidSignature", AuthenticationError);
   ("InvalidSymbol", BadRequest);
   ("InvalidTimestampInPayload", BadRequest);
   ("Maintenance", ExchangeNotAvailable);
   ("MarketNotOpen", InvalidOrder);
   ("MissingApikeyHeader", AuthenticationError);
   ("MissingOrderField", InvalidOrder);
   ("MissingRole", AuthenticationError);
   ("MissingPayloadHeader", AuthenticationError);
   ("MissingSignatureHeader", AuthenticationError);
   ("NoSSL", AuthenticationError);
   ("OptionsMustBeArray", BadRequest);
   ("OrderNotFound", OrderNotFound);
   ("RateLimit", DDoSProtection);
   ("System", ExchangeError);
   ("UnsupportedOption", BadRequest)].

Definition broad : list (string * error_class) := [].

Definition default_options : value :=
  VObj [("fetchMarketsMethod", VStr "fetch_markets_from_web")].

(** *** Markets *)

(** The body of the loop of [fetchMarketsFromWeb]: the market of one row
    of the table of symbols and minimums. *)
Definition parseRow (error : string) (row : string) : result value :=
  let cells := split ("</td>" ++ newline) row in
  let numCells := List.length cells in
  if (numCells <? 7)%nat then Throw (Exn NotSupported error)
  else
    let cell n := nth n cells EmptyString in
    let id := replace "<td>" "" (cell 0%nat) in
    let id :=
      replace ("<code class=" ++ dquote ++ "prettyprint" ++ dquote ++ ">") "" id in
    let id := replace "</code>" "" id in
    let baseId := replace "<td>" "" (cell 2%nat) in
    let quoteId := replace "<td>" "" (cell 1%nat) in
    let minAmountAsString := replace "<td>" "" (cell 3%nat) in
    let amountTickSizeAsString := replace "<td>" "" (cell 4%nat) in
    let priceTickSizeAsString := replace "<td>" "" (cell 5%nat) in
    let minAmount := split " " minAmountAsString in
    let amountPrecision := split " " amountTickSizeAsString in
    let pricePrecision := split " " priceTickSizeAsString in
    let base := commonCurrencyCode (VStr baseId) in
    let quote := commonCurrencyCode (VStr quoteId) in
    let symbol := add (add base (VStr "/")) quote in
    let baseId := toLowerCase baseId in
    let quoteId := toLowerCase quoteId in
    let precision :=
      VObj [("amount",
             num (Z.of_nat (precisionFromString (nth 0 amountPrecision EmptyString))));
            ("price",
             num (Z.of_nat (precisionFromString (nth 0 pricePrecision EmptyString))))] in
    let active := VUndefined in
    Ok (VObj
          [("id", VStr id);
           ("info", VStr row);
           ("symbol", symbol);
           ("base", base);
           ("quote", quote);
           ("baseId", VStr baseId);
           ("quoteId", VStr quoteId);
           ("active", active);
           ("precision", precision);
           ("limits",
            VObj [("amount",
                   VObj [("min", parseFloat (VStr (nth 0 minAmount EmptyString)));
                         ("max", VUndefined)]);
                  ("price", VObj [("min", VUndefined); ("max", VUndefined)]);
                  ("cost", VObj [("min", VUndefined); ("max", VUndefined)])])]).

Definition fetchMarketsFromWeb (symbols params : value) : prog :=
  Request "webGetRestApi" params (fun response =>
  This (fun i =>
  let! sections :=
    split_value
      ("<h1 id=" ++ dquote ++ "symbols-and-minimums" ++ dquote
       ++ ">Symbols and minimums</h1>")
      response in
  let numSections := List.length sections in
  let error :=
    (id i ++ " the " ++ name
     ++ " API doc HTML markup has changed, breaking the parser of order limits and precision info for "
     ++ name ++ " markets.")%string in
  if negb (numSections =? 2)%nat then Raise (Exn NotSupported error)
  else
    let tables := split "tbody>" (to_string (nth 1 sections VUndefined)) in
    let numTables := List.length tables in
    if (numTables <? 2)%nat then Raise (Exn NotSupported error)
    else
      let rows := split ("<tr>" ++ newline) (nth 1 tables EmptyString) in
      let numRows := List.length rows in
      if (numRows <? 2)%nat then Raise (Exn NotSupported error)
      else
        (* skip the first element (empty string) *)
        let! result := for_each (fun row => parseRow error (to_string row))
                                (map VStr (tl rows)) in
        Return (VArr result))).

(** The body of the loop of [fetchMarketsFromAPI]: the market of one
    symbol id. *)
Definition parseSymbolId (id : value) : result value :=
  let market := id in
  do baseId <- string_method "slice" (fun s => VStr (slice 0 3 s)) id;
  do quoteId <- string_method "slice" (fun s => VStr (slice 3 6 s)) id;
  do base <- string_method "toUpperCase" (fun s => VStr (toUpperCase s)) baseId;
  do quote <- string_method "toUpperCase" (fun s => VStr (toUpperCase s)) quoteId;
  let base := commonCurrencyCode base in
  let quote := commonCurrencyCode quote in
  let symbol := add (add base (VStr "/")) quote in
  let precision := VObj [("amount", VUndefined); ("price", VUndefined)] in
  Ok (VObj
        [("id", id);
         ("info", market);
         ("symbol", symbol);
         ("base", base);
         ("quote", quote);
         ("baseId", baseId);
         ("quoteId", quoteId);
         ("precision", precision);
         ("limits",
          VObj [("amount", VObj [("min", VUndefined); ("max", VUndefined)]);
                ("price", VObj [("min", VUndefined); ("max", VUndefined)]);
                ("cost", VObj [("min", VUndefined); ("max", VUndefined)])])]).

Definition fetchMarketsFromAPI (params : value) : prog :=
  Request "publicGetSymbols" params (fun response =>
  let! result :=
    (do items <- elements response;
     do ms <- for_each parseSymbolId items;
     Ok (VArr ms)) in
  Return result).

(** [fetchMarkets] calls the method the option [fetchMarketsMethod]
    names, with [params] as its first argument. *)
Definition fetchMarkets (params : value) : prog :=
  This (fun i =>
  let method :=
    safeValue (options i) "fetchMarketsMethod" (VStr "fetch_markets_from_api") in
  match method with
  | VStr m =>
      if (String.eqb m "fetch_markets_from_web"
          || String.eqb m "fetchMarketsFromWeb")%bool
      then fetchMarketsFromWeb params (VObj [])
      else if (String.eqb m "fetch_markets_from_api"
               || String.eqb m "fetchMarketsFromAPI")%bool
      then fetchMarketsFromAPI params
      else Raise (Exn TypeError "this[method] is not a function")
  | _ => Raise (Exn TypeError "this[method] is not a function")
  end).

(** *** Public data *)

Definition fetchOrderBook (symbol limit params : value) : prog :=
  LoadMarkets (
  MarketId symbol (fun marketId =>
  let request := VObj [("symbol", marketId)] in
  let request :=
    if negb (strict_eq limit VUndefined)
    then set (set request "limit_bids" limit) "limit_asks" limit
    else request in
  Request "publicGetBookSymbol" (extend request params) (fun response =>
  let! book :=
    parseOrderBook None response VUndefined
      (VStr "bids") (VStr "asks") (VStr "price") (VStr "amount") in
  Return book))).

Definition fetchTicker (symbol params : value) : prog :=
  LoadMarkets (
  Market symbol (fun market =>
  let request := VObj [("symbol", own market "id")] in
  Request "publicGetPubtickerSymbol" (extend request params) (fun ticker =>
  let! volume := get ticker "volume" in
  let timestamp := safeInteger volume "timestamp" VUndefined in
  let baseVolume := safeFloat market "base" VUndefined in
  let quoteVolume := safeFloat market "quote" VUndefined in
  let last := safeFloat ticker "last" VUndefined in
  Return
    (VObj
       [("symbol", symbol);
        ("timestamp", timestamp);
        ("datetime", iso8601 timestamp);
        ("high", VUndefined);
        ("low", VUndefined);
        ("bid", safeFloat ticker "bid" VUndefined);
        ("bidVolume", VUndefined);
        ("ask", safeFloat ticker "ask" VUndefined);
        ("askVolume", VUndefined);
        ("vwap", VUndefined);
        ("open", VUndefined);
        ("close", last);
        ("last", last);
        ("previousClose", VUndefined);
        ("change", VUndefined);
        ("percentage", VUndefined);
        ("average", VUndefined);
        ("baseVolume", safeFloat volume (to_string baseVolume) VUndefined);
        ("quoteVolume", safeFloat volume (to_string quoteVolume) VUndefined);
        ("info", ticker)])))).

Definition parseTrade (i : instance) (trade market : value) : result value :=
  let timestamp := safeInteger trade "timestampms" VUndefined in
  let id := safeString trade "tid" VUndefined in
  let orderId := safeString trade "order_id" VUndefined in
  let fee := safeFloat trade "fee_amount" VUndefined in
  do fee <-
    (if negb (strict_eq fee VUndefined) then
       let currency := safeString trade "fee_currency" VUndefined in
       do currency <-
         (if negb (strict_eq currency VUndefined) then
            do listed <- contains currency (currencies_by_id i);
            do currency <-
              (if listed
               then get (own (currencies_by_id i) (to_string currency)) "code"
               else Ok currency);
            Ok (commonCurrencyCode currency)
          else Ok currency);
       Ok (VObj [("cost", safeFloat trade "fee_amount" VUndefined);
                 ("currency", currency)])
     else Ok fee);
  let price := safeFloat trade "price" VUndefined in
  let amount := safeFloat trade "amount" VUndefined in
  let cost :=
    if negb (strict_eq price VUndefined) then
      if negb (strict_eq amount VUndefined) then mul price amount
      else VUndefined
    else VUndefined in
  let type := VUndefined in
  let side := safeString trade "type" VUndefined in
  let side :=
    match side with
    | VStr s => VStr (toLowerCase s)
    | _ => side
    end in
  do symbol <-
    (if negb (strict_eq market VUndefined) then get market "symbol"
     else Ok VUndefined);
  Ok (VObj
        [("id", id);
         ("order", orderId);
         ("info", trade);
         ("timestamp", timestamp);
         ("datetime", iso8601 timestamp);
         ("symbol", symbol);
         ("type", type);
         ("side", side);
         ("takerOrMaker", VUndefined);
         ("price", price);
         ("cost", cost);
         ("amount", amount);
         ("fee", fee)]).

Definition fetchTrades (symbol since limit params : value) : prog :=
  LoadMarkets (
  Market symbol (fun market =>
  let request := VObj [("symbol", own market "id")] in
  Request "publicGetTradesSymbol" (extend request params) (fun response =>
  This (fun i =>
  let! trades :=
    parseTrades (parseTrade i) response market since limit VUndefined in
  Return trades)))).

(** *** Account data *)

(** The loop of [fetchBalance] over the balances of the response. *)
Fixpoint collectBalances (balances : list value) (result : value)
  : JS.result value :=
  match balances with
  | [] => Ok result
  | balance :: rest =>
      let currencyId := safeString balance "currency" VUndefined in
      let code := commonCurrencyCode currencyId in
      let account := account in
      let account := set account "free" (safeFloat balance "available" VUndefined) in
      let account := set account "total" (safeFloat balance "amount" VUndefined) in
      collectBalances rest (set result (to_string code) account)
  end.

Definition fetchBalance (params : value) : prog :=
  LoadMarkets (
  Request "privatePostBalances" params (fun response =>
  let result := VObj [("info", response)] in
  let! balances := elements response in
  let! result := collectBalances balances result in
  let! balance := parseBalance result in
  Return balance)).

Definition parseOrder (i : instance) (order market : value) : result value :=
  let timestamp := safeInteger order "timestampms" VUndefined in
  let amount := safeFloat order "original_amount" VUndefined in
  let remaining := safeFloat order "remaining_amount" VUndefined in
  let filled := safeFloat order "executed_amount" VUndefined in
  do is_live <- get order "is_live";
  do is_cancelled <- get order "is_cancelled";
  let status := VStr "closed" in
  let status := if truthy is_live then VStr "open" else status in
  let status := if truthy is_cancelled then VStr "canceled" else status in
  let price := safeFloat order "price" VUndefined in
  let average := safeFloat order "avg_execution_price" VUndefined in
  let cost :=
    if negb (strict_eq filled VUndefined) then
      if negb (strict_eq average VUndefined) then mul filled average
      else VUndefined
    else VUndefined in
  let type := safeString order "type" VUndefined in
  let type :=
    if strict_eq type (VStr "exchange limit") then VStr "limit"
    else if (strict_eq type (VStr "market buy")
             || strict_eq type (VStr "market sell"))%bool
    then VStr "market"
    else own order "type" in
  let fee := VUndefined in
  do market <-
    (if strict_eq market VUndefined then
       let marketId := safeString order "symbol" VUndefined in
       do listed <- contains marketId (markets_by_id i);
       Ok (if listed then own (markets_by_id i) (to_string marketId)
           else market)
     else Ok market);
  do symbol <-
    (if negb (strict_eq market VUndefined) then get market "symbol"
     else Ok VUndefined);
  let id := safeString order "order_id" VUndefined in
  let datetime := iso8601 timestamp in
  do side <- string_method "toLowerCase" (fun s => VStr (toLowerCase s))
                           (own order "side");
  Ok (VObj
        [("id", id);
         ("info", order);
         ("timestamp", timestamp);
         ("datetime", datetime);
         ("lastTradeTimestamp", VUndefined);
         ("status", status);
         ("symbol", symbol);
         ("type", type);
         ("side", side);
         ("price", price);
         ("average", average);
         ("cost", cost);
         ("amount", amount);
         ("filled", filled);
         ("remaining", remaining);
         ("fee", fee)]).

Definition fetchOrder (id symbol params : value) : prog :=
  LoadMarkets (
  let request := VObj [("order_id", id)] in
  Request "privatePostOrderStatus" (extend request params) (fun response =>
  This (fun i =>
  let! order := parseOrder i response VUndefined in
  Return order))).

Definition fetchOpenOrders (symbol since limit params : value) : prog :=
  LoadMarkets (
  Request "privatePostOrders" params (fun response =>
  This (fun i =>
  let! orders := parseOrders (parseOrder i) response VUndefined since limit in
  if negb (strict_eq symbol VUndefined)
  then Market symbol (fun market => (* throws on non-existent symbol *)
         Return (filterBySymbol orders (own market "symbol")))
  else Return orders))).

Definition nonce (k : value -> prog) : prog := Milliseconds k.

Definition createOrder (symbol type side amount price params : value)
  : prog :=
  LoadMarkets (
  This (fun i =>
  if strict_eq type (VStr "market")
  then Raise (Exn ExchangeError (id i ++ " allows limit orders only"))
  else
    nonce (fun nonce =>
    let! client_order_id := toString nonce in
    MarketId symbol (fun marketId =>
    let! amount := toString amount in
    let! price := toString price in
    let request :=
      VObj [("client_order_id", client_order_id);
            ("symbol", marketId);
            ("amount", amount);
            ("price", price);
            ("side", side);
            ("type", VStr "exchange limit")] (* gemini allows limit orders only *) in
    Request "privatePostOrderNew" (extend request params) (fun response =>
    let! id := get response "order_id" in
    Return (VObj [("info", response); ("id", id)])))))).

Definition cancelOrder (id symbol params : value) : prog :=
  LoadMarkets (
  let request := VObj [("order_id", id)] in
  Request "privatePostOrderCancel" (extend request params) Return).

Definition fetchMyTrades (symbol since limit params : value) : prog :=
  This (fun i =>
  if strict_eq symbol VUndefined
  then Raise (Exn ArgumentsRequired
                (id i ++ " fetchMyTrades requires a symbol argument"))
  else
    LoadMarkets (
    Market symbol (fun market =>
    let request := VObj [("symbol", own market "id")] in
    let request :=
      if negb (strict_eq limit VUndefined)
      then set request "limit_trades" limit else request in
    let request :=
      if negb (strict_eq since VUndefined)
      then set request "timestamp" (parseInt (div since (num 1000)))
      else request in
    Request "privatePostMytrades" (extend request params) (fun response =>
    This (fun i =>
    let! trades :=
      parseTrades (parseTrade i) response market since limit VUndefined in
    Return trades))))).

Definition withdraw (code amount address tag params : value) : prog :=
  This (fun i =>
  let! _ := checkAddress i address in
  LoadMarkets (
  Currency code (fun currency =>
  let request :=
    VObj [("currency", own currency "id");
          ("amount", amount);
          ("address", address)] in
  Request "privatePostWithdrawCurrency" (extend request params)
    (fun response =>
  Return (VObj [("info", response);
                ("id", safeString response "txHash" VUndefined)]))))).

Definition parseTransaction (i : instance) (transaction currency : value)
  : result value :=
  let timestamp := safeInteger transaction "timestampms" VUndefined in
  do currency <-
    (if strict_eq currency VUndefined then
       let currencyId := safeString transaction "currency" VUndefined in
       do listed <- contains currencyId (currencies_by_id i);
       Ok (if listed then own (currencies_by_id i) (to_string currencyId)
           else currency)
     else Ok currency);
  do code <-
    (if negb (strict_eq currency VUndefined) then get currency "code"
     else Ok VUndefined);
  let address := safeString transaction "destination" VUndefined in
  let type := safeString transaction "type" VUndefined in
  let type :=
    match type with
    | VStr s => VStr (toLowerCase s)
    | _ => type
    end in
  (* When deposits show as Advanced or Complete they are available for
     trading. *)
  do raw_status <- get transaction "status";
  let status := if truthy raw_status then VStr "ok" else VStr "pending" in
  let feeAmount := safeFloat transaction "feeAmount" VUndefined in
  let fee :=
    if negb (strict_eq feeAmount VUndefined)
    then VObj [("cost", feeAmount); ("currency", code)]
    else VUndefined in
  Ok (VObj
        [("info", transaction);
         ("id", safeString transaction "eid" VUndefined);
         ("txid", safeString transaction "txHash" VUndefined);
         ("timestamp", timestamp);
         ("datetime", iso8601 timestamp);
         ("address", address);
         ("tag", VUndefined); (* or is it defined? *)
         ("type", type); (* direction of the transaction, ('deposit' | 'withdraw') *)
         ("amount", safeFloat transaction "amount" VUndefined);
         ("currency", code);
         ("status", status);
         ("updated", VUndefined);
         ("fee", fee)]).

Definition fetchTransactions (code since limit params : value) : prog :=
  LoadMarkets (
  let request := VObj [] in
  let request :=
    if negb (strict_eq limit VUndefined)
    then set request "limit_transfers" limit else request in
  let request :=
    if negb (strict_eq since VUndefined)
    then set request "timestamp" since else request in
  Request "privatePostTransfers" (extend request params) (fun response =>
  This (fun i =>
  let! transactions :=
    parseTransactions (fun t => parseTransaction i t VUndefined) response in
  Return transactions))).

Definition createDepositAddress (code params : value) : prog :=
  LoadMarkets (
  Currency code (fun currency =>
  let request := VObj [("currency", own currency "id")] in
  Request "privatePostDepositCurrencyNewAddress" (extend request params)
    (fun response =>
  This (fun i =>
  let address := safeString response "address" VUndefined in
  let! _ := checkAddress i address in
  Return (VObj [("currency", code);
                ("address", address);
                ("tag", VUndefined);
                ("info", response)]))))).

(** *** Signing and error dispatch *)

Definition sign (path api method : string) (params headers body : value)
  : prog :=
  let url := ("/" ++ implodeParams path params)%string in
  let url :=
    if negb (String.eqb api "web") then ("/" ++ version ++ url)%string
    else url in
  let query := omit params (extractParams path) in
  let finish (url : string) (headers : value) :=
    let url := add (own api_urls api) (VStr url) in
    Return (VObj [("url", url); ("method", VStr method);
                  ("body", body); ("headers", headers)]) in
  if String.eqb api "private" then
    This (fun i =>
    let! _ := checkRequiredCredentials requiredCredentials i in
    nonce (fun nonce =>
    let request := extend (VObj [("request", VStr url); ("nonce", nonce)]) query in
    let payload := json request in
    let payload := stringToBase64 (encode (VStr payload)) in
    let signature := hmac payload (encode (secret i)) "sha384" in
    let headers :=
      VObj [("Content-Type", VStr "text/plain");
            ("X-GEMINI-APIKEY", apiKey i);
            ("X-GEMINI-PAYLOAD", VStr (decode payload));
            ("X-GEMINI-SIGNATURE", VStr signature)] in
    finish url headers))
  else
    let! names := keys query in
    let url :=
      match names with
      | [] => url
      | _ => (url ++ "?" ++ urlencode query)%string
      end in
    finish url headers.

(** The class and the message of the exception [handleErrors] throws
    for a response, [Ok tt] when it returns. *)
Definition handleErrors (i : instance) (response : value) : result unit :=
  if strict_eq response VUndefined then Ok tt (* fallback to default error handler *)
  else
    let result := safeString response "result" VUndefined in
    if strict_eq result (VStr "error") then
      let reason := safeString response "reason" VUndefined in
      let message := safeString response "message" VUndefined in
      let feedback := to_string (add (VStr (id i ++ " ")) message) in
      if listed exact (to_string reason)
      then Throw (throw_new exact (to_string reason) feedback)
      else if listed exact (to_string message)
      then Throw (throw_new exact (to_string message) feedback)
      else
        do broadKey <- findBroadlyMatchedKey broad message;
        match broadKey with
        | Some key => Throw (throw_new broad key feedback)
        | None => Throw (Exn ExchangeError feedback) (* unknown message *)
        end
    else Ok tt.

End Adapter.

End Gemini.

(** ** The [bleutrade] adapter *)

Module Bleutrade.

Import JS Base.

Section Adapter.

Context `{Helpers}.

(** *** What [describe ()] declares *)

Definition timeframes : value :=
  VObj [("15m", VStr "15m"); ("20m", VStr "20m"); ("30m", VStr "30m");
        ("1h", VStr "1h"); ("2h", VStr "2h"); ("3h", VStr "3h");
        ("4h", VStr "4h"); ("6h", VStr "6h"); ("8h", VStr "8h");
        ("12h", VStr "12h"); ("1d", VStr "1d")].

Definition exceptions : list (string * error_class) :=
  [("Insufficient funds!", InsufficientFunds);
   ("Invalid Order ID", InvalidOrder);
   ("Invalid apikey or apisecret", AuthenticationError)].

Definition default_options : value :=
  VObj [("parseOrderStatus", VBool true);
        ("disableNonce", VBool false);
        ("symbolSeparator", VStr "_")].

(** *** Parsers *)

Definition parseOrderStatus (status : value) : value :=
  let statuses :=
    VObj [("OK", VStr "closed"); ("OPEN", VStr "open");
          ("CANCELED", VStr "canceled")] in
  safeString statuses (to_string status) status.

Definition getOrderIdField : string := "orderid".

Definition parseSymbol (i : instance) (id : value) : result value :=
  do separator <- get (options i) "symbolSeparator";
  do parts <- split_by separator id;
  let base := nth 0 parts VUndefined in
  let quote := nth 1 parts VUndefined in
  let base := commonCurrencyCode base in
  let quote := commonCurrencyCode quote in
  Ok (add (add base (VStr "/")) quote).

Definition parseOHLCV (ohlcv : value) : result value :=
  do stamp <- get ohlcv "TimeStamp";
  let timestamp := parse8601 (add stamp (VStr "+00:00")) in
  Ok (VArr [timestamp;
            safeFloat ohlcv "Open" VUndefined;
            safeFloat ohlcv "High" VUndefined;
            safeFloat ohlcv "Low" VUndefined;
            safeFloat ohlcv "Close" VUndefined;
            safeFloat ohlcv "Volume" VUndefined]).

Definition parseTrade (trade market : value) : result value :=
  do stamp <- get trade "TimeStamp";
  let timestamp := parse8601 (add stamp (VStr "+00:00")) in
  let orderType := own trade "OrderType" in
  let side :=
    if strict_eq orderType (VStr "BUY") then VStr "buy"
    else if strict_eq orderType (VStr "SELL") then VStr "sell"
    else VUndefined in
  let id := safeString trade "TradeID" VUndefined in
  do symbol <-
    (if negb (strict_eq market VUndefined) then get market "symbol"
     else Ok VUndefined);
  let price := safeFloat trade "Price" VUndefined in
  let amount := safeFloat trade "Quantity" VUndefined in
  let cost :=
    if negb (strict_eq amount VUndefined) then
      if negb (strict_eq price VUndefined) then mul price amount
      else VUndefined
    else VUndefined in
  Ok (VObj
        [("id", id);
         ("info", trade);
         ("timestamp", timestamp);
         ("datetime", iso8601 timestamp);
         ("symbol", symbol);
         ("type", VStr "limit");
         ("side", side);
         ("order", VUndefined);
         ("takerOrMaker", VUndefined);
         ("price", price);
         ("amount", amount);
         ("cost", cost);
         ("fee", VUndefined)]).

(** [(key in order) && order[key]]. *)
Definition set_in (key : string) (order : value) : result bool :=
  do present <- contains (VStr key) order;
  Ok (present && truthy (own order key))%bool.

(** [(key in order) && (order[key] !== undefined)]. *)
Definition defined_in (key : string) (order : value) : result bool :=
  do present <- contains (VStr key) order;
  Ok (present && negb (strict_eq (own order key) VUndefined))%bool.

Definition utc (order : value) (key : string) : value :=
  parse8601 (add (own order key) (VStr "+00:00")).

(** The currency of the fee in [parseOrder], once a commission field is
    found. *)
Definition feeCurrency (i : instance) (market symbol : value) (fee : value)
  : result value :=
  if negb (strict_eq market VUndefined) then
    do quote <- get market "quote";
    Ok (set fee "currency" quote)
  else if negb (strict_eq symbol VUndefined) then
    do currencyIds <- split_value "/" symbol;
    let quoteCurrencyId := nth 1 currencyIds VUndefined in
    do listed <- contains quoteCurrencyId (currencies_by_id i);
    if listed then
      do code <- get (own (currencies_by_id i) (to_string quoteCurrencyId)) "code";
      Ok (set fee "currency" code)
    else Ok (set fee "currency" (commonCurrencyCode quoteCurrencyId))
  else Ok fee.

Definition parseOrder (i : instance) (order market : value) : result value :=
  let side := safeString2 order "OrderType" "Type" VUndefined in
  let isBuyOrder :=
    (strict_eq side (VStr "LIMIT_BUY") || strict_eq side (VStr "BUY"))%bool in
  let isSellOrder :=
    (strict_eq side (VStr "LIMIT_SELL") || strict_eq side (VStr "SELL"))%bool in
  let side := if isBuyOrder then VStr "buy" else side in
  let side := if isSellOrder then VStr "sell" else side in
  (* We parse different fields in a very specific order.
     Order might well be closed and then canceled. *)
  let status := VUndefined in
  do opened <- set_in "Opened" order;
  let status := if opened then VStr "open" else status in
  do closed <- set_in "Closed" order;
  let status := if closed then VStr "closed" else status in
  do cancelInitiated <- set_in "CancelInitiated" order;
  let status := if cancelInitiated then VStr "canceled" else status in
  do hasStatus <- contains (VStr "Status") order;
  do parseStatus <-
    (if hasStatus then get (options i) "parseOrderStatus" else Ok (VBool false));
  let status :=
    if (hasStatus && truthy parseStatus)%bool
    then parseOrderStatus (safeString order "Status" VUndefined)
    else status in
  let marketId := safeString order "Exchange" VUndefined in
  do resolved <-
    (if strict_eq marketId VUndefined then
       if negb (strict_eq market VUndefined) then
         do symbol <- get market "symbol"; Ok (market, symbol)
       else Ok (market, VUndefined)
     else
       do listed <- contains marketId (markets_by_id i);
       if listed then
         let market := own (markets_by_id i) (to_string marketId) in
         do symbol <- get market "symbol"; Ok (market, symbol)
       else
         do symbol <- parseSymbol i marketId; Ok (market, symbol));
  let market := fst resolved in
  let symbol := snd resolved in
  let timestamp := VUndefined in
  let timestamp := if has "Opened" order then utc order "Opened" else timestamp in
  let timestamp := if has "Created" order then utc order "Created" else timestamp in
  let lastTradeTimestamp := VUndefined in
  do stamped <- defined_in "TimeStamp" order;
  let lastTradeTimestamp :=
    if stamped then utc order "TimeStamp" else lastTradeTimestamp in
  do closedAt <- defined_in "Closed" order;
  let lastTradeTimestamp :=
    if closedAt then utc order "Closed" else lastTradeTimestamp in
  let timestamp :=
    if strict_eq timestamp VUndefined then lastTradeTimestamp else timestamp in
  let commission :=
    if has "Commission" order then VStr "Commission"
    else if has "CommissionPaid" order then VStr "CommissionPaid"
    else VUndefined in
  do fee <-
    (if truthy commission then
       feeCurrency i market symbol
         (VObj [("cost", safeFloat order (to_string commission) VUndefined)])
     else Ok VUndefined);
  let price := safeFloat order "Price" VUndefined in
  let cost := VUndefined in
  let amount := safeFloat order "Quantity" VUndefined in
  let remaining := safeFloat order "QuantityRemaining" VUndefined in
  let filled :=
    if (negb (strict_eq amount VUndefined)
        && negb (strict_eq remaining VUndefined))%bool
    then sub amount remaining else VUndefined in
  let cost :=
    if negb (truthy cost) then
      if (truthy price && truthy filled)%bool then mul price filled else cost
    else cost in
  let price :=
    if negb (truthy price) then
      if (truthy cost && truthy filled)%bool then div cost filled else price
    else price in
  let average := safeFloat order "PricePerUnit" VUndefined in
  let id := safeString2 order "OrderUuid" "OrderId" VUndefined in
  Ok (VObj
        [("info", order);
         ("id", id);
         ("timestamp", timestamp);
         ("datetime", iso8601 timestamp);
         ("lastTradeTimestamp", lastTradeTimestamp);
         ("symbol", symbol);
         ("type", VStr "limit");
         ("side", side);
         ("price", price);
         ("cost", cost);
         ("average", average);
         ("amount", amount);
         ("filled", filled);
         ("remaining", remaining);
         ("status", status);
         ("fee", fee)]).

Definition parseTransaction (i : instance) (transaction currency : value)
  : result value :=
  let id := safeString transaction "Id" VUndefined in
  let amount := safeFloat transaction "Amount" VUndefined in
  let withdrawn := lt amount (num 0) in
  let amount := if withdrawn then abs amount else amount in
  let type := if withdrawn then VStr "withdrawal" else VStr "deposit" in
  let currencyId := safeString transaction "Coin" VUndefined in
  let currency :=
    safeValue (currencies_by_id i) (to_string currencyId) VUndefined in
  do code <-
    (if negb (strict_eq currency VUndefined) then get currency "code"
     else Ok (commonCurrencyCode currencyId));
  let label := safeString transaction "Label" VUndefined in
  let timestamp := parse8601 (safeString transaction "TimeStamp" VUndefined) in
  let txid := safeString transaction "TransactionId" VUndefined in
  do labelParts <- split_value ";" label;
  let three := (List.length labelParts =? 3)%nat in
  let amount := if three then parseFloat (nth 0 labelParts VUndefined) else amount in
  let address := if three then nth 1 labelParts VUndefined else label in
  let feeCost :=
    if three then parseFloat (nth 2 labelParts VUndefined) else VUndefined in
  let fee :=
    if negb (strict_eq feeCost VUndefined)
    then VObj [("currency", code); ("cost", feeCost)]
    else VUndefined in
  let canceled := strict_eq txid (VStr "CANCELED") in
  let status := if canceled then VStr "canceled" else VStr "ok" in
  let txid := if canceled then VUndefined else txid in
  Ok (VObj
        [("info", transaction);
         ("timestamp", timestamp);
         ("datetime", iso8601 timestamp);
         ("id", id);
         ("currency", code);
         ("amount", amount);
         ("address", address);
         ("tag", VUndefined);
         ("status", status);
         ("type", type);
         ("updated", VUndefined);
         ("txid", txid);
         ("fee", fee)]).

(** *** Methods *)

Definition fetchOrders (symbol since limit params : value) : prog :=
  (* Possible params
     orderstatus (ALL, OK, OPEN, CANCELED)
     ordertype (ALL, BUY, SELL)
     depth (optional, default is 500, max is 20000) *)
  LoadMarkets (
  let send (market : value) :=
    let request := VObj [("market", VStr "ALL"); ("orderstatus", VStr "ALL")] in
    Request "accountGetOrders" (extend request params) (fun response =>
    This (fun i =>
    let! orders := get response "result" in
    let! parsed := parseOrders (parseOrder i) orders market since limit in
    Return parsed)) in
  if negb (strict_eq symbol VUndefined)
  then Market symbol send
  else send VUndefined).

Definition fetchClosedOrders (symbol since limit params : value) : prog :=
  and_then (fetchOrders symbol since limit params) (fun response =>
  Return (filterBy response "status" (VStr "closed"))).

Definition fetchOrderBook (symbol limit params : value) : prog :=
  LoadMarkets (
  MarketId symbol (fun marketId =>
  let request := VObj [("market", marketId); ("type", VStr "ALL")] in
  let request :=
    if negb (strict_eq limit VUndefined)
    then set request "depth" limit (* 50 *) else request in
  Request "publicGetOrderbook" (extend request params) (fun response =>
  This (fun i =>
  let orderbook := safeValue response "result" VUndefined in
  if negb (truthy orderbook)
  then Raise (Exn ExchangeError
                (id i ++ " publicGetOrderbook() returneded no result "
                 ++ json response))
  else
    let! book :=
      parseOrderBook None orderbook VUndefined
        (VStr "buy") (VStr "sell") (VStr "Rate") (VStr "Quantity") in
    Return book)))).

Definition fetchOrderTrades (id symbol since limit params : value) : prog :=
  LoadMarkets (
  let request := VObj [("orderid", id)] in
  Request "accountGetOrderhistory" (extend request params) (fun response =>
  let! trades := get response "result" in
  let! parsed :=
    parseTrades parseTrade trades VUndefined since limit
      (VObj [("order", id)]) in
  Return parsed)).

Definition fetchTransactionsByType (type code since limit params : value)
  : prog :=
  LoadMarkets (
  let method :=
    if strict_eq type (VStr "deposit") then "accountGetDeposithistory"
    else "accountGetWithdrawhistory" in
  Request method params (fun response =>
  This (fun i =>
  let! transactions := get response "result" in
  let! result :=
    parseTransactions (fun t => parseTransaction i t VUndefined) transactions in
  Return (filterByCurrencySinceLimit result code since limit)))).

Definition fetchDeposits (code since limit params : value) : prog :=
  fetchTransactionsByType (VStr "deposit") code since limit params.

Definition fetchWithdrawals (code since limit params : value) : prog :=
  fetchTransactionsByType (VStr "withdrawal") code since limit params.

Definition fetchOHLCV (symbol timeframe since limit params : value) : prog :=
  LoadMarkets (
  Market symbol (fun market =>
  let request :=
    VObj [("period", own timeframes (to_string timeframe));
          ("market", own market "id");
          ("count", limit)] in
  Request "publicGetCandles" (extend request params) (fun response =>
  let! present := contains (VStr "result") response in
  if (present && truthy (own response "result"))%bool
  then
    let! candles :=
      parseOHLCVs parseOHLCV (own response "result") market timeframe
        since limit in
    Return candles
  else Return VUndefined))).

End Adapter.

End Bleutrade.

(** ** A sample instance of the parameters

    Simple stand-ins for the helpers of [Helpers], and [gemini] and [dx]
    objects to run the adapters on concrete inputs. *)

Module Sample.

Import JS Base.

Fixpoint stringify (v : value) : string :=
  match v with
  | VUndefined | VNull | VNaN | VInherited _ => "null"
  | VBool true => "true"
  | VBool false => "false"
  | VNum q => number_to_string q
  | VStr s => dquote ++ s ++ dquote
  | VArr items =>
      "[" ++ (fix join (l : list value) : string :=
                match l with
                | [] => ""
                | [x] => stringify x
                | x :: l' => stringify x ++ "," ++ join l'
                end) items ++ "]"
  | VObj fields =>
      "{" ++ (fix join (l : list (string * value)) : string :=
                match l with
                | [] => ""
                | [(k, x)] => dquote ++ k ++ dquote ++ ":" ++ stringify x
                | (k, x) :: l' =>
                    dquote ++ k ++ dquote ++ ":" ++ stringify x ++ "," ++ join l'
                end) fields ++ "}"
  end.

(** The common currency codes of the base class, and those of [dx],
    which declares one more. *)
Definition currency_table : value :=
  VObj [("XBT", VStr "BTC"); ("BCC", VStr "BCH"); ("DRK", VStr "DASH")].

Definition dx_currency_table : value :=
  set currency_table "BCH" (VStr "Bitcoin Cash").

Definition parse_list (parser : value -> result value) (v : value)
  : result value :=
  do items <- elements v;
  do parsed <- for_each parser items;
  Ok (VArr parsed).

Definition long_enough (a : value) : bool :=
  match a with
  | VStr s => ((10 <=? String.length s)%nat && negb (includes " " s))%bool
  | _ => false
  end.

Definition helpers_with (table : value) : Helpers := {|
  json := stringify;
  iso8601 := fun t => match t with VNum _ => VStr (to_string t) | _ => VUndefined end;
  parse8601 := fun t => match t with VStr _ => parseInt t | _ => VUndefined end;
  commonCurrencyCode := fun c => safeString table (to_string c) c;
  log10 := fun v =>
    match to_number v with
    | Some q => num (Z.log2 (Qnum q) / 3)
    | None => VNaN
    end;
  urlencode := stringify;
  implodeParams := fun path _ => path;
  extractParams := fun _ => [];
  omit := fun params _ => params;
  encode := fun v => v;
  decode := fun s => s;
  stringToBase64 := to_string;
  hmac := fun payload _ algorithm => (algorithm ++ ":" ++ payload)%string;
  account := VObj [("free", VUndefined); ("used", VUndefined);
                   ("total", VUndefined)];
  sum := add;
  parseBalance := fun b => Ok b;
  parseOrderBook := fun _ orderbook _ _ _ _ _ => Ok orderbook;
  parseOrders := fun parser orders market _ _ =>
    parse_list (fun o => parser o market) orders;
  parseTrades := fun parser trades market _ _ _ =>
    parse_list (fun t => parser t market) trades;
  parseOHLCVs := fun parser candles _ _ _ _ => parse_list parser candles;
  parseTransactions := parse_list;
  filterBy := fun items _ _ => items;
  filterBySymbol := fun items _ => items;
  filterByCurrencySinceLimit := fun items _ _ _ => items;
  valid_address := long_enough
|}.

#[export] Instance helpers : Helpers := helpers_with currency_table.

Definition dx_helpers : Helpers := helpers_with dx_currency_table.

Definition fresh (name : string) (opts : value) : instance :=
  {| id := name; markets := VUndefined; markets_by_id := VUndefined;
     currencies := VUndefined; currencies_by_id := VUndefined;
     options := opts; apiKey := VStr "key"; secret := VStr "secret" |}.

Definition btcusd : value :=
  VObj [("id", VStr "btcusd"); ("symbol", VStr "BTC/USD");
        ("base", VStr "BTC"); ("quote", VStr "USD");
        ("baseId", VStr "btc"); ("quoteId", VStr "usd");
        ("numericId", num 7); ("quoteNumericId", num 2)].

Definition loaded (name : string) (opts : value) : instance :=
  setMarkets (VArr [btcusd]) (fresh name opts).

Definition dx_loaded : instance :=
  setMarkets (VArr [VObj [("id", VStr "7"); ("symbol", VStr "BTC/USD")]])
             (fresh "dx" Dx.default_options).

Definition instruments : value :=
  VObj [("result",
         VObj [("instruments",
                VArr [VObj [("id", num 7);
                            ("asset", VObj [("fullName", VStr "BCH/USD")]);
                            ("meQuantityMultiplier", num 1000)]])])].

Definition tickers : value := VObj [("7", VObj [("last", VStr "1.5")])].

Definition value_of (r : result value) : value :=
  match r with
  | Ok v => v
  | Throw _ => VUndefined
  end.

(** A world whose exchange answers every request with [answer]. *)
Definition world_of (i : instance) (answer : string -> value -> result value)
  : world :=
  {| this := i; respond := fun _ => answer;
     clock := fun n => 1000 + Z.of_nat n; ticks := O; trace := [] |}.

Definition signed_in (expires : Z) : instance :=
  set_options
    (set (set Dx.default_options "accessToken" (VStr "token"))
         "expires" (num expires))
    (fresh "dx" Dx.default_options).

Definition no_secret : instance :=
  {| id := "gemini"; markets := VUndefined; markets_by_id := VUndefined;
     currencies := VUndefined; currencies_by_id := VUndefined;
     options := Gemini.default_options; apiKey := VStr "key";
     secret := VUndefined |}.

Definition accepted : value := VObj [("order_id", VStr "1")].

(** A [gemini] object with its markets loaded, on an exchange that
    accepts every order. *)
Definition gemini_open : world :=
  world_of (loaded "gemini" Gemini.default_options) (fun _ _ => Ok accepted).



Definition silent (i : instance) : world :=
  world_of i (fun _ _ => Ok VUndefined).

Definition dx_fresh_world : world :=
  world_of (fresh "dx" Dx.default_options) (fun _ _ => Ok instruments).

End Sample.

(** ** Properties *)

Import JS Base.



(** *** Reading a chain of [do] *)

Lemma bind_Ok {A B : Type} (r : result A) (k : A -> result B) (b : B) :
  bind r k = Ok b -> exists a, r = Ok a /\ k a = Ok b.
Proof.
  destruct r as [a | e]; simpl; intros E.
  - exists a. split; [reflexivity | exact E].
  - discriminate E.
Qed.

Ltac bind_inv H :=
  repeat match type of H with
         | bind ?r _ = Ok _ =>
             let a := fresh "a" in
             let E := fresh "E" in
             apply bind_Ok in H; destruct H as [a [E H]]
         end.

Lemma for_each_Forall (P : value -> Prop) (f : value -> result value) :
  (forall x y, f x = Ok y -> P y) ->
  forall l ys, for_each f l = Ok ys -> Forall P ys.
Proof.
  intros Hf l. induction l as [| x l IH]; simpl; intros ys E.
  - injection E as <-. constructor.
  - bind_inv E. injection E as <-. constructor; eauto.
Qed.


Lemma get_Ok v k x : get v k = Ok x -> x = own v k.
Proof.
  destruct v; simpl; intros E; try discriminate E; injection E as <-;
    reflexivity.
Qed.


Section Markets.

Context `{Helpers}.





End Markets.







Section Loaders.

Context `{Helpers}.





End Loaders.



(** The market that run of [dx] makes of the instrument [BCH/USD]: the
    base goes through the table of common currency codes, the quote has
    no entry there. *)
Lemma dx_market_of_an_instrument :
  exists m,
    fst (exec skip (Dx.fetchMarkets (H := Sample.dx_helpers) (VObj []))
           Sample.dx_fresh_world)
    = Ok (VArr [m])
    /\ own m "base" = VStr "Bitcoin Cash"
    /\ own m "quote" = VStr "USD"
    /\ own m "symbol" = VStr "Bitcoin Cash/USD".
Proof.
  eexists. split; [vm_compute; reflexivity |].
  split; [reflexivity |]. split; reflexivity.
Qed.

(** *** The [info] field *)


(** The payload [dx] parses a ticker and an order from: the ticker
    filed under the first key of the object of tickers, and the order
    inside its wrapper when there is one. *)
Definition dx_ticker_payload (ticker : value) : value :=
  match keys ticker with
  | Ok tickerKeys => own ticker (to_string (nth 0 (map VStr tickerKeys) VUndefined))
  | Throw _ => VUndefined
  end.


Section Info.

Context `{Helpers}.














Lemma assoc_set_field_other k k' v fields :
  k <> k' -> assoc k' (set_field k v fields) = assoc k' fields.
Proof.
  intros Hk. induction fields as [| [k0 v0] fields IH]; simpl.
  - destruct (String.eqb_spec k' k); [congruence | reflexivity].
  - destruct (String.eqb_spec k k0) as [-> | Hk0]; simpl.
    + destruct (String.eqb_spec k' k0); [congruence | reflexivity].
    + destruct (String.eqb_spec k' k0); [reflexivity | exact IH].
Qed.

Lemma own_set_other o k k' v :
  k <> k' -> own (set o k v) k' = own o k'.
Proof.
  intros Hk. destruct o; try reflexivity.
  simpl. rewrite assoc_set_field_other by assumption. reflexivity.
Qed.







End Info.




(** *** Signing *)

Lemma checkRequiredCredentials_missing required i key :
  In (key, true) required ->
  truthy (credential i key) = false ->
  exists message,
    checkRequiredCredentials required i
    = Throw (Exn AuthenticationError message).
Proof.
  intros Hin Hmissing.
  induction required as [| [k needed] required IH]; [destruct Hin |].
  simpl.
  destruct (needed && negb (truthy (credential i k)))%bool eqn:Hk.
  - eexists. reflexivity.
  - destruct Hin as [Hhead | Htail].
    + injection Hhead as -> ->. rewrite Hmissing in Hk. discriminate Hk.
    + apply IH. exact Htail.
Qed.

Lemma ge_of_Qle x y : (y <= x)%Q -> ge (VNum x) (VNum y) = true.
Proof.
  intros Hle. unfold ge. simpl.
  destruct (x ?= y)%Q eqn:Hc; try reflexivity.
  apply Qlt_alt in Hc. exfalso. eapply Qlt_not_le; eassumption.
Qed.

Section Signing.

Context `{Helpers}.

Lemma dx_sign_requires_signIn load path method params headers body w :
  safeString (options (this w)) "accessToken" VUndefined = VUndefined ->
  exists message,
    exec load (Dx.sign path "private" method params headers body) w
    = (Throw (Exn AuthenticationError message), tick w).
Proof.
  intros Htoken. unfold Dx.sign. simpl. rewrite Htoken. simpl.
  eexists. reflexivity.
Qed.

Lemma dx_sign_rejects_expired_token load path method params headers body w
  expires :
  safeString (options (this w)) "accessToken" VUndefined <> VUndefined ->
  safeInteger (options (this w)) "expires" VUndefined = VNum expires ->
  (expires <= inject_Z (clock w (S (ticks w))))%Q ->
  exists message,
    exec load (Dx.sign path "private" method params headers body) w
    = (Throw (Exn AuthenticationError message), tick (tick w)).
Proof.
  intros Htoken Hexpires Hlate. unfold Dx.sign. simpl.
  destruct (safeString (options (this w)) "accessToken" VUndefined) eqn:Et;
    try (exfalso; apply Htoken; reflexivity);
    simpl; rewrite Hexpires; simpl;
    rewrite (ge_of_Qle _ _ Hlate); eexists; reflexivity.
Qed.

Lemma gemini_sign_requires_credentials required load path method params
  headers body w key :
  In (key, true) required ->
  truthy (credential (this w) key) = false ->
  exists message,
    exec load (Gemini.sign required path "private" method params headers body) w
    = (Throw (Exn AuthenticationError message), w).
Proof.
  intros Hin Hmissing. unfold Gemini.sign. simpl.
  destruct (checkRequiredCredentials_missing _ _ _ Hin Hmissing) as [m ->].
  simpl. eexists. reflexivity.
Qed.

End Signing.

(** C5. A private request is not signed but fails with
    [AuthenticationError]: in [dx] when no access token is held (no
    prior [signIn]) and when the clock has reached the expiry of the
    token held, in [gemini] when a required credential is missing. No
    request is returned, and nothing but the clock has moved. *)
Theorem private_sign_fails_fast `{Helpers} :
  (forall load path method params headers body w,
      safeString (options (this w)) "accessToken" VUndefined = VUndefined ->
      exists message,
        exec load (Dx.sign path "private" method params headers body) w
        = (Throw (Exn AuthenticationError message), tick w))
  /\ (forall load path method params headers body w expires,
         safeString (options (this w)) "accessToken" VUndefined <> VUndefined ->
         safeInteger (options (this w)) "expires" VUndefined = VNum expires ->
         (expires <= inject_Z (clock w (S (ticks w))))%Q ->
         exists message,
           exec load (Dx.sign path "private" method params headers body) w
           = (Throw (Exn AuthenticationError message), tick (tick w)))
  /\ (forall required load path method params headers body w key,
         In (key, true) required ->
         truthy (credential (this w) key) = false ->
         exists message,
           exec load
             (Gemini.sign required path "private" method params headers body) w
           = (Throw (Exn AuthenticationError message), w)).
Proof.
  repeat apply conj.
  - apply dx_sign_requires_signIn.
  - apply dx_sign_rejects_expired_token.
  - apply gemini_sign_requires_credentials.
Qed.

Lemma private_sign_fails_fast_witness :
  (exists message,
      exec skip
        (Dx.sign (H := Sample.helpers) "Balance.Get" "private" "POST"
                 (VObj []) VUndefined VUndefined)
        (Sample.silent (Sample.fresh "dx" Dx.default_options))
      = (Throw (Exn AuthenticationError message),
         tick (Sample.silent (Sample.fresh "dx" Dx.default_options))))
  /\ (exists message,
         exec skip
           (Dx.sign (H := Sample.helpers) "Balance.Get" "private" "POST"
                    (VObj []) VUndefined VUndefined)
           (Sample.silent (Sample.signed_in 1001))
         = (Throw (Exn AuthenticationError message),
            tick (tick (Sample.silent (Sample.signed_in 1001)))))
  /\ (exists message,
         exec skip
           (Gemini.sign (H := Sample.helpers)
                        [("apiKey", true); ("secret", true)]
                        "balances" "private" "POST" (VObj []) VUndefined
                        VUndefined)
           (Sample.silent Sample.no_secret)
         = (Throw (Exn AuthenticationError message),
            Sample.silent Sample.no_secret)).
Proof.
  repeat apply conj.
  - apply (proj1 (private_sign_fails_fast (H := Sample.helpers))).
    reflexivity.
  - apply (proj1 (proj2 (private_sign_fails_fast (H := Sample.helpers)))
             skip "Balance.Get" "POST" (VObj []) VUndefined VUndefined
             (Sample.silent (Sample.signed_in 1001)) (inject_Z 1001)).
    + vm_compute. intros E. discriminate E.
    + reflexivity.
    + vm_compute. intros E. discriminate E.
  - apply (proj2 (proj2 (private_sign_fails_fast (H := Sample.helpers)))
             [("apiKey", true); ("secret", true)]
             skip "balances" "POST" (VObj []) VUndefined VUndefined
             (Sample.silent Sample.no_secret) "secret").
    + right. left. reflexivity.
    + reflexivity.
Defined.

(** *** Withdrawals *)

(** C8. [withdraw] of [gemini] checks the address first: an invalid one
    raises [InvalidAddress] with the world as it was, no market loaded
    and no request sent. *)
Theorem withdraw_checks_address_first `{Helpers}
  (fetchMarkets : prog) (code amount address tag params : value) (w : world) :
  valid_address address = false ->
  exists message,
    run fetchMarkets (Gemini.withdraw code amount address tag params) w
    = (Throw (Exn InvalidAddress message), w).
Proof.
  intros Hinvalid. unfold run, Gemini.withdraw, checkAddress. simpl.
  rewrite Hinvalid. simpl. eexists. reflexivity.
Qed.

Lemma withdraw_checks_address_first_witness :
  exists message,
    run (Gemini.fetchMarkets (H := Sample.helpers) (VObj []))
        (Gemini.withdraw (H := Sample.helpers) (VStr "BTC") (num 1)
                         (VStr "too short") VUndefined (VObj []))
        (Sample.silent (Sample.fresh "gemini" Gemini.default_options))
    = (Throw (Exn InvalidAddress message),
       Sample.silent (Sample.fresh "gemini" Gemini.default_options)).
Proof.
  apply (withdraw_checks_address_first (H := Sample.helpers)).
  reflexivity.
Defined.

(** *** Orders on [gemini] *)

Lemma assoc_merge_absent k fb :
  assoc k fb = None ->
  forall fa,
    assoc k (fold_left (fun acc kv => set_field (fst kv) (snd kv) acc) fb fa)
    = assoc k fa.
Proof.
  induction fb as [| [k0 v0] fb IH]; simpl; intros Hk fa; [reflexivity |].
  destruct (String.eqb_spec k k0) as [-> | Hne]; [discriminate Hk |].
  rewrite (IH Hk). apply assoc_set_field_other. congruence.
Qed.

(** An entry of the request that the caller's [params] do not name goes
    out as the adapter wrote it. *)
Lemma extend_keeps k fields params :
  has k params = false ->
  own (extend (VObj fields) params) k = own (VObj fields) k.
Proof.
  intros Hk. destruct params; try reflexivity.
  simpl in *. destruct (assoc k fields0) eqn:Ek; [discriminate Hk |].
  rewrite (assoc_merge_absent _ _ Ek). reflexivity.
Qed.

Arguments extend : simpl never.

Lemma gemini_createOrder_market load symbol side amount price params w :
  exec load
    (Gemini.createOrder symbol (VStr "market") side amount price params) w
  = match load w with
    | (Ok _, w1) =>
        (Throw (Exn ExchangeError (id (this w1) ++ " allows limit orders only")),
         w1)
    | (Throw e, w1) => (Throw e, w1)
    end.
Proof.
  unfold Gemini.createOrder. simpl.
  destruct (load w) as [[[] | e] w1]; reflexivity.
Qed.

Lemma gemini_createOrder_request load symbol type side amount price params
  w r w' :
  strict_eq type (VStr "market") = false ->
  exec load (Gemini.createOrder symbol type side amount price params) w
  = (r, w') ->
  exists outcome w1 sent,
    load w = (outcome, w1)
    /\ trace w' = (sent ++ trace w1)%list
    /\ forall endpoint request,
         In (Sent endpoint request) sent ->
         exists fields,
           endpoint = "privatePostOrderNew"
           /\ request = extend (VObj fields) params
           /\ own (VObj fields) "type" = VStr "exchange limit".
Proof.
  intros Ht. unfold Gemini.createOrder, Gemini.nonce, MarketId. simpl.
  destruct (load w) as [[[] | e] w1] eqn:El.
  - rewrite Ht. simpl.
    destruct (market (this w1) symbol) as [m | e]; simpl.
    + destruct (toString amount) as [amount' | e]; simpl.
      * destruct (toString price) as [price' | e]; simpl.
        -- match goal with
           | |- context [respond ?a ?b ?c ?d] =>
               destruct (respond a b c d) as [response | e]
           end.
           ++ intros E.
              assert (Et : trace w'
                           = ([Sent "privatePostOrderNew"
                                (extend
                                   (VObj
                                      [("client_order_id",
                                        VStr (number_to_string
                                                (inject_Z (clock w1 (ticks w1)))));
                                       ("symbol", own m "id");
                                       ("amount", amount');
                                       ("price", price');
                                       ("side", side);
                                       ("type", VStr "exchange limit")])
                                   params);
                              Resolved symbol (truthy (markets (this w1)))]
                             ++ trace w1)%list).
              { destruct (get response "order_id");
                  simpl in E; injection E as <- <-; reflexivity. }
              eexists _, w1, _. repeat split; [exact Et |].
              intros endpoint request [Hin | [Hin | []]];
                [| discriminate Hin].
              injection Hin as <- <-. eexists. repeat split.
           ++ intros E. injection E as <- <-.
              eexists _, w1, [_; _]. repeat split.
              intros endpoint request [Hin | [Hin | []]];
                [| discriminate Hin].
              injection Hin as <- <-. eexists. repeat split.
        -- intros E. injection E as <- <-.
           eexists _, w1, [_]. repeat split.
           intros endpoint request [Hin | []]. discriminate Hin.
      * intros E. injection E as <- <-.
        eexists _, w1, [_]. repeat split.
        intros endpoint request [Hin | []]. discriminate Hin.
    + intros E. injection E as <- <-.
      eexists _, w1, [_]. repeat split.
      intros endpoint request [Hin | []]. discriminate Hin.
  - intros E. injection E as <- <-.
    eexists _, w1, []. repeat split.
    intros endpoint request [].
Qed.


(** C9, as amended. [createOrder] of [gemini], once the markets are
    loaded (a failure of the loader is passed on), raises
    [ExchangeError] on the type [market] and leaves the world as the
    loader left it: no order request goes out. On any other type, so on
    [limit], each request it sends is an order request whose type is
    [exchange limit], provided the caller's [params] carry no [type] of
    their own: [extend] lets the entries of [params] replace those of
    the adapter. *)
Theorem gemini_createOrder_sends_limit_orders_only :
  (forall load symbol side amount price params w,
      exec load
        (Gemini.createOrder symbol (VStr "market") side amount price params) w
      = match load w with
        | (Ok _, w1) =>
            (Throw (Exn ExchangeError
                      (id (this w1) ++ " allows limit orders only")), w1)
        | (Throw e, w1) => (Throw e, w1)
        end)
  /\ (forall load symbol type side amount price params w r w',
         strict_eq type (VStr "market") = false ->
         has "type" params = false ->
         exec load (Gemini.createOrder symbol type side amount price params) w
         = (r, w') ->
         exists outcome w1 sent,
           load w = (outcome, w1)
           /\ trace w' = (sent ++ trace w1)%list
           /\ forall endpoint request,
                In (Sent endpoint request) sent ->
                endpoint = "privatePostOrderNew"
                /\ own request "type" = VStr "exchange limit").
Proof.
  split.
  - apply gemini_createOrder_market.
  - intros load symbol type side amount price params w r w' Ht Hp E.
    destruct (gemini_createOrder_request _ _ _ _ _ _ _ _ _ _ Ht E)
      as [outcome [w1 [sent [El [Et Hs]]]]].
    exists outcome, w1, sent. split; [exact El |]. split; [exact Et |].
    intros endpoint request Hin.
    destruct (Hs _ _ Hin) as [fields [He [-> Hf]]].
    split; [exact He |].
    rewrite extend_keeps by assumption. exact Hf.
Qed.

Lemma gemini_createOrder_sends_limit_orders_only_witness :
  let out :=
    exec skip
      (Gemini.createOrder (VStr "BTC/USD") (VStr "limit")
                          (VStr "buy") (num 1) (num 2) (VObj []))
      Sample.gemini_open in
  exists outcome w1 sent,
    skip Sample.gemini_open = (outcome, w1)
    /\ trace (snd out) = (sent ++ trace w1)%list
    /\ forall endpoint request,
         In (Sent endpoint request) sent ->
         endpoint = "privatePostOrderNew"
         /\ own request "type" = VStr "exchange limit".
Proof.
  intros out.
  apply (proj2 gemini_createOrder_sends_limit_orders_only
               skip (VStr "BTC/USD") (VStr "limit") (VStr "buy") (num 1) (num 2)
               (VObj []) Sample.gemini_open (fst out) (snd out)).
  - reflexivity.
  - reflexivity.
  - apply surjective_pairing.
Defined.

(** C9 as stated fails when the caller's [params] name a type: the
    order request of a [limit] order goes out with that type. *)
Lemma gemini_limit_order_type_can_be_replaced :
  exists request,
    trace (snd (exec skip
                  (Gemini.createOrder (VStr "BTC/USD")
                     (VStr "limit") (VStr "buy") (num 1) (num 2)
                     (VObj [("type", VStr "market buy")]))
                  Sample.gemini_open))
    = [Sent "privatePostOrderNew" request; Resolved (VStr "BTC/USD") true]
    /\ own request "type" = VStr "market buy"
    /\ own request "type" <> VStr "exchange limit".
Proof.
  eexists. split; [vm_compute; reflexivity |].
  split; [reflexivity |].
  vm_compute. intros E. discriminate E.
Qed.

(** *** Error dispatch *)


Lemma get_truthy v k : truthy v = true -> get v k = Ok (own v k).
Proof. destruct v; simpl; intros E; try discriminate E; reflexivity. Qed.





Section Dispatch.

Context `{Helpers}.






End Dispatch.










(** *** Missing numeric fields *)

(** C6 fails on [parseTicker] of [dx]: the time is divided by 1000
    without a look at whether it is there, and the timestamp of a ticker
    with no [time] is [NaN], not [undefined]. *)
Theorem dx_ticker_without_time_has_NaN_timestamp `{Helpers} :
  has "time" (dx_ticker_payload Sample.tickers) = false
  /\ exists r,
       Dx.parseTicker Sample.dx_loaded Sample.tickers VUndefined = Ok r
       /\ own r "timestamp" = VNaN.
Proof.
  split; [reflexivity |].
  eexists. split; reflexivity.
Qed.

(** The same on [parseOHLCV] of [dx], whose date is multiplied by 1000:
    a candle with no [date] opens with [NaN]. *)
Lemma dx_candle_without_date_has_NaN_time :
  Dx.parseOHLCV (VObj [("open", VStr "1.5")])
  = Ok (VArr [VNaN; VNum (3 # 2); VUndefined; VUndefined; VUndefined;
              VUndefined]).
Proof. reflexivity. Qed.

Lemma safeFloat_absent o k default :
  own o k = VUndefined -> safeFloat o k default = default.
Proof. unfold safeFloat. intros ->. reflexivity. Qed.

(** The sibling in [gemini] compares with [undefined] before it
    multiplies: a trade with no price has neither price nor cost. *)
Lemma gemini_trade_without_price_has_no_cost `{Helpers} i trade market r :
  own trade "price" = VUndefined ->
  Gemini.parseTrade i trade market = Ok r ->
  own r "price" = VUndefined /\ own r "cost" = VUndefined.
Proof.
  intros Hp. unfold Gemini.parseTrade.
  rewrite (safeFloat_absent trade "price" VUndefined Hp).
  intros E. bind_inv E. injection E as <-. split; reflexivity.
Qed.

(** ** Further sample inputs *)

Module Cases.

Import JS Base.

(** The three transactions the comments of [parseTransaction] of
    [bleutrade] show. *)
Definition deposit : value :=
  VObj [("Id", VStr "96974373");
        ("Coin", VStr "DOGE");
        ("Amount", VStr "12.05752192");
        ("TimeStamp", VStr "2017-09-29 08:10:09");
        ("Label", VStr "DQqSjjhzCm3ozT4vAevMUHgv4vsi9LBkoE")].

Definition withdrawal : value :=
  VObj [("Id", VStr "98009125");
        ("Coin", VStr "DOGE");
        ("Amount", VStr "-483858.64312050");
        ("TimeStamp", VStr "2017-11-22 22:29:05");
        ("Label",
         VStr "483848.64312050;DJVJZ58tJC8UeUv9Tqcdtn6uhWobouxFLT;10.00000000");
        ("TransactionId",
         VStr "8563105276cf798385fee7e5a563c620fea639ab132b089ea880d4d1f4309432")].

Definition canceled : value :=
  VObj [("Id", VStr "95820181");
        ("Coin", VStr "BTC");
        ("Amount", VStr "-0.71300000");
        ("TimeStamp", VStr "2017-07-19 17:14:24");
        ("Label", VStr "0.71200000;PER9VM2txt4BTdfyWgvv3GziECRdVEPN63;0.00100000");
        ("TransactionId", VStr "CANCELED")].

Definition bleutrade : instance :=
  Sample.loaded "bleutrade" Bleutrade.default_options.

Definition parsed (t : value) : value :=
  Sample.value_of
    (Bleutrade.parseTransaction (H := Sample.helpers) bleutrade t VUndefined).

End Cases.

(** ** Further properties of the adapters *)

(** *** Transactions of [bleutrade] *)

Lemma lt_zero_iff q : lt (VNum q) (num 0) = true <-> (q < 0)%Q.
Proof.
  change (num 0) with (VNum 0%Q). unfold lt. cbn [to_number].
  destruct (q ?= 0)%Q eqn:Hc.
  - split; [discriminate |]. intros Hq.
    apply (proj1 (Qlt_alt _ _)) in Hq. congruence.
  - split; [intros _; apply (proj2 (Qlt_alt _ _)); exact Hc | reflexivity].
  - split; [discriminate |]. intros Hq.
    apply (proj1 (Qlt_alt _ _)) in Hq. congruence.
Qed.

Lemma safeFloat_cases o k :
  safeFloat o k VUndefined = VUndefined
  \/ exists q, safeFloat o k VUndefined = VNum q.
Proof.
  unfold safeFloat. destruct (own o k); eauto.
  destruct (parseFloat_string s); eauto.
Qed.

Lemma lt_undefined v : lt VUndefined v = false.
Proof. reflexivity. Qed.

(** The fields [parseTransaction] computes, each as the code writes
    it. *)
Lemma bleutrade_parseTransaction_fields `{Helpers} i transaction currency r :
  Bleutrade.parseTransaction i transaction currency = Ok r ->
  exists labelParts,
    split_value ";" (safeString transaction "Label" VUndefined) = Ok labelParts
    /\ own r "type"
       = (if lt (safeFloat transaction "Amount" VUndefined) (num 0)
          then VStr "withdrawal" else VStr "deposit")
    /\ own r "amount"
       = (if (List.length labelParts =? 3)%nat
          then parseFloat (nth 0 labelParts VUndefined)
          else if lt (safeFloat transaction "Amount" VUndefined) (num 0)
               then abs (safeFloat transaction "Amount" VUndefined)
               else safeFloat transaction "Amount" VUndefined)
    /\ own r "address"
       = (if (List.length labelParts =? 3)%nat
          then nth 1 labelParts VUndefined
          else safeString transaction "Label" VUndefined)
    /\ own r "fee"
       = (if (List.length labelParts =? 3)%nat
          then VObj [("currency", own r "currency");
                     ("cost", parseFloat (nth 2 labelParts VUndefined))]
          else VUndefined)
    /\ own r "status"
       = (if strict_eq (safeString transaction "TransactionId" VUndefined)
                       (VStr "CANCELED")
          then VStr "canceled" else VStr "ok")
    /\ own r "txid"
       = (if strict_eq (safeString transaction "TransactionId" VUndefined)
                       (VStr "CANCELED")
          then VUndefined
          else safeString transaction "TransactionId" VUndefined).
Proof.
  unfold Bleutrade.parseTransaction. intros E. bind_inv E.
  injection E as <-. exists a0. split; [assumption |].
  repeat split.
  cbn [own assoc String.eqb Ascii.eqb Bool.eqb].
  destruct (List.length a0 =? 3)%nat; [| reflexivity].
  unfold parseFloat.
  destruct (parseFloat_string (to_string (nth 2 a0 VUndefined))); reflexivity.
Qed.

Lemma strict_eq_string v s : strict_eq v (VStr s) = true <-> v = VStr s.
Proof.
  destruct v; simpl; split; intros E; try discriminate E.
  - apply String.eqb_eq in E. congruence.
  - injection E as ->. apply String.eqb_refl.
Qed.

Lemma safeValue_get o k key :
  strict_eq (safeValue o k VUndefined) VUndefined = false ->
  get (safeValue o k VUndefined) key = Ok (own (safeValue o k VUndefined) key).
Proof.
  unfold safeValue. destruct (own o k); simpl; intros E;
    try discriminate E; reflexivity.
Qed.

(** A transaction of [bleutrade] is a withdrawal exactly when its
    [Amount] reads as a negative number, and a deposit otherwise, also
    when there is no amount at all. *)
Theorem bleutrade_transaction_direction `{Helpers} i transaction currency r :
  Bleutrade.parseTransaction i transaction currency = Ok r ->
  (own r "type" = VStr "withdrawal"
   <-> exists q,
         safeFloat transaction "Amount" VUndefined = VNum q /\ (q < 0)%Q)
  /\ (own r "type" <> VStr "withdrawal" -> own r "type" = VStr "deposit").
Proof.
  intros E.
  destruct (bleutrade_parseTransaction_fields _ _ _ _ E)
    as [parts [_ [Ht _]]].
  rewrite Ht.
  destruct (safeFloat_cases transaction "Amount") as [Ea | [q Ea]];
    rewrite Ea.
  - rewrite lt_undefined. split.
    + split; [discriminate |]. intros [q [Hq _]]. discriminate Hq.
    + reflexivity.
  - destruct (lt (VNum q) (num 0)) eqn:Hlt.
    + split; [| intros Hn; exfalso; apply Hn; reflexivity].
      split; [| reflexivity].
      intros _. exists q. split; [reflexivity |].
      apply lt_zero_iff. exact Hlt.
    + split; [| reflexivity].
      split; [discriminate |].
      intros [q' [Hq Hneg]]. injection Hq as <-.
      apply lt_zero_iff in Hneg. congruence.
Qed.

(** When the label of a transaction is not made of three parts between
    semicolons, it is the address, there is no fee, and the amount is
    the absolute value of [Amount]: never negative, and [undefined] when
    there is no amount. *)
Theorem bleutrade_transaction_plain_label `{Helpers} i transaction currency r
  label :
  Bleutrade.parseTransaction i transaction currency = Ok r ->
  safeString transaction "Label" VUndefined = VStr label ->
  List.length (split ";" label) <> 3%nat ->
  own r "address" = VStr label
  /\ own r "fee" = VUndefined
  /\ (safeFloat transaction "Amount" VUndefined = VUndefined ->
      own r "amount" = VUndefined)
  /\ (forall a,
         safeFloat transaction "Amount" VUndefined = VNum a ->
         exists q,
           own r "amount" = VNum q /\ (q == Qabs a)%Q /\ (0 <= q)%Q).
Proof.
  intros E Hl Hn.
  destruct (bleutrade_parseTransaction_fields _ _ _ _ E)
    as [parts [Hs [_ [Ha [Hd [Hf _]]]]]].
  rewrite Hl in Hs, Hd. simpl in Hs. injection Hs as <-.
  rewrite length_map in Ha, Hd, Hf.
  destruct (Nat.eqb_spec (List.length (split ";" label)) 3);
    [contradiction |].
  repeat split; try assumption.
  - intros Ea. rewrite Ha, Ea. reflexivity.
  - intros a Ea. rewrite Ha, Ea.
    destruct (lt (VNum a) (num 0)) eqn:Hlt.
    + exists (Qred (Qabs a)). split; [reflexivity |].
      split; [apply Qred_correct |].
      rewrite Qred_correct. apply Qabs_nonneg.
    + exists a.
      assert (Hpos : (0 <= a)%Q).
      { apply Qnot_lt_le. intros Hneg. apply lt_zero_iff in Hneg. congruence. }
      split; [reflexivity |]. split; [| exact Hpos].
      symmetry. apply Qabs_pos. exact Hpos.
Qed.

(** When the label is [net;address;fee], the record takes all three
    from the label: the amount is the net amount as written there,
    whatever [Amount] says, and the fee is in the currency of the
    record. *)
Theorem bleutrade_transaction_labelled `{Helpers} i transaction currency r
  label net address cost :
  Bleutrade.parseTransaction i transaction currency = Ok r ->
  safeString transaction "Label" VUndefined = VStr label ->
  split ";" label = [net; address; cost] ->
  own r "amount" = parseFloat (VStr net)
  /\ own r "address" = VStr address
  /\ own r "fee" = VObj [("currency", own r "currency");
                         ("cost", parseFloat (VStr cost))].
Proof.
  intros E Hl Hp.
  destruct (bleutrade_parseTransaction_fields _ _ _ _ E)
    as [parts [Hs [_ [Ha [Hd [Hf _]]]]]].
  rewrite Hl in Hs. simpl in Hs. rewrite Hp in Hs. injection Hs as <-.
  repeat split; assumption.
Qed.

(** A transaction is canceled exactly when its [TransactionId] reads
    [CANCELED]; its [txid] is then [undefined]. Any other transaction is
    [ok] and keeps its id. *)
Theorem bleutrade_transaction_canceled `{Helpers} i transaction currency r :
  Bleutrade.parseTransaction i transaction currency = Ok r ->
  (own r "status" = VStr "canceled"
   <-> safeString transaction "TransactionId" VUndefined = VStr "CANCELED")
  /\ (own r "status" = VStr "canceled" -> own r "txid" = VUndefined)
  /\ (own r "status" <> VStr "canceled" ->
      own r "status" = VStr "ok"
      /\ own r "txid" = safeString transaction "TransactionId" VUndefined).
Proof.
  intros E.
  destruct (bleutrade_parseTransaction_fields _ _ _ _ E)
    as [parts [_ [_ [_ [_ [_ [Hs Hx]]]]]]].
  rewrite Hs, Hx.
  destruct (strict_eq (safeString transaction "TransactionId" VUndefined)
                      (VStr "CANCELED")) eqn:Hc.
  - apply strict_eq_string in Hc.
    split; [split; [intros _; exact Hc | reflexivity] |].
    split; [reflexivity |].
    intros Hn. exfalso. apply Hn. reflexivity.
  - split.
    + split; [discriminate |].
      intros Hid. apply strict_eq_string in Hid. congruence.
    + split; [discriminate |]. intros _. split; reflexivity.
Qed.

(** A transaction without a label is not parsed: splitting the missing
    label is a [TypeError]. *)
Theorem bleutrade_transaction_needs_label `{Helpers} i transaction currency :
  own transaction "Label" = VUndefined ->
  exists message,
    Bleutrade.parseTransaction i transaction currency
    = Throw (Exn TypeError message).
Proof.
  intros Hl. unfold Bleutrade.parseTransaction.
  assert (Hs : safeString transaction "Label" VUndefined = VUndefined).
  { unfold safeString. rewrite Hl. reflexivity. }
  rewrite Hs.
  destruct (strict_eq
              (safeValue (currencies_by_id i)
                 (to_string (safeString transaction "Coin" VUndefined))
                 VUndefined) VUndefined) eqn:Hc.
  - cbn [negb bind split_value to_string]. eexists. reflexivity.
  - cbn [negb]. rewrite (safeValue_get _ _ _ Hc).
    cbn [bind split_value to_string]. eexists. reflexivity.
Qed.

Lemma bleutrade_transaction_direction_witness :
  (own (Cases.parsed Cases.withdrawal) "type" = VStr "withdrawal"
   <-> exists q,
         safeFloat Cases.withdrawal "Amount" VUndefined = VNum q /\ (q < 0)%Q)
  /\ (own (Cases.parsed Cases.withdrawal) "type" <> VStr "withdrawal" ->
      own (Cases.parsed Cases.withdrawal) "type" = VStr "deposit").
Proof.
  apply (bleutrade_transaction_direction (H := Sample.helpers)
           Cases.bleutrade Cases.withdrawal VUndefined
           (Cases.parsed Cases.withdrawal)).
  vm_compute. reflexivity.
Defined.

Lemma bleutrade_transaction_plain_label_witness :
  own (Cases.parsed Cases.deposit) "address"
  = VStr "DQqSjjhzCm3ozT4vAevMUHgv4vsi9LBkoE"
  /\ own (Cases.parsed Cases.deposit) "fee" = VUndefined
  /\ (safeFloat Cases.deposit "Amount" VUndefined = VUndefined ->
      own (Cases.parsed Cases.deposit) "amount" = VUndefined)
  /\ (forall a,
         safeFloat Cases.deposit "Amount" VUndefined = VNum a ->
         exists q,
           own (Cases.parsed Cases.deposit) "amount" = VNum q
           /\ (q == Qabs a)%Q /\ (0 <= q)%Q).
Proof.
  apply (bleutrade_transaction_plain_label (H := Sample.helpers)
           Cases.bleutrade Cases.deposit VUndefined
           (Cases.parsed Cases.deposit)
           "DQqSjjhzCm3ozT4vAevMUHgv4vsi9LBkoE").
  - vm_compute. reflexivity.
  - reflexivity.
  - vm_compute. intros E. discriminate E.
Defined.

Lemma bleutrade_transaction_labelled_witness :
  own (Cases.parsed Cases.withdrawal) "amount"
  = parseFloat (VStr "483848.64312050")
  /\ own (Cases.parsed Cases.withdrawal) "address"
     = VStr "DJVJZ58tJC8UeUv9Tqcdtn6uhWobouxFLT"
  /\ own (Cases.parsed Cases.withdrawal) "fee"
     = VObj [("currency", own (Cases.parsed Cases.withdrawal) "currency");
             ("cost", parseFloat (VStr "10.00000000"))].
Proof.
  apply (bleutrade_transaction_labelled (H := Sample.helpers)
           Cases.bleutrade Cases.withdrawal VUndefined
           (Cases.parsed Cases.withdrawal)
           "483848.64312050;DJVJZ58tJC8UeUv9Tqcdtn6uhWobouxFLT;10.00000000").
  - vm_compute. reflexivity.
  - reflexivity.
  - vm_compute. reflexivity.
Defined.

Lemma bleutrade_transaction_canceled_witness :
  (own (Cases.parsed Cases.canceled) "status" = VStr "canceled"
   <-> safeString Cases.canceled "TransactionId" VUndefined = VStr "CANCELED")
  /\ (own (Cases.parsed Cases.canceled) "status" = VStr "canceled" ->
      own (Cases.parsed Cases.canceled) "txid" = VUndefined)
  /\ (own (Cases.parsed Cases.canceled) "status" <> VStr "canceled" ->
      own (Cases.parsed Cases.canceled) "status" = VStr "ok"
      /\ own (Cases.parsed Cases.canceled) "txid"
         = safeString Cases.canceled "TransactionId" VUndefined).
Proof.
  apply (bleutrade_transaction_canceled (H := Sample.helpers)
           Cases.bleutrade Cases.canceled VUndefined
           (Cases.parsed Cases.canceled)).
  vm_compute. reflexivity.
Defined.

Lemma bleutrade_transaction_needs_label_witness :
  exists message,
    Bleutrade.parseTransaction (H := Sample.helpers) Cases.bleutrade
      (VObj [("Amount", VStr "1")]) VUndefined
    = Throw (Exn TypeError message).
Proof.
  apply (bleutrade_transaction_needs_label (H := Sample.helpers)).
  reflexivity.
Defined.

(** *** The market cache is loaded before a symbol is looked up *)

(** A program that loads the markets before it looks a symbol up. *)
Fixpoint loads_first (p : prog) : Prop :=
  match p with
  | Return _ | Raise _ => True
  | LoadMarkets _ => True
  | Market _ _ => False
  | Currency _ k => forall c, loads_first (k c)
  | Request _ _ k => forall response, loads_first (k response)
  | Milliseconds k => forall now, loads_first (k now)
  | This k => forall i, loads_first (k i)
  | SetOptions _ k => loads_first k
  end.

(** A program that looks no symbol up. *)
Fixpoint resolves_nothing (p : prog) : Prop :=
  match p with
  | Return _ | Raise _ => True
  | LoadMarkets k => resolves_nothing k
  | Market _ _ => False
  | Currency _ k => forall c, resolves_nothing (k c)
  | Request _ _ k => forall response, resolves_nothing (k response)
  | Milliseconds k => forall now, resolves_nothing (k now)
  | This k => forall i, resolves_nothing (k i)
  | SetOptions _ k => resolves_nothing k
  end.

(** Every lookup among [new] found the cache populated. *)
Definition resolved_loaded (new : list event) : Prop :=
  forall symbol loaded, In (Resolved symbol loaded) new -> loaded = true.

Definition resolved_none (new : list event) : Prop :=
  forall symbol loaded, ~ In (Resolved symbol loaded) new.

Definition populated (w : world) : Prop := truthy (markets (this w)) = true.

(** What the runs below need of [loadMarkets]: it keeps a populated
    cache, leaves one behind when it succeeds, and looks nothing up
    before that. *)
Definition sound_loader (load : world -> result unit * world) : Prop :=
  forall w r w',
    load w = (r, w') ->
    (exists new, trace w' = (new ++ trace w)%list /\ resolved_loaded new)
    /\ (populated w -> populated w')
    /\ (r = Ok tt -> populated w').

Lemma resolved_loaded_app new1 new2 :
  resolved_loaded new1 -> resolved_loaded new2 ->
  resolved_loaded (new2 ++ new1).
Proof.
  intros H1 H2 s b Hin. apply in_app_or in Hin.
  destruct Hin; [eapply H2 | eapply H1]; eassumption.
Qed.

Lemma resolved_loaded_sent endpoint request new :
  resolved_loaded new -> resolved_loaded (new ++ [Sent endpoint request]).
Proof.
  intros Hn s b Hin. apply in_app_or in Hin.
  destruct Hin as [Hin | [Hin | []]]; [eapply Hn; eassumption | discriminate Hin].
Qed.

Lemma exec_populated load :
  sound_loader load ->
  forall p w r w',
    populated w ->
    exec load p w = (r, w') ->
    populated w'
    /\ exists new, trace w' = (new ++ trace w)%list /\ resolved_loaded new.
Proof.
  intros Hload p.
  induction p as [v | e | k IH | symbol k IH | code k IH
                  | endpoint request k IH | k IH | k IH | o k IH];
    simpl; intros w r w' Hw E.
  - injection E as <- <-. split; [exact Hw |].
    exists []. split; [reflexivity | intros s b []].
  - injection E as <- <-. split; [exact Hw |].
    exists []. split; [reflexivity | intros s b []].
  - destruct (load w) as [[[] | e] w1] eqn:El.
    + destruct (Hload _ _ _ El) as [[new1 [Ht1 Hn1]] [Hkeep _]].
      destruct (IH _ _ _ (Hkeep Hw) E) as [Hw' [new2 [Ht2 Hn2]]].
      split; [exact Hw' |].
      exists (new2 ++ new1)%list. split.
      * rewrite Ht2, Ht1. apply app_assoc.
      * apply resolved_loaded_app; assumption.
    + injection E as <- <-.
      destruct (Hload _ _ _ El) as [Hnew [Hkeep _]].
      split; [apply Hkeep; exact Hw | exact Hnew].
  - assert (Hlog : resolved_loaded [Resolved symbol (truthy (markets (this w)))]).
    { intros s b [Hin | []]. injection Hin as _ <-. exact Hw. }
    destruct (market (this w) symbol) as [m | e].
    + eapply IH in E; [| exact Hw].
      destruct E as [Hw' [new [Ht Hn]]].
      split; [exact Hw' |].
      exists (new ++ [Resolved symbol (truthy (markets (this w)))])%list.
      split.
      * rewrite Ht. simpl. rewrite <- app_assoc. reflexivity.
      * apply resolved_loaded_app; assumption.
    + injection E as <- <-. split; [exact Hw |].
      exists [Resolved symbol (truthy (markets (this w)))].
      split; [reflexivity | exact Hlog].
  - destruct (currency (this w) code) as [c | e].
    + eapply IH; eassumption.
    + injection E as <- <-. split; [exact Hw |].
      exists []. split; [reflexivity | intros s b []].
  - destruct (respond w (trace w) endpoint request) as [response | e].
    + eapply IH in E; [| exact Hw].
      destruct E as [Hw' [new [Ht Hn]]].
      split; [exact Hw' |].
      exists (new ++ [Sent endpoint request])%list. split.
      * rewrite Ht. simpl. rewrite <- app_assoc. reflexivity.
      * apply resolved_loaded_sent. exact Hn.
    + injection E as <- <-. split; [exact Hw |].
      exists [Sent endpoint request]. split; [reflexivity |].
      intros s b [Hin | []]. discriminate Hin.
  - eapply IH in E; [| exact Hw]. exact E.
  - eapply IH; eassumption.
  - eapply IH in E; [| exact Hw]. exact E.
Qed.

Lemma exec_loads_first load :
  sound_loader load ->
  forall p,
    loads_first p ->
    forall w r w',
      exec load p w = (r, w') ->
      exists new, trace w' = (new ++ trace w)%list /\ resolved_loaded new.
Proof.
  intros Hload p.
  induction p as [v | e | k IH | symbol k IH | code k IH
                  | endpoint request k IH | k IH | k IH | o k IH];
    simpl; intros Hp w r w' E.
  - injection E as <- <-. exists []. split; [reflexivity | intros s b []].
  - injection E as <- <-. exists []. split; [reflexivity | intros s b []].
  - destruct (load w) as [[[] | e] w1] eqn:El.
    + destruct (Hload _ _ _ El) as [[new1 [Ht1 Hn1]] [_ Hfill]].
      destruct (exec_populated load Hload _ _ _ _ (Hfill eq_refl) E)
        as [_ [new2 [Ht2 Hn2]]].
      exists (new2 ++ new1)%list. split.
      * rewrite Ht2, Ht1. apply app_assoc.
      * apply resolved_loaded_app; assumption.
    + injection E as <- <-.
      destruct (Hload _ _ _ El) as [Hnew _]. exact Hnew.
  - destruct Hp.
  - destruct (currency (this w) code) as [c | e].
    + eapply IH; [apply Hp | eassumption].
    + injection E as <- <-. exists []. split; [reflexivity | intros s b []].
  - destruct (respond w (trace w) endpoint request) as [response | e].
    + eapply IH in E; [| apply Hp]. destruct E as [new [Ht Hn]].
      exists (new ++ [Sent endpoint request])%list. split.
      * rewrite Ht. simpl. rewrite <- app_assoc. reflexivity.
      * apply resolved_loaded_sent. exact Hn.
    + injection E as <- <-.
      exists [Sent endpoint request]. split; [reflexivity |].
      intros s b [Hin | []]. discriminate Hin.
  - eapply IH in E; [exact E | apply Hp].
  - eapply IH; [apply Hp | eassumption].
  - eapply IH in E; [exact E | exact Hp].
Qed.

Lemma exec_resolves_nothing :
  forall p,
    resolves_nothing p ->
    forall w r w',
      exec skip p w = (r, w') ->
      exists new, trace w' = (new ++ trace w)%list /\ resolved_none new.
Proof.
  induction p as [v | e | k IH | symbol k IH | code k IH
                  | endpoint request k IH | k IH | k IH | o k IH];
    simpl; intros Hp w r w' E.
  - injection E as <- <-. exists []. split; [reflexivity | intros s b []].
  - injection E as <- <-. exists []. split; [reflexivity | intros s b []].
  - eapply IH; eassumption.
  - destruct Hp.
  - destruct (currency (this w) code) as [c | e].
    + eapply IH; [apply Hp | eassumption].
    + injection E as <- <-. exists []. split; [reflexivity | intros s b []].
  - destruct (respond w (trace w) endpoint request) as [response | e].
    + eapply IH in E; [| apply Hp]. destruct E as [new [Ht Hn]].
      exists (new ++ [Sent endpoint request])%list. split.
      * rewrite Ht. simpl. rewrite <- app_assoc. reflexivity.
      * intros s b Hin. apply in_app_or in Hin.
        destruct Hin as [Hin | [Hin | []]];
          [eapply Hn; eassumption | discriminate Hin].
    + injection E as <- <-.
      exists [Sent endpoint request]. split; [reflexivity |].
      intros s b [Hin | []]. discriminate Hin.
  - eapply IH in E; [exact E | apply Hp].
  - eapply IH; [apply Hp | eassumption].
  - eapply IH in E; [exact E | exact Hp].
Qed.

Lemma loadMarkets_sound fetchMarkets :
  resolves_nothing fetchMarkets -> sound_loader (loadMarkets fetchMarkets).
Proof.
  intros Hf w r w'. unfold loadMarkets, populated.
  destruct (truthy (markets (this w))) eqn:Hm.
  - intros E. injection E as <- <-.
    split; [exists []; split; [reflexivity | intros s b []] |].
    split; [intros _; exact Hm | intros _; exact Hm].
  - destruct (exec skip fetchMarkets w) as [[ms | e] w1] eqn:Ef;
      intros E; injection E as <- <-.
    + destruct (exec_resolves_nothing _ Hf _ _ _ Ef) as [new [Ht Hn]].
      split.
      * exists new. split; [exact Ht |].
        intros s b Hin. exfalso. eapply Hn. eassumption.
      * split; [discriminate | reflexivity].
    + destruct (exec_resolves_nothing _ Hf _ _ _ Ef) as [new [Ht Hn]].
      split.
      * exists new. split; [exact Ht |].
        intros s b Hin. exfalso. eapply Hn. eassumption.
      * split; discriminate.
Qed.

Lemma resolves_nothing_lift {A : Type} (r : result A) (k : A -> prog) :
  (forall a, resolves_nothing (k a)) -> resolves_nothing (lift r k).
Proof. intros Hk. destruct r; simpl; auto. Qed.

Lemma loads_first_lift {A : Type} (r : result A) (k : A -> prog) :
  (forall a, loads_first (k a)) -> loads_first (lift r k).
Proof. intros Hk. destruct r; simpl; auto. Qed.

(** The methods of the three adapters that take a symbol. *)
Inductive symbol_scoped `{Helpers} : prog -> Prop :=
| dx_fetchTicker symbol params :
    symbol_scoped (Dx.fetchTicker symbol params)
| dx_fetchOHLCV symbol timeframe since limit params :
    symbol_scoped (Dx.fetchOHLCV symbol timeframe since limit params)
| dx_fetchOpenOrders symbol since limit params :
    symbol_scoped (Dx.fetchOpenOrders symbol since limit params)
| dx_fetchClosedOrders symbol since limit params :
    symbol_scoped (Dx.fetchClosedOrders symbol since limit params)
| dx_fetchOrderBook symbol limit params :
    symbol_scoped (Dx.fetchOrderBook symbol limit params)
| dx_createOrder symbol type side amount price params :
    symbol_scoped (Dx.createOrder symbol type side amount price params)
| dx_cancelOrder id symbol params :
    symbol_scoped (Dx.cancelOrder id symbol params)
| gemini_fetchOrderBook symbol limit params :
    symbol_scoped (Gemini.fetchOrderBook symbol limit params)
| gemini_fetchTicker symbol params :
    symbol_scoped (Gemini.fetchTicker symbol params)
| gemini_fetchTrades symbol since limit params :
    symbol_scoped (Gemini.fetchTrades symbol since limit params)
| gemini_fetchOrder id symbol params :
    symbol_scoped (Gemini.fetchOrder id symbol params)
| gemini_fetchOpenOrders symbol since limit params :
    symbol_scoped (Gemini.fetchOpenOrders symbol since limit params)
| gemini_createOrder symbol type side amount price params :
    symbol_scoped (Gemini.createOrder symbol type side amount price params)
| gemini_cancelOrder id symbol params :
    symbol_scoped (Gemini.cancelOrder id symbol params)
| gemini_fetchMyTrades symbol since limit params :
    symbol_scoped (Gemini.fetchMyTrades symbol since limit params)
| bleutrade_fetchOrders symbol since limit params :
    symbol_scoped (Bleutrade.fetchOrders symbol since limit params)
| bleutrade_fetchClosedOrders symbol since limit params :
    symbol_scoped (Bleutrade.fetchClosedOrders symbol since limit params)
| bleutrade_fetchOrderBook symbol limit params :
    symbol_scoped (Bleutrade.fetchOrderBook symbol limit params)
| bleutrade_fetchOrderTrades id symbol since limit params :
    symbol_scoped (Bleutrade.fetchOrderTrades id symbol since limit params)
| bleutrade_fetchOHLCV symbol timeframe since limit params :
    symbol_scoped (Bleutrade.fetchOHLCV symbol timeframe since limit params).

Section Cache.

Context `{Helpers}.

Lemma symbol_scoped_loads_first p : symbol_scoped p -> loads_first p.
Proof.
  intros Hp. destruct Hp; try exact I.
  - (* cancelOrder of dx sends its request and looks nothing up *)
    intros response. exact I.
  - (* fetchMyTrades of gemini checks its argument first *)
    intros i. simpl. destruct (strict_eq symbol VUndefined); exact I.
Qed.

Lemma dx_fetchMarkets_resolves_nothing params :
  resolves_nothing (Dx.fetchMarkets params).
Proof.
  intros markets. repeat (apply resolves_nothing_lift; intros ?). exact I.
Qed.

Lemma gemini_fetchMarkets_resolves_nothing params :
  resolves_nothing (Gemini.fetchMarkets params).
Proof.
  intros i. unfold Gemini.fetchMarkets.
  destruct (safeValue (options i) "fetchMarketsMethod"
                      (VStr "fetch_markets_from_api")); try exact I.
  destruct (_ || _)%bool.
  - intros response j. apply resolves_nothing_lift. intros sections.
    cbv beta zeta.
    destruct (negb _); [exact I |].
    destruct (_ <? 2)%nat; [exact I |].
    destruct (_ <? 2)%nat; [exact I |].
    apply resolves_nothing_lift. intros result. exact I.
  - destruct (_ || _)%bool; [| exact I].
    intros response. apply resolves_nothing_lift. intros result. exact I.
Qed.

End Cache.

(** No method that takes a symbol looks it up in an empty cache: in
    every run of such a method, from any state of the exchange object,
    each lookup of a symbol comes after [loadMarkets] has populated the
    cache, so that a failed lookup is a symbol the exchange does not
    list. The loader is any one that looks no symbol up itself, as those
    of [dx] and [gemini] do. *)
Theorem symbol_lookups_follow_loadMarkets `{Helpers} fetchMarkets p w r w' :
  symbol_scoped p ->
  resolves_nothing fetchMarkets ->
  run fetchMarkets p w = (r, w') ->
  exists new,
    trace w' = (new ++ trace w)%list
    /\ forall symbol loaded, In (Resolved symbol loaded) new -> loaded = true.
Proof.
  intros Hp Hf E. unfold run in E.
  exact (exec_loads_first _ (loadMarkets_sound _ Hf) _
           (symbol_scoped_loads_first _ Hp) _ _ _ E).
Qed.

(** The market loaders of [dx] and [gemini] look no symbol up. *)
Theorem market_loaders_resolve_nothing `{Helpers} params :
  resolves_nothing (Dx.fetchMarkets params)
  /\ resolves_nothing (Gemini.fetchMarkets params).
Proof.
  split.
  - apply dx_fetchMarkets_resolves_nothing.
  - apply gemini_fetchMarkets_resolves_nothing.
Qed.

(** A [gemini] object with an empty cache, set to load its markets from
    the API, on an exchange that lists one symbol. *)
Definition gemini_from_api : instance :=
  Sample.fresh "gemini" (VObj [("fetchMarketsMethod", VStr "fetch_markets_from_api")]).

Definition gemini_exchange (endpoint : string) (request : value) : result value :=
  if String.eqb endpoint "publicGetSymbols" then Ok (VArr [VStr "btcusd"])
  else Ok (VObj [("last", VStr "6500.5");
                 ("bid", VStr "6500");
                 ("ask", VStr "6501");
                 ("volume", VObj [("timestamp", num 1540000000000)])]).

Definition gemini_cold : world := Sample.world_of gemini_from_api gemini_exchange.

Lemma symbol_lookups_follow_loadMarkets_witness :
  let out :=
    run (Gemini.fetchMarkets (H := Sample.helpers) (VObj []))
        (Gemini.fetchTicker (H := Sample.helpers) (VStr "BTC/USD") (VObj []))
        gemini_cold in
  exists new,
    trace (snd out) = (new ++ trace gemini_cold)%list
    /\ forall symbol loaded, In (Resolved symbol loaded) new -> loaded = true.
Proof.
  intros out.
  apply (symbol_lookups_follow_loadMarkets (H := Sample.helpers)
           (Gemini.fetchMarkets (H := Sample.helpers) (VObj []))
           (Gemini.fetchTicker (H := Sample.helpers) (VStr "BTC/USD") (VObj []))
           gemini_cold (fst out) (snd out)).
  - constructor.
  - apply (gemini_fetchMarkets_resolves_nothing (H := Sample.helpers)).
  - apply surjective_pairing.
Defined.

(** That run in full: the symbols are fetched, the symbol is
    found in the cache just filled, and the ticker is asked for. *)
Lemma gemini_fetchTicker_from_an_empty_cache :
  let out :=
    run (Gemini.fetchMarkets (H := Sample.helpers) (VObj []))
        (Gemini.fetchTicker (H := Sample.helpers) (VStr "BTC/USD") (VObj []))
        gemini_cold in
  own (Sample.value_of (fst out)) "last" = VNum (13001 # 2)
  /\ trace (snd out)
     = [Sent "publicGetPubtickerSymbol" (VObj [("symbol", VStr "btcusd")]);
        Resolved (VStr "BTC/USD") true;
        Sent "publicGetSymbols" (VObj [])].
Proof. vm_compute. split; reflexivity. Qed.

(** *** Methods of [bleutrade] *)

(** Whatever the symbol, [fetchOrders] asks for the orders of all
    markets: the request it sends after the markets are loaded does not
    depend on the symbol, which only selects the market handed to the
    parser. *)
Theorem bleutrade_fetchOrders_asks_for_all_markets `{Helpers}
  load symbol since limit params w r w' :
  exec load (Bleutrade.fetchOrders symbol since limit params) w = (r, w') ->
  forall endpoint request,
    In (Sent endpoint request) (trace w') ->
    In (Sent endpoint request) (trace (snd (load w)))
    \/ (endpoint = "accountGetOrders"
        /\ request
           = extend (VObj [("market", VStr "ALL"); ("orderstatus", VStr "ALL")])
                    params).
Proof.
  unfold Bleutrade.fetchOrders. simpl.
  destruct (load w) as [[[] | e] w1]; simpl.
  - set (send := fun market : value => Request "accountGetOrders" _ _).
    assert (Hsend : forall market w2 r w',
               trace w2 = trace w1
               \/ (exists s b, trace w2 = Resolved s b :: trace w1) ->
               exec load (send market) w2 = (r, w') ->
               forall endpoint request,
                 In (Sent endpoint request) (trace w') ->
                 In (Sent endpoint request) (trace w1)
                 \/ (endpoint = "accountGetOrders"
                     /\ request
                        = extend (VObj [("market", VStr "ALL");
                                        ("orderstatus", VStr "ALL")]) params)).
    { intros market w2 r0 w0 Ht. unfold send. simpl.
      destruct (respond w2 (trace w2) _ _) as [response | e].
      - intros E endpoint request Hin.
        assert (Hw : trace w0
                     = Sent "accountGetOrders"
                         (extend (VObj [("market", VStr "ALL");
                                        ("orderstatus", VStr "ALL")]) params)
                       :: trace w2).
        { destruct (get response "result") as [orders | e]; simpl in E.
          - destruct (parseOrders _ orders market since limit); simpl in E;
              injection E as _ <-; reflexivity.
          - injection E as _ <-. reflexivity. }
        rewrite Hw in Hin. destruct Hin as [Hin | Hin].
        + injection Hin as <- <-. right. split; reflexivity.
        + left. destruct Ht as [Ht | [s [b Ht]]]; rewrite Ht in Hin;
            [exact Hin |].
          destruct Hin as [Hin | Hin]; [discriminate Hin | exact Hin].
      - intros E endpoint request Hin. injection E as _ <-.
        destruct Hin as [Hin | Hin].
        + injection Hin as <- <-. right. split; reflexivity.
        + left. destruct Ht as [Ht | [s [b Ht]]]; rewrite Ht in Hin;
            [exact Hin |].
          destruct Hin as [Hin | Hin]; [discriminate Hin | exact Hin]. }
    destruct (negb (strict_eq symbol VUndefined)); simpl.
    + destruct (market (this w1) symbol) as [m | e].
      * intros E. eapply Hsend; [| exact E]. right.
        exists symbol, (truthy (markets (this w1))). reflexivity.
      * intros E endpoint request Hin. injection E as _ <-.
        left. destruct Hin as [Hin | Hin]; [discriminate Hin | exact Hin].
    + intros E. eapply Hsend; [| exact E]. left. reflexivity.
  - intros E endpoint request Hin. injection E as _ <-. left. exact Hin.
Qed.

(** [fetchDeposits] and [fetchWithdrawals] each send one request once
    the markets are loaded, to the deposit history and to the withdrawal
    history, with the caller's [params] as they are: the currency code,
    [since] and [limit] are not sent, they filter the answer. *)
Theorem bleutrade_transactions_endpoints `{Helpers}
  load code since limit params w w1 :
  load w = (Ok tt, w1) ->
  snd (exec load (Bleutrade.fetchDeposits code since limit params) w)
  = log (Sent "accountGetDeposithistory" params) w1
  /\ snd (exec load (Bleutrade.fetchWithdrawals code since limit params) w)
     = log (Sent "accountGetWithdrawhistory" params) w1.
Proof.
  intros El.
  unfold Bleutrade.fetchDeposits, Bleutrade.fetchWithdrawals,
    Bleutrade.fetchTransactionsByType.
  simpl. rewrite El. simpl.
  split.
  - destruct (respond w1 (trace w1) "accountGetDeposithistory" params)
      as [response | e]; [| reflexivity].
    destruct (get response "result") as [transactions | e]; [| reflexivity].
    simpl.
    destruct (parseTransactions _ transactions); reflexivity.
  - destruct (respond w1 (trace w1) "accountGetWithdrawhistory" params)
      as [response | e]; [| reflexivity].
    destruct (get response "result") as [transactions | e]; [| reflexivity].
    simpl.
    destruct (parseTransactions _ transactions); reflexivity.
Qed.

(** [fetchOrderBook] returns a book only when the answer of the
    exchange has a result that is not empty, and the book is that
    result, read with the keys [buy], [sell], [Rate] and [Quantity]; an
    answer without result is an error, not an empty book. *)
Theorem bleutrade_fetchOrderBook_needs_a_result `{Helpers}
  load symbol limit params w book w' :
  exec load (Bleutrade.fetchOrderBook symbol limit params) w = (Ok book, w') ->
  exists request response,
    trace w' = Sent "publicGetOrderbook" request
               :: Resolved symbol true :: trace (snd (load w))
    /\ respond w' (Resolved symbol true :: trace (snd (load w)))
         "publicGetOrderbook" request = Ok response
    /\ truthy (safeValue response "result" VUndefined) = true
    /\ parseOrderBook None (safeValue response "result" VUndefined) VUndefined
         (VStr "buy") (VStr "sell") (VStr "Rate") (VStr "Quantity")
       = Ok book.
Proof.
  unfold Bleutrade.fetchOrderBook, MarketId. simpl.
  destruct (load w) as [[[] | e] w1]; [| discriminate]. simpl.
  unfold market.
  destruct (truthy (markets (this w1))) eqn:Hm.
  2:{ discriminate. }
  destruct symbol; try discriminate.
  destruct (has s (markets (this w1))); [| discriminate].
  intros E.
  match type of E with
  | context [respond ?a ?b ?c ?d] =>
      destruct (respond a b c d) as [response | e] eqn:Hr;
        [| discriminate E];
      exists d, response
  end.
  destruct (truthy (safeValue response "result" VUndefined)) eqn:Ht;
    simpl in E; [| discriminate E].
  destruct (parseOrderBook None (safeValue response "result" VUndefined)
              VUndefined (VStr "buy") (VStr "sell") (VStr "Rate")
              (VStr "Quantity")) as [b | e] eqn:Hp;
    simpl in E; [| discriminate E].
  injection E as <- <-. repeat split. exact Hr.
Qed.

(** *** Orders of [bleutrade] *)

(** The price of an order is the [Price] of the payload and nothing
    else: the fallback that would derive a missing price from the cost
    never applies, a cost being computed only from a price. The filled
    amount is the quantity less what remains when both are there, and
    the cost is the price times the filled amount when neither is
    missing or zero. *)
Theorem bleutrade_order_price_is_the_raw_price `{Helpers} i order market r :
  Bleutrade.parseOrder i order market = Ok r ->
  let price := safeFloat order "Price" VUndefined in
  let amount := safeFloat order "Quantity" VUndefined in
  let remaining := safeFloat order "QuantityRemaining" VUndefined in
  own r "price" = price
  /\ own r "amount" = amount
  /\ own r "remaining" = remaining
  /\ own r "filled"
     = (if (negb (strict_eq amount VUndefined)
            && negb (strict_eq remaining VUndefined))%bool
        then sub amount remaining else VUndefined)
  /\ own r "cost"
     = (if (truthy price && truthy (own r "filled"))%bool
        then mul price (own r "filled") else VUndefined).
Proof.
  unfold Bleutrade.parseOrder. intros E. bind_inv E.
  injection E as <-. cbv zeta.
  cbn [own assoc String.eqb Ascii.eqb Bool.eqb truthy negb].
  destruct (truthy (safeFloat order "Price" VUndefined)) eqn:Hp;
    cbn [negb andb].
  - repeat split.
  - repeat split.
Qed.

Lemma set_in_object key fields :
  Bleutrade.set_in key (VObj fields) = Ok (truthy (own (VObj fields) key)).
Proof.
  unfold Bleutrade.set_in, contains, has. cbn [bind to_string own].
  destruct (assoc key fields); [reflexivity |].
  destruct (inherited key); reflexivity.
Qed.

(** The status of an order: when the payload has a [Status] and the
    option [parseOrderStatus] is on, it is what [parseOrderStatus] makes
    of it, whatever the other fields say. Otherwise a cancel that was
    initiated wins over a closing date, and a closing date over an
    opening date; with none of them the status is [undefined]. *)
Theorem bleutrade_order_status `{Helpers} i fields market r :
  Bleutrade.parseOrder i (VObj fields) market = Ok r ->
  let order := VObj fields in
  (has "Status" order = true ->
   truthy (own (options i) "parseOrderStatus") = true ->
   own r "status"
   = Bleutrade.parseOrderStatus (safeString order "Status" VUndefined))
  /\ (has "Status" order = false ->
      own r "status"
      = if truthy (own order "CancelInitiated") then VStr "canceled"
        else if truthy (own order "Closed") then VStr "closed"
        else if truthy (own order "Opened") then VStr "open"
        else VUndefined).
Proof.
  unfold Bleutrade.parseOrder. intros E.
  rewrite !set_in_object in E. cbn [bind] in E.
  unfold contains at 1 in E. cbn [bind to_string] in E.
  destruct (has "Status" (VObj fields)) eqn:Hs.
  - bind_inv E. injection E as <-. cbv zeta. split; [| discriminate].
    intros _ Ho.
    match goal with
    | Eg : get (options i) "parseOrderStatus" = Ok ?x |- _ =>
        apply get_Ok in Eg; subst x
    end.
    cbn [own assoc String.eqb Ascii.eqb Bool.eqb].
    rewrite Ho. reflexivity.
  - cbn [bind] in E. bind_inv E. injection E as <-. cbv zeta.
    split; [discriminate |]. intros _.
    cbn [own assoc String.eqb Ascii.eqb Bool.eqb andb truthy].
    reflexivity.
Qed.

(** The symbol of an order comes from the market cache when the market
    id of the payload is in the cache; when it is not, the symbol is
    still there, made by [parseSymbol] from the id itself. An id that is
    no market of the cache but the name of a member every object
    inherits, such as [constructor], is in the cache too: the symbol is
    then read from that member, which has none. *)
Theorem bleutrade_order_symbol `{Helpers} i fields market r marketId listed :
  Bleutrade.parseOrder i (VObj fields) market = Ok r ->
  safeString (VObj fields) "Exchange" VUndefined = VStr marketId ->
  markets_by_id i = VObj listed ->
  (has marketId (VObj listed) = true ->
   own r "symbol" = own (own (VObj listed) marketId) "symbol")
  /\ (has marketId (VObj listed) = false ->
      Bleutrade.parseSymbol i (VStr marketId) = Ok (own r "symbol"))
  /\ (assoc marketId listed = None -> inherited marketId = true ->
      own r "symbol" = VUndefined).
Proof.
  intros E Hx Hm.
  cut ((has marketId (VObj listed) = true ->
        own r "symbol" = own (own (VObj listed) marketId) "symbol")
       /\ (has marketId (VObj listed) = false ->
           Bleutrade.parseSymbol i (VStr marketId) = Ok (own r "symbol"))).
  { intros [Hcache Hparsed]. split; [exact Hcache |].
    split; [exact Hparsed |]. intros Hn Hi.
    rewrite Hcache by (cbn [has]; rewrite Hn; exact Hi).
    cbn [own]. rewrite Hn, Hi. reflexivity. }
  revert E Hx Hm.
  unfold Bleutrade.parseOrder. intros E Hx Hm.
  rewrite !set_in_object in E. cbn [bind] in E.
  rewrite Hx, Hm in E.
  change (strict_eq (VStr marketId) VUndefined) with false in E.
  cbv iota in E.
  change (contains (VStr marketId) (VObj listed))
    with (@Ok bool (has marketId (VObj listed))) in E.
  bind_inv E. injection E as <-. cbv zeta.
  cbn [own assoc String.eqb Ascii.eqb Bool.eqb].
  match goal with
  | Er : bind (Ok (has marketId (VObj listed))) _ = Ok ?x |- _ =>
      cbn [bind] in Er; rename Er into Hr
  end.
  destruct (has marketId (VObj listed)) eqn:Hl.
  - split; [| discriminate]. intros _.
    bind_inv Hr. injection Hr as <-.
    match goal with
    | Eg : get _ "symbol" = Ok _ |- _ => apply get_Ok in Eg; subst
    end.
    reflexivity.
  - split; [discriminate |]. intros _.
    bind_inv Hr. injection Hr as <-. assumption.
Qed.

(** An order as [bleutrade] reports it, on a market the cache of
    [Cases.bleutrade] does not list, and an exchange that answers every
    request with that order. *)
Definition bleutrade_order : value :=
  VObj [("OrderId", VStr "65489");
        ("Exchange", VStr "ETH_BTC");
        ("Type", VStr "BUY");
        ("Quantity", VStr "2.00000000");
        ("QuantityRemaining", VStr "0.50000000");
        ("Price", VStr "0.03000000");
        ("Status", VStr "OK");
        ("Created", VStr "2018-01-01 00:00:00")].

Definition bleutrade_fields : list (string * value) :=
  match bleutrade_order with
  | VObj fields => fields
  | _ => []
  end.

Definition bleutrade_world : world :=
  Sample.world_of Cases.bleutrade
    (fun _ _ => Ok (VObj [("result", VArr [bleutrade_order])])).

Definition bleutrade_parsed_order : value :=
  Sample.value_of
    (Bleutrade.parseOrder (H := Sample.helpers) Cases.bleutrade bleutrade_order
                          VUndefined).

Lemma bleutrade_fetchOrders_asks_for_all_markets_witness :
  let out :=
    exec skip
      (Bleutrade.fetchOrders (H := Sample.helpers) (VStr "BTC/USD") VUndefined
                             VUndefined (VObj []))
      bleutrade_world in
  let request := VObj [("market", VStr "ALL"); ("orderstatus", VStr "ALL")] in
  In (Sent "accountGetOrders" request) (trace (snd out))
  /\ (In (Sent "accountGetOrders" request) (trace (snd (skip bleutrade_world)))
      \/ ("accountGetOrders" = "accountGetOrders"
          /\ request
             = extend (VObj [("market", VStr "ALL"); ("orderstatus", VStr "ALL")])
                      (VObj []))).
Proof.
  intros out request.
  assert (Hin : In (Sent "accountGetOrders" request) (trace (snd out)))
    by (vm_compute; left; reflexivity).
  split; [exact Hin |].
  exact (bleutrade_fetchOrders_asks_for_all_markets (H := Sample.helpers)
           skip (VStr "BTC/USD") VUndefined VUndefined (VObj [])
           bleutrade_world (fst out) (snd out) (surjective_pairing out)
           "accountGetOrders" request Hin).
Defined.

Lemma bleutrade_transactions_endpoints_witness :
  snd (exec skip
         (Bleutrade.fetchDeposits (H := Sample.helpers) (VStr "BTC") VUndefined
                                  VUndefined (VObj []))
         bleutrade_world)
  = log (Sent "accountGetDeposithistory" (VObj [])) bleutrade_world
  /\ snd (exec skip
            (Bleutrade.fetchWithdrawals (H := Sample.helpers) (VStr "BTC")
                                        VUndefined VUndefined (VObj []))
            bleutrade_world)
     = log (Sent "accountGetWithdrawhistory" (VObj [])) bleutrade_world.
Proof.
  apply (bleutrade_transactions_endpoints (H := Sample.helpers)).
  reflexivity.
Defined.

Lemma bleutrade_fetchOrderBook_needs_a_result_witness :
  let out :=
    exec skip
      (Bleutrade.fetchOrderBook (H := Sample.helpers) (VStr "BTC/USD")
                                VUndefined (VObj []))
      bleutrade_world in
  exists request response,
    trace (snd out)
    = Sent "publicGetOrderbook" request
      :: Resolved (VStr "BTC/USD") true :: trace (snd (skip bleutrade_world))
    /\ respond (snd out)
         (Resolved (VStr "BTC/USD") true :: trace (snd (skip bleutrade_world)))
         "publicGetOrderbook" request = Ok response
    /\ truthy (safeValue response "result" VUndefined) = true
    /\ parseOrderBook (Helpers := Sample.helpers) None
         (safeValue response "result" VUndefined) VUndefined
         (VStr "buy") (VStr "sell") (VStr "Rate") (VStr "Quantity")
       = Ok (Sample.value_of (fst out)).
Proof.
  intros out.
  apply (bleutrade_fetchOrderBook_needs_a_result (H := Sample.helpers)
           skip (VStr "BTC/USD") VUndefined (VObj []) bleutrade_world
           (Sample.value_of (fst out)) (snd out)).
  vm_compute. reflexivity.
Defined.

Lemma bleutrade_order_price_is_the_raw_price_witness :
  let r := bleutrade_parsed_order in
  let price := safeFloat bleutrade_order "Price" VUndefined in
  let amount := safeFloat bleutrade_order "Quantity" VUndefined in
  let remaining := safeFloat bleutrade_order "QuantityRemaining" VUndefined in
  own r "price" = price
  /\ own r "amount" = amount
  /\ own r "remaining" = remaining
  /\ own r "filled"
     = (if (negb (strict_eq amount VUndefined)
            && negb (strict_eq remaining VUndefined))%bool
        then sub amount remaining else VUndefined)
  /\ own r "cost"
     = (if (truthy price && truthy (own r "filled"))%bool
        then mul price (own r "filled") else VUndefined).
Proof.
  apply (bleutrade_order_price_is_the_raw_price (H := Sample.helpers)
           Cases.bleutrade bleutrade_order VUndefined bleutrade_parsed_order).
  vm_compute. reflexivity.
Defined.

Lemma bleutrade_order_status_witness :
  let order := VObj bleutrade_fields in
  (has "Status" order = true ->
   truthy (own (options Cases.bleutrade) "parseOrderStatus") = true ->
   own bleutrade_parsed_order "status"
   = Bleutrade.parseOrderStatus (safeString order "Status" VUndefined))
  /\ (has "Status" order = false ->
      own bleutrade_parsed_order "status"
      = if truthy (own order "CancelInitiated") then VStr "canceled"
        else if truthy (own order "Closed") then VStr "closed"
        else if truthy (own order "Opened") then VStr "open"
        else VUndefined).
Proof.
  apply (bleutrade_order_status (H := Sample.helpers) Cases.bleutrade
           bleutrade_fields VUndefined bleutrade_parsed_order).
  vm_compute. reflexivity.
Defined.

Lemma bleutrade_order_symbol_witness :
  let listed := [("btcusd", Sample.btcusd)] in
  (has "ETH_BTC" (VObj listed) = true ->
   own bleutrade_parsed_order "symbol"
   = own (own (VObj listed) "ETH_BTC") "symbol")
  /\ (has "ETH_BTC" (VObj listed) = false ->
      Bleutrade.parseSymbol (H := Sample.helpers) Cases.bleutrade (VStr "ETH_BTC")
      = Ok (own bleutrade_parsed_order "symbol"))
  /\ (assoc "ETH_BTC" listed = None -> inherited "ETH_BTC" = true ->
      own bleutrade_parsed_order "symbol" = VUndefined).
Proof.
  apply (bleutrade_order_symbol (H := Sample.helpers) Cases.bleutrade
           bleutrade_fields VUndefined bleutrade_parsed_order "ETH_BTC"
           [("btcusd", Sample.btcusd)]).
  - vm_compute. reflexivity.
  - reflexivity.
  - reflexivity.
Defined.

(** *** Orders and trades of [gemini] *)

(** The status of an order of [gemini]: canceled when the payload says
    so, whatever else it says; otherwise open when it is live, and
    closed when it is neither. *)
Theorem gemini_order_status `{Helpers} i order market r :
  Gemini.parseOrder i order market = Ok r ->
  (truthy (own order "is_cancelled") = true ->
   own r "status" = VStr "canceled")
  /\ (truthy (own order "is_cancelled") = false ->
      truthy (own order "is_live") = true ->
      own r "status" = VStr "open")
  /\ (truthy (own order "is_cancelled") = false ->
      truthy (own order "is_live") = false ->
      own r "status" = VStr "closed").
Proof.
  unfold Gemini.parseOrder. intros E. bind_inv E. injection E as <-.
  cbv zeta. cbn [own assoc String.eqb Ascii.eqb Bool.eqb].
  repeat match goal with
         | Eg : get order _ = Ok _ |- _ => apply get_Ok in Eg; subst
         end.
  repeat split; intros Hc; try intros Hl; rewrite Hc; try rewrite Hl;
    reflexivity.
Qed.

(** The type of an order of [gemini]: [exchange limit] reads as
    [limit], [market buy] and [market sell] as [market], and any other
    type is kept as the payload has it. *)
Theorem gemini_order_type `{Helpers} i order market r :
  Gemini.parseOrder i order market = Ok r ->
  (safeString order "type" VUndefined = VStr "exchange limit" ->
   own r "type" = VStr "limit")
  /\ (safeString order "type" VUndefined = VStr "market buy"
      \/ safeString order "type" VUndefined = VStr "market sell" ->
      own r "type" = VStr "market")
  /\ (safeString order "type" VUndefined <> VStr "exchange limit" ->
      safeString order "type" VUndefined <> VStr "market buy" ->
      safeString order "type" VUndefined <> VStr "market sell" ->
      own r "type" = own order "type").
Proof.
  unfold Gemini.parseOrder. intros E. bind_inv E. injection E as <-.
  cbv zeta. cbn [own assoc String.eqb Ascii.eqb Bool.eqb].
  split; [intros ->; reflexivity |].
  split; [intros [-> | ->]; reflexivity |].
  intros H1 H2 H3.
  destruct (strict_eq (safeString order "type" VUndefined)
                      (VStr "exchange limit")) eqn:Hx1.
  { apply strict_eq_string in Hx1. contradiction. }
  destruct (strict_eq (safeString order "type" VUndefined)
                      (VStr "market buy")) eqn:Hx2.
  { apply strict_eq_string in Hx2. contradiction. }
  destruct (strict_eq (safeString order "type" VUndefined)
                      (VStr "market sell")) eqn:Hx3.
  { apply strict_eq_string in Hx3. contradiction. }
  reflexivity.
Qed.

(** An order whose payload has no side is not parsed at all: the side
    is put in lower case without a look at whether it is there. *)
Theorem gemini_order_needs_a_side `{Helpers} i order market :
  own order "side" = VUndefined ->
  forall r, Gemini.parseOrder i order market <> Ok r.
Proof.
  intros Hs r E. unfold Gemini.parseOrder in E. bind_inv E.
  match goal with
  | Es : string_method "toLowerCase" _ (own order "side") = Ok _ |- _ =>
      rewrite Hs in Es; discriminate Es
  end.
Qed.

(** The cost of a trade of [gemini] is the product of its price and its
    amount as [safeFloat] reads them, and is there only when both are;
    the side is the type of the payload in lower case; the fee is there
    only with a fee amount. *)
Theorem gemini_trade_cost_and_side `{Helpers} i trade market r :
  Gemini.parseTrade i trade market = Ok r ->
  (strict_eq (safeFloat trade "price" VUndefined) VUndefined = false ->
   strict_eq (safeFloat trade "amount" VUndefined) VUndefined = false ->
   own r "cost"
   = mul (safeFloat trade "price" VUndefined)
         (safeFloat trade "amount" VUndefined))
  /\ (safeFloat trade "price" VUndefined = VUndefined
      \/ safeFloat trade "amount" VUndefined = VUndefined ->
      own r "cost" = VUndefined)
  /\ (forall s,
         safeString trade "type" VUndefined = VStr s ->
         own r "side" = VStr (toLowerCase s))
  /\ (safeFloat trade "fee_amount" VUndefined = VUndefined ->
      own r "fee" = VUndefined).
Proof.
  unfold Gemini.parseTrade. intros E. bind_inv E. injection E as <-.
  cbv zeta. cbn [own assoc String.eqb Ascii.eqb Bool.eqb].
  split; [intros -> ->; reflexivity |].
  split.
  { intros [-> | Ha]; [reflexivity |]. rewrite Ha.
    destruct (negb (strict_eq (safeFloat trade "price" VUndefined) VUndefined));
      reflexivity. }
  split; [intros s ->; reflexivity |].
  intros Hf.
  match goal with
  | Ef : (if negb (strict_eq (safeFloat trade "fee_amount" VUndefined) VUndefined)
          then _ else _) = Ok ?x |- _ =>
      rewrite Hf in Ef; cbn [strict_eq negb] in Ef; injection Ef as <-
  end.
  reflexivity.
Qed.

(** *** Methods of [gemini] *)

(** [fetchMyTrades] without a symbol fails with [ArgumentsRequired] at
    once: no market is loaded, no request is sent, the world is as it
    was. *)
Theorem gemini_fetchMyTrades_requires_a_symbol `{Helpers}
  fetchMarkets since limit params w :
  run fetchMarkets (Gemini.fetchMyTrades VUndefined since limit params) w
  = (Throw (Exn ArgumentsRequired
              (id (this w) ++ " fetchMyTrades requires a symbol argument")),
     w).
Proof. reflexivity. Qed.

(** [createDepositAddress] checks the address the exchange returns, so
    after the request: what it returns is a valid address for the
    currency code it was asked for, and the request went out before the
    check. *)
Theorem gemini_createDepositAddress_returns_valid_addresses `{Helpers}
  load code params w v w' :
  exec load (Gemini.createDepositAddress code params) w = (Ok v, w') ->
  valid_address (own v "address") = true
  /\ own v "currency" = code
  /\ exists request,
       trace w' = Sent "privatePostDepositCurrencyNewAddress" request
                  :: trace (snd (load w))
       /\ respond w' (trace (snd (load w)))
            "privatePostDepositCurrencyNewAddress" request
          = Ok (own v "info")
       /\ own v "address" = safeString (own v "info") "address" VUndefined.
Proof.
  unfold Gemini.createDepositAddress. simpl.
  destruct (load w) as [[[] | e] w1]; [| discriminate]. simpl.
  destruct (currency (this w1) code) as [c | e]; [| discriminate].
  intros E.
  match type of E with
  | context [respond ?a ?b ?c ?d] =>
      destruct (respond a b c d) as [response | e] eqn:Hr; [| discriminate E]
  end.
  unfold checkAddress in E.
  destruct (valid_address (safeString response "address" VUndefined)) eqn:Hv;
    simpl in E; [| discriminate E].
  injection E as <- <-.
  split; [exact Hv |]. split; [reflexivity |].
  eexists. split; [reflexivity |]. split; [exact Hr | reflexivity].
Qed.

(** A row of the table of symbols with fewer than seven cells stops the
    parse with [NotSupported]: no market is made of a short row. *)
Theorem gemini_parseRow_rejects_short_rows `{Helpers} error row :
  (List.length (split ("</td>" ++ newline) row) < 7)%nat ->
  Gemini.parseRow error row = Throw (Exn NotSupported error).
Proof.
  intros Hl. unfold Gemini.parseRow.
  destruct (Nat.ltb_spec (List.length (split ("</td>" ++ newline) row)) 7);
    [reflexivity | lia].
Qed.

(** [fetchMarketsFromWeb] needs the heading of the table exactly once
    in the page: with none or several, it fails with [NotSupported]
    after its one request. *)
Theorem gemini_fetchMarketsFromWeb_needs_the_heading `{Helpers}
  load symbols params w page :
  respond w (trace w) "webGetRestApi" params = Ok (VStr page) ->
  List.length
    (split ("<h1 id=" ++ dquote ++ "symbols-and-minimums" ++ dquote
            ++ ">Symbols and minimums</h1>") page) <> 2%nat ->
  exists message,
    exec load (Gemini.fetchMarketsFromWeb symbols params) w
    = (Throw (Exn NotSupported message), log (Sent "webGetRestApi" params) w).
Proof.
  intros Hr Hl. unfold Gemini.fetchMarketsFromWeb. cbn [exec]. rewrite Hr.
  cbn [split_value lift exec]. cbv zeta. rewrite length_map.
  destruct (Nat.eqb_spec
              (List.length
                 (split ("<h1 id=" ++ dquote ++ "symbols-and-minimums" ++ dquote
                         ++ ">Symbols and minimums</h1>") page)) 2);
    [contradiction |].
  cbn [negb exec]. eexists. reflexivity.
Qed.

(** [fetchMarkets] follows the option [fetchMarketsMethod]: without the
    option it loads from the API with the caller's [params]; with the
    value the adapter declares it loads from the web page, and the
    caller's [params] go where that method takes its symbols, so that
    the request for the page carries none. *)
Theorem gemini_fetchMarkets_follows_the_option `{Helpers} load params w :
  (own (options (this w)) "fetchMarketsMethod" = VUndefined ->
   exec load (Gemini.fetchMarkets params) w
   = exec load (Gemini.fetchMarketsFromAPI params) w)
  /\ (own (options (this w)) "fetchMarketsMethod"
      = VStr "fetch_markets_from_web" ->
      exec load (Gemini.fetchMarkets params) w
      = exec load (Gemini.fetchMarketsFromWeb params (VObj [])) w
      /\ exists outcome,
           exec load (Gemini.fetchMarkets params) w
           = (outcome, log (Sent "webGetRestApi" (VObj [])) w)).
Proof.
  unfold Gemini.fetchMarkets. cbn [exec]. unfold safeValue. split.
  - intros ->. reflexivity.
  - intros ->. split; [reflexivity |].
    change (if (String.eqb "fetch_markets_from_web" "fetch_markets_from_web"
                || String.eqb "fetch_markets_from_web" "fetchMarketsFromWeb")%bool
            then Gemini.fetchMarketsFromWeb params (VObj [])
            else _)
      with (Gemini.fetchMarketsFromWeb params (VObj [])).
    unfold Gemini.fetchMarketsFromWeb. cbn [exec].
    destruct (respond w (trace w) "webGetRestApi" (VObj [])) as [response | e];
      [| eexists; reflexivity].
    destruct (split_value _ response) as [sections | e]; cbn [lift exec];
      [| eexists; reflexivity].
    cbv zeta.
    destruct (negb _); [eexists; reflexivity |].
    destruct (_ <? 2)%nat; [eexists; reflexivity |].
    destruct (_ <? 2)%nat; [eexists; reflexivity |].
    destruct (for_each _ _); cbn [lift exec]; eexists; reflexivity.
Qed.

(** *** Signing and error dispatch, the other branches *)

(** A request of [gemini] that is not private is signed without
    credentials and without a nonce: nothing is checked, the clock is
    not read, and the caller's headers and body go out as they are. *)
Theorem gemini_sign_public_needs_no_credentials `{Helpers}
  required load path api method params headers body w names :
  String.eqb api "private" = false ->
  keys (omit params (extractParams path)) = Ok names ->
  exists url,
    exec load (Gemini.sign required path api method params headers body) w
    = (Ok (VObj [("url", url); ("method", VStr method); ("body", body);
                 ("headers", headers)]), w).
Proof.
  intros Ha Hk. unfold Gemini.sign. rewrite Ha, Hk. cbn [lift exec].
  eexists. reflexivity.
Qed.

(** A private request of [gemini], once the credentials are there, is
    signed with one reading of the clock as nonce. Its parameters are
    not in the URL: they go, with the path and the nonce, in the payload
    header, and the signature is the HMAC of that payload under the
    secret. *)
Theorem gemini_sign_private_payload `{Helpers}
  required load path method params headers body w :
  checkRequiredCredentials required (this w) = Ok tt ->
  let url := ("/" ++ Gemini.version ++ "/" ++ implodeParams path params)%string in
  let nonce := VNum (inject_Z (clock w (ticks w))) in
  let payload :=
    stringToBase64
      (encode
         (VStr (json (extend (VObj [("request", VStr url); ("nonce", nonce)])
                             (omit params (extractParams path)))))) in
  exec load (Gemini.sign required path "private" method params headers body) w
  = (Ok (VObj
           [("url", VStr ("https://api.gemini.com" ++ url));
            ("method", VStr method);
            ("body", body);
            ("headers",
             VObj [("Content-Type", VStr "text/plain");
                   ("X-GEMINI-APIKEY", apiKey (this w));
                   ("X-GEMINI-PAYLOAD", VStr (decode payload));
                   ("X-GEMINI-SIGNATURE",
                    VStr (hmac payload (encode (secret (this w))) "sha384"))])]),
     tick w).
Proof.
  intros Hc. unfold Gemini.sign, Gemini.nonce.
  change (String.eqb "private" "private") with true.
  change (negb (String.eqb "private" "web")) with true.
  cbv iota. cbn [exec]. rewrite Hc. cbn [lift exec]. reflexivity.
Qed.

(** A response that reports no error raises nothing: in [dx] an empty
    response or one without a truthy [error], in [gemini] one whose
    result is not [error]. *)
Theorem handleErrors_passes_what_is_no_error `{Helpers} i response :
  (truthy response = false -> Dx.handleErrors i response = Ok tt)
  /\ (truthy response = true ->
      truthy (own response "error") = false ->
      Dx.handleErrors i response = Ok tt)
  /\ (safeString response "result" VUndefined <> VStr "error" ->
      Gemini.handleErrors i response = Ok tt).
Proof.
  repeat split.
  - intros Hr. unfold Dx.handleErrors. rewrite Hr. reflexivity.
  - intros Hr He. unfold Dx.handleErrors.
    rewrite Hr, (get_truthy _ _ Hr). cbn [negb bind]. rewrite He.
    reflexivity.
  - intros Hn. unfold Gemini.handleErrors.
    destruct (strict_eq response VUndefined); [reflexivity |].
    destruct (strict_eq (safeString response "result" VUndefined)
                        (VStr "error")) eqn:Hs; [| reflexivity].
    apply strict_eq_string in Hs. contradiction.
Qed.

(** An order and a trade as [gemini] reports them. *)
Definition gemini_order : value :=
  VObj [("order_id", VStr "44375901");
        ("symbol", VStr "btcusd");
        ("side", VStr "Buy");
        ("type", VStr "exchange limit");
        ("timestampms", num 1494870642156);
        ("is_live", VBool true);
        ("is_cancelled", VBool false);
        ("executed_amount", VStr "1");
        ("remaining_amount", VStr "2");
        ("original_amount", VStr "3");
        ("price", VStr "400.00");
        ("avg_execution_price", VStr "400.00")].

Definition gemini_trade : value :=
  VObj [("tid", num 320);
        ("order_id", VStr "44375901");
        ("timestampms", num 1494870642156);
        ("price", VStr "6500.5");
        ("amount", VStr "2");
        ("type", VStr "Sell")].

Definition gemini_loaded : instance :=
  Sample.loaded "gemini" Gemini.default_options.

Definition gemini_parsed_order : value :=
  Sample.value_of
    (Gemini.parseOrder (H := Sample.helpers) gemini_loaded gemini_order VUndefined).

Definition gemini_parsed_trade : value :=
  Sample.value_of
    (Gemini.parseTrade (H := Sample.helpers) gemini_loaded gemini_trade VUndefined).

Definition gemini_address_world : world :=
  Sample.world_of gemini_loaded
    (fun _ _ => Ok (VObj [("address", VStr "1A1zP1eP5QGefi2DMPTfTL5SLmv7DivfNa")])).

Lemma gemini_order_status_witness :
  (truthy (own gemini_order "is_cancelled") = true ->
   own gemini_parsed_order "status" = VStr "canceled")
  /\ (truthy (own gemini_order "is_cancelled") = false ->
      truthy (own gemini_order "is_live") = true ->
      own gemini_parsed_order "status" = VStr "open")
  /\ (truthy (own gemini_order "is_cancelled") = false ->
      truthy (own gemini_order "is_live") = false ->
      own gemini_parsed_order "status" = VStr "closed").
Proof.
  apply (gemini_order_status (H := Sample.helpers) gemini_loaded gemini_order
           VUndefined gemini_parsed_order).
  vm_compute. reflexivity.
Defined.

Lemma gemini_order_type_witness :
  (safeString gemini_order "type" VUndefined = VStr "exchange limit" ->
   own gemini_parsed_order "type" = VStr "limit")
  /\ (safeString gemini_order "type" VUndefined = VStr "market buy"
      \/ safeString gemini_order "type" VUndefined = VStr "market sell" ->
      own gemini_parsed_order "type" = VStr "market")
  /\ (safeString gemini_order "type" VUndefined <> VStr "exchange limit" ->
      safeString gemini_order "type" VUndefined <> VStr "market buy" ->
      safeString gemini_order "type" VUndefined <> VStr "market sell" ->
      own gemini_parsed_order "type" = own gemini_order "type").
Proof.
  apply (gemini_order_type (H := Sample.helpers) gemini_loaded gemini_order
           VUndefined gemini_parsed_order).
  vm_compute. reflexivity.
Defined.

Lemma gemini_order_needs_a_side_witness :
  own (VObj [("order_id", VStr "1"); ("symbol", VStr "btcusd")]) "side"
  = VUndefined
  /\ Gemini.parseOrder (H := Sample.helpers) gemini_loaded
       (VObj [("order_id", VStr "1"); ("symbol", VStr "btcusd")]) VUndefined
     <> Ok (VObj []).
Proof.
  split; [reflexivity |].
  apply (gemini_order_needs_a_side (H := Sample.helpers) gemini_loaded
           (VObj [("order_id", VStr "1"); ("symbol", VStr "btcusd")])
           VUndefined).
  reflexivity.
Defined.

Lemma gemini_trade_cost_and_side_witness :
  (strict_eq (safeFloat gemini_trade "price" VUndefined) VUndefined = false ->
   strict_eq (safeFloat gemini_trade "amount" VUndefined) VUndefined = false ->
   own gemini_parsed_trade "cost"
   = mul (safeFloat gemini_trade "price" VUndefined)
         (safeFloat gemini_trade "amount" VUndefined))
  /\ (safeFloat gemini_trade "price" VUndefined = VUndefined
      \/ safeFloat gemini_trade "amount" VUndefined = VUndefined ->
      own gemini_parsed_trade "cost" = VUndefined)
  /\ (forall s,
         safeString gemini_trade "type" VUndefined = VStr s ->
         own gemini_parsed_trade "side" = VStr (toLowerCase s))
  /\ (safeFloat gemini_trade "fee_amount" VUndefined = VUndefined ->
      own gemini_parsed_trade "fee" = VUndefined).
Proof.
  apply (gemini_trade_cost_and_side (H := Sample.helpers) gemini_loaded
           gemini_trade VUndefined gemini_parsed_trade).
  vm_compute. reflexivity.
Defined.

Lemma gemini_createDepositAddress_returns_valid_addresses_witness :
  let out :=
    exec skip
      (Gemini.createDepositAddress (H := Sample.helpers) (VStr "BTC") (VObj []))
      gemini_address_world in
  let v := Sample.value_of (fst out) in
  valid_address (Helpers := Sample.helpers) (own v "address") = true
  /\ own v "currency" = VStr "BTC"
  /\ exists request,
       trace (snd out)
       = Sent "privatePostDepositCurrencyNewAddress" request
         :: trace (snd (skip gemini_address_world))
       /\ respond (snd out) (trace (snd (skip gemini_address_world)))
            "privatePostDepositCurrencyNewAddress" request
          = Ok (own v "info")
       /\ own v "address" = safeString (own v "info") "address" VUndefined.
Proof.
  intros out v.
  apply (gemini_createDepositAddress_returns_valid_addresses
           (H := Sample.helpers) skip (VStr "BTC") (VObj [])
           gemini_address_world v (snd out)).
  vm_compute. reflexivity.
Defined.

Lemma gemini_parseRow_rejects_short_rows_witness :
  Gemini.parseRow (H := Sample.helpers) "markup changed" "<td>btcusd"
  = Throw (Exn NotSupported "markup changed").
Proof.
  apply (gemini_parseRow_rejects_short_rows (H := Sample.helpers)).
  vm_compute. lia.
Defined.

Lemma gemini_fetchMarketsFromWeb_needs_the_heading_witness :
  exists message,
    exec skip
      (Gemini.fetchMarketsFromWeb (H := Sample.helpers) VUndefined (VObj []))
      (Sample.world_of (Sample.fresh "gemini" Gemini.default_options)
                       (fun _ _ => Ok (VStr "<html>maintenance</html>")))
    = (Throw (Exn NotSupported message),
       log (Sent "webGetRestApi" (VObj []))
           (Sample.world_of (Sample.fresh "gemini" Gemini.default_options)
                            (fun _ _ => Ok (VStr "<html>maintenance</html>")))).
Proof.
  apply (gemini_fetchMarketsFromWeb_needs_the_heading (H := Sample.helpers)
           skip VUndefined (VObj []) _ "<html>maintenance</html>").
  - reflexivity.
  - vm_compute. intros E. discriminate E.
Defined.

Lemma gemini_fetchMarkets_follows_the_option_witness :
  let w := Sample.silent (Sample.fresh "gemini" Gemini.default_options) in
  exec skip (Gemini.fetchMarkets (H := Sample.helpers) (VObj [("a", num 1)])) w
  = exec skip
      (Gemini.fetchMarketsFromWeb (H := Sample.helpers) (VObj [("a", num 1)])
                                  (VObj [])) w
  /\ exists outcome,
       exec skip (Gemini.fetchMarkets (H := Sample.helpers) (VObj [("a", num 1)])) w
       = (outcome, log (Sent "webGetRestApi" (VObj [])) w).
Proof.
  intros w.
  apply (proj2 (gemini_fetchMarkets_follows_the_option (H := Sample.helpers)
                  skip (VObj [("a", num 1)]) w)).
  reflexivity.
Defined.

Lemma gemini_sign_public_needs_no_credentials_witness :
  exists url,
    exec skip
      (Gemini.sign (H := Sample.helpers) [("apiKey", true); ("secret", true)]
                   "symbols" "public" "GET" (VObj []) VUndefined VUndefined)
      (Sample.silent Sample.no_secret)
    = (Ok (VObj [("url", url); ("method", VStr "GET"); ("body", VUndefined);
                 ("headers", VUndefined)]),
       Sample.silent Sample.no_secret).
Proof.
  apply (gemini_sign_public_needs_no_credentials (H := Sample.helpers)
           [("apiKey", true); ("secret", true)] skip "symbols" "public" "GET"
           (VObj []) VUndefined VUndefined (Sample.silent Sample.no_secret) []).
  - reflexivity.
  - reflexivity.
Defined.

Lemma gemini_sign_private_payload_witness :
  exists request,
    exec skip
      (Gemini.sign (H := Sample.helpers) [("apiKey", true); ("secret", true)]
                   "balances" "private" "POST" (VObj []) VUndefined VUndefined)
      (Sample.silent gemini_loaded)
    = (Ok request, tick (Sample.silent gemini_loaded))
    /\ own request "url" = VStr "https://api.gemini.com/v1/balances".
Proof.
  eexists. split.
  - apply (gemini_sign_private_payload (H := Sample.helpers)
             [("apiKey", true); ("secret", true)] skip "balances" "POST"
             (VObj []) VUndefined VUndefined (Sample.silent gemini_loaded)).
    reflexivity.
  - reflexivity.
Defined.

Lemma handleErrors_passes_what_is_no_error_witness :
  Dx.handleErrors (H := Sample.helpers) gemini_loaded VUndefined = Ok tt
  /\ Dx.handleErrors (H := Sample.helpers) gemini_loaded
       (VObj [("result", VObj []); ("error", VNull)]) = Ok tt
  /\ Gemini.handleErrors gemini_loaded (VObj [("result", VStr "ok")]) = Ok tt.
Proof.
  pose proof (handleErrors_passes_what_is_no_error (H := Sample.helpers)
                gemini_loaded VUndefined) as [H1 _].
  pose proof (handleErrors_passes_what_is_no_error (H := Sample.helpers)
                gemini_loaded (VObj [("result", VObj []); ("error", VNull)]))
    as [_ [H2 _]].
  pose proof (handleErrors_passes_what_is_no_error (H := Sample.helpers)
                gemini_loaded (VObj [("result", VStr "ok")]))
    as [_ [_ H3]].
  apply conj; [| apply conj].
  - apply H1. reflexivity.
  - apply H2; reflexivity.
  - apply H3. intros E. discriminate E.
Defined.

(** *** Signing in [dx] *)

Lemma lt_of_ge_false x y : ge (VNum x) (VNum y) = false -> (x < y)%Q.
Proof.
  unfold ge. cbn [to_number].
  destruct (x ?= y)%Q eqn:Hc; try discriminate.
  intros _. apply Qlt_alt. exact Hc.
Qed.

Lemma ge_false_of_lt x y : (x < y)%Q -> ge (VNum x) (VNum y) = false.
Proof.
  intros Hlt. unfold ge. cbn [to_number].
  assert (Hc : (x ?= y)%Q = Lt) by (apply Qlt_alt; exact Hlt).
  rewrite Hc. reflexivity.
Qed.

Lemma safeInteger_cases o k :
  safeInteger o k VUndefined = VUndefined
  \/ exists z, safeInteger o k VUndefined = VNum (inject_Z z).
Proof.
  unfold safeInteger. destruct (own o k) as [| | | q | | s | | |]; eauto.
  destruct (parseInt_string s); eauto.
Qed.

(** The envelope of a call to [dx]: JSON-RPC 2.0, the clock as id, the
    path as method, and the parameters in a list of one; an empty array
    of parameters goes out as an object. *)
Definition dx_envelope (path : string) (now params : value) : value :=
  VObj [("jsonrpc", VStr "2.0");
        ("id", now);
        ("method", VStr path);
        ("params",
         VArr [match params with
               | VArr [] => VObj [("__associative", VBool true)]
               | _ => params
               end])].

(** A request of [dx] that is not private is signed whatever the state
    of the session: one reading of the clock, no look at the token, and
    no [Authorization] header. Unless the method is [GET], the call is
    the body, the URL is the bare API address, and the caller's headers
    and body are not used. *)
Theorem dx_sign_public `{Helpers} load path api method params headers body w :
  String.eqb api "private" = false ->
  String.eqb method "GET" = false ->
  exec load (Dx.sign path api method params headers body) w
  = (Ok (VObj
           [("url", VStr "https://acl.dx.exchange");
            ("method", VStr method);
            ("body",
             VStr (json (dx_envelope path
                           (VNum (inject_Z (clock w (ticks w)))) params)));
            ("headers", VObj [("Content-Type", VStr "application/json-rpc")])]),
     tick w).
Proof.
  intros Ha Hm. unfold Dx.sign, dx_envelope. cbn [exec].
  rewrite Ha, Hm. reflexivity.
Qed.

(** With [GET] the call goes in the query of the URL and the caller's
    body is kept. *)
Theorem dx_sign_get `{Helpers} load path api params headers body w :
  String.eqb api "private" = false ->
  exec load (Dx.sign path api "GET" params headers body) w
  = (Ok (VObj
           [("url",
             VStr ("https://acl.dx.exchange?"
                   ++ urlencode (dx_envelope path
                                   (VNum (inject_Z (clock w (ticks w))))
                                   params)));
            ("method", VStr "GET");
            ("body", body);
            ("headers", VObj [("Content-Type", VStr "application/json-rpc")])]),
     tick w).
Proof.
  intros Ha. unfold Dx.sign, dx_envelope. cbn [exec].
  rewrite Ha. reflexivity.
Qed.

(** A private request of [dx] carries the access token of the session
    as its [Authorization] header, when the token is there and the
    clock, read once more, is before the expiry held with it; with no
    expiry held there is no second reading. *)
Theorem dx_sign_private_carries_the_token `{Helpers}
  load path method params headers body w token :
  safeString (options (this w)) "accessToken" VUndefined = VStr token ->
  (forall expires,
      safeInteger (options (this w)) "expires" VUndefined = VNum expires ->
      (inject_Z (clock w (S (ticks w))) < expires)%Q) ->
  exists request w',
    exec load (Dx.sign path "private" method params headers body) w
    = (Ok request, w')
    /\ own (own request "headers") "Authorization" = VStr token
    /\ own (own request "headers") "Content-Type"
       = VStr "application/json-rpc"
    /\ (safeInteger (options (this w)) "expires" VUndefined = VUndefined ->
        w' = tick w)
    /\ (safeInteger (options (this w)) "expires" VUndefined <> VUndefined ->
        w' = tick (tick w)).
Proof.
  intros Ht He. unfold Dx.sign. cbn [exec].
  change (String.eqb "private" "private") with true. cbv iota.
  cbn [exec]. change (this (tick w)) with (this w). rewrite Ht.
  change (strict_eq (VStr token) VUndefined) with false. cbv iota.
  destruct (safeInteger_cases (options (this w)) "expires") as [Hx | [z Hx]];
    rewrite Hx.
  - cbn [strict_eq negb exec].
    eexists. eexists. split; [reflexivity |].
    split; [reflexivity |]. split; [reflexivity |].
    split; [reflexivity |]. intros Hn. exfalso. apply Hn. reflexivity.
  - change (negb (strict_eq (VNum (inject_Z z)) VUndefined)) with true.
    cbv iota. cbn [exec].
    change (clock (tick w) (ticks (tick w))) with (clock w (S (ticks w))).
    rewrite (ge_false_of_lt _ _ (He _ Hx)).
    cbn [exec].
    eexists. eexists. split; [reflexivity |].
    split; [reflexivity |]. split; [reflexivity |].
    split; [discriminate | reflexivity].
Qed.

Lemma assoc_set_field_same k v fields :
  assoc k (set_field k v fields) = Some v.
Proof.
  induction fields as [| [k0 v0] fields IH]; simpl.
  - rewrite String.eqb_refl. reflexivity.
  - destruct (String.eqb_spec k k0) as [-> | Hne]; simpl.
    + rewrite String.eqb_refl. reflexivity.
    + destruct (String.eqb_spec k k0); [contradiction | exact IH].
Qed.

Lemma own_set_same fields k v : own (set (VObj fields) k v) k = v.
Proof. simpl. rewrite assoc_set_field_same. reflexivity. Qed.

(** [signIn] of [dx] needs the API key and nothing else: without it,
    it fails with [AuthenticationError] before anything is sent; the
    secret may be missing. *)
Theorem dx_signIn_requires_the_api_key `{Helpers} load params w :
  truthy (apiKey (this w)) = false ->
  exec load (Dx.signIn params) w
  = (Throw (Exn AuthenticationError (id (this w) ++ " requires `apiKey`")), w).
Proof.
  intros Hk. unfold Dx.signIn, Dx.requiredCredentials. cbn [exec].
  unfold checkRequiredCredentials, credential.
  change (String.eqb "apiKey" "apiKey") with true. cbv iota.
  rewrite Hk. reflexivity.
Qed.

(** A successful [signIn] sends the key and the secret in one request,
    and leaves in the options the token of the answer and an expiry that
    is the clock plus the lifetime of the answer, in milliseconds. It
    loads no market and leaves the market cache alone. *)
Theorem dx_signIn_stores_the_session `{Helpers} load params w response w' opts :
  options (this w) = VObj opts ->
  exec load (Dx.signIn params) w = (Ok response, w') ->
  let result := own response "result" in
  let now := VNum (inject_Z (clock w (ticks w))) in
  own (options (this w')) "accessToken" = own result "token"
  /\ own (options (this w')) "expires"
     = sum now (mul (own result "expiry") (num 1000))
  /\ markets (this w') = markets (this w)
  /\ trace w'
     = Sent "publicPostAuthorizationLoginByToken"
         (extend (VObj [("token", apiKey (this w)); ("secret", secret (this w))])
                 params)
       :: trace w.
Proof.
  intros Ho. unfold Dx.signIn. cbn [exec].
  destruct (checkRequiredCredentials Dx.requiredCredentials (this w))
    as [[] | e]; cbn [lift exec]; [| discriminate].
  destruct (respond w (trace w) "publicPostAuthorizationLoginByToken" _)
    as [answer | e]; [| discriminate].
  destruct (get answer "result") as [result | e] eqn:Hr; cbn [lift exec];
    [| discriminate].
  destruct (get result "expiry") as [expiry | e] eqn:He; cbn [lift exec];
    [| discriminate].
  destruct (get result "token") as [token | e] eqn:Ht; cbn [lift exec];
    [| discriminate].
  intros E. injection E as <- <-.
  apply get_Ok in Hr, He, Ht. subst result expiry token.
  cbn [this with_this set_options options tick log markets trace clock ticks].
  rewrite Ho.
  split; [apply own_set_same |].
  split.
  - rewrite own_set_other by discriminate.
    apply own_set_same.
  - split; reflexivity.
Qed.

(** *** Orders of [dx] *)


(** Sample sessions of [dx]. *)
Definition dx_signed_in : world := Sample.silent (Sample.signed_in 2000).

Definition dx_without_key : world :=
  Sample.silent
    {| id := "dx"; markets := VUndefined; markets_by_id := VUndefined;
       currencies := VUndefined; currencies_by_id := VUndefined;
       options := Dx.default_options; apiKey := VUndefined;
       secret := VStr "secret" |}.

Definition dx_login : world :=
  Sample.world_of (Sample.fresh "dx" Dx.default_options)
    (fun _ _ =>
       Ok (VObj [("result",
                  VObj [("token", VStr "t"); ("expiry", num 60)])])).


Lemma dx_sign_public_witness :
  exec skip (Dx.sign (H := Sample.helpers) "GetTicker" "public" "POST"
               (VArr []) VUndefined VUndefined) Sample.dx_fresh_world
  = (Ok (VObj
           [("url", VStr "https://acl.dx.exchange");
            ("method", VStr "POST");
            ("body",
             VStr (json (Helpers := Sample.helpers)
                     (dx_envelope "GetTicker" (num 1000) (VArr []))));
            ("headers", VObj [("Content-Type", VStr "application/json-rpc")])]),
     tick Sample.dx_fresh_world).
Proof.
  apply (dx_sign_public (H := Sample.helpers) skip "GetTicker" "public" "POST"
           (VArr []) VUndefined VUndefined Sample.dx_fresh_world);
    reflexivity.
Defined.

Lemma dx_sign_get_witness :
  exec skip (Dx.sign (H := Sample.helpers) "GetTicker" "public" "GET"
               (VObj []) VUndefined (VStr "kept")) Sample.dx_fresh_world
  = (Ok (VObj
           [("url",
             VStr ("https://acl.dx.exchange?"
                   ++ urlencode (Helpers := Sample.helpers)
                        (dx_envelope "GetTicker" (num 1000) (VObj []))));
            ("method", VStr "GET");
            ("body", VStr "kept");
            ("headers", VObj [("Content-Type", VStr "application/json-rpc")])]),
     tick Sample.dx_fresh_world).
Proof.
  apply (dx_sign_get (H := Sample.helpers) skip "GetTicker" "public"
           (VObj []) VUndefined (VStr "kept") Sample.dx_fresh_world);
    reflexivity.
Defined.

Lemma dx_sign_private_carries_the_token_witness :
  exists request w',
    exec skip (Dx.sign (H := Sample.helpers) "BalanceGet" "private" "POST"
                 (VObj []) VUndefined VUndefined) dx_signed_in
    = (Ok request, w')
    /\ own (own request "headers") "Authorization" = VStr "token"
    /\ own (own request "headers") "Content-Type"
       = VStr "application/json-rpc"
    /\ (safeInteger (options (this dx_signed_in)) "expires" VUndefined
        = VUndefined -> w' = tick dx_signed_in)
    /\ (safeInteger (options (this dx_signed_in)) "expires" VUndefined
        <> VUndefined -> w' = tick (tick dx_signed_in)).
Proof.
  apply (dx_sign_private_carries_the_token (H := Sample.helpers) skip
           "BalanceGet" "POST" (VObj []) VUndefined VUndefined dx_signed_in
           "token").
  - reflexivity.
  - intros expires E. vm_compute in E. injection E as <-. reflexivity.
Defined.

Lemma dx_signIn_requires_the_api_key_witness :
  exec skip (Dx.signIn (H := Sample.helpers) (VObj [])) dx_without_key
  = (Throw (Exn AuthenticationError "dx requires `apiKey`"), dx_without_key).
Proof.
  apply (dx_signIn_requires_the_api_key (H := Sample.helpers) skip (VObj [])
           dx_without_key).
  reflexivity.
Defined.

Lemma dx_signIn_stores_the_session_witness :
  let out := exec skip (Dx.signIn (H := Sample.helpers) (VObj [])) dx_login in
  own (options (this (snd out))) "accessToken" = VStr "t"
  /\ own (options (this (snd out))) "expires"
     = sum (Helpers := Sample.helpers) (num 1000) (mul (num 60) (num 1000))
  /\ markets (this (snd out)) = VUndefined
  /\ trace (snd out)
     = [Sent "publicPostAuthorizationLoginByToken"
          (VObj [("token", VStr "key"); ("secret", VStr "secret")])].
Proof.
  intros out.
  apply (dx_signIn_stores_the_session (H := Sample.helpers) skip (VObj [])
           dx_login (Sample.value_of (fst out)) (snd out)
           [("orderTypes", VObj [("market", num 1); ("limit", num 2)]);
            ("orderSide", VObj [("buy", num 1); ("sell", num 2)])]);
    reflexivity.
Defined.


(** *** Orders and balances of [dx] *)

(** What [parseOrder] of [dx] reads from an order. The payload of an
    order of the history comes wrapped in an [order] field; its status
    code 1 is [closed] and 2 is [canceled], while for an order that is
    not wrapped code 1 is [open] and 2 is unknown. A code that is the
    name of a member every object inherits, such as [constructor], is
    found in the table of statuses too, and the status is that member.
    Any other code, and a missing one, give no status. The side is
    [sell] only when the direction is the one the options hold for it,
    and the type [market] only when the order type is the one for it:
    anything else is a [buy] and a [limit]. *)
Theorem dx_order_status_side_and_type `{Helpers} i order market parsed :
  Dx.parseOrder i order market = Ok parsed ->
  let inner := safeValue order "order" VUndefined in
  let wrapped := negb (strict_eq inner VUndefined) in
  let raw := if wrapped then inner else order in
  own parsed "status"
  = (if String.eqb (to_string (safeString raw "status" VUndefined)) "1"
     then if wrapped then VStr "closed" else VStr "open"
     else if String.eqb (to_string (safeString raw "status" VUndefined)) "2"
     then if wrapped then VStr "canceled" else VUndefined
     else if inherited (to_string (safeString raw "status" VUndefined))
     then VInherited (to_string (safeString raw "status" VUndefined))
     else VUndefined)
  /\ own parsed "side"
     = (if strict_eq (own raw "direction")
                     (own (own (options i) "orderSide") "sell")
        then VStr "sell" else VStr "buy")
  /\ own parsed "type"
     = (if strict_eq (own raw "orderType")
                     (own (own (options i) "orderTypes") "market")
        then VStr "market" else VStr "limit")
  /\ own parsed "remaining"
     = sub (own parsed "amount") (own parsed "filled").
Proof.
  unfold Dx.parseOrder. intros E. cbv zeta in E |- *.
  set (inner := safeValue order "order" VUndefined) in *.
  set (wrapped := negb (strict_eq inner VUndefined)) in *.
  set (raw := if wrapped then inner else order) in *.
  apply bind_Ok in E. destruct E as [direction [Ed E]].
  apply bind_Ok in E. destruct E as [orderSide [Es E]].
  apply bind_Ok in E. destruct E as [sell [El E]].
  apply bind_Ok in E. destruct E as [known [Ek E]].
  apply bind_Ok in E. destruct E as [listed [Em E]].
  apply bind_Ok in E. destruct E as [symbol [Ey E]].
  apply bind_Ok in E. destruct E as [orderTypes [Et E]].
  apply bind_Ok in E. destruct E as [kind [Ei E]].
  apply bind_Ok in E. destruct E as [marketType [Ea E]].
  apply bind_Ok in E. destruct E as [quantity [Eq E]].
  apply bind_Ok in E. destruct E as [filled [Ef E]].
  apply bind_Ok in E. destruct E as [price [Ep E]].
  injection E as <-.
  apply get_Ok in Ed, Es, El, Et, Ei, Ea.
  subst direction orderSide sell orderTypes kind marketType.
  split; [| split; [reflexivity | split; reflexivity]].
  cbn [own assoc String.eqb Ascii.eqb Bool.eqb].
  destruct wrapped; cbn [contains] in Ek; revert Ek;
    generalize (to_string (safeString raw "status" VUndefined));
    intros code Ek; injection Ek as <-;
    cbn [own has assoc];
    destruct (String.eqb_spec code "1") as [-> | _]; try reflexivity;
    destruct (String.eqb_spec code "2") as [-> | _]; try reflexivity;
    destruct (inherited code); reflexivity.
Qed.


(** The account [fetchBalance] of [dx] files for one currency of the
    response. *)
Definition dx_account (balance : value) : value :=
  VObj [("free", safeFloat balance "available" VUndefined);
        ("used", safeFloat balance "frozen" VUndefined);
        ("total", safeFloat balance "total" VUndefined)].




(** An order of the history of [dx]: canceled, a market sell of which
    nothing was filled. *)
Definition dx_history_order : value :=
  VObj [("order",
         VObj [("externalOrderId", VStr "9");
               ("instrumentId", num 7);
               ("direction", num 2);
               ("orderType", num 1);
               ("status", num 2);
               ("time", num 1540000000);
               ("quantity", VObj [("value", num 5); ("decimals", num 1)]);
               ("filledQuantity", VObj [("value", num 0); ("decimals", num 0)]);
               ("price", VObj [("value", num 8000); ("decimals", num 0)])])].

Definition dx_parsed_order : result value :=
  Dx.parseOrder (H := Sample.helpers) Sample.dx_loaded dx_history_order
    VUndefined.

(** An order of [dx] whose status code is the name of an inherited
    member: the status is that member. *)
Example dx_order_with_an_inherited_status :
  exists parsed,
    Dx.parseOrder (H := Sample.helpers) Sample.dx_loaded
      (VObj [("externalOrderId", VStr "9");
             ("status", VStr "constructor");
             ("quantity", VObj [("value", num 5); ("decimals", num 1)]);
             ("filledQuantity", VObj [("value", num 0); ("decimals", num 0)]);
             ("price", VObj [("value", num 8000); ("decimals", num 0)])])
      VUndefined = Ok parsed
    /\ own parsed "status" = VInherited "constructor".
Proof. eexists. split; [vm_compute; reflexivity | reflexivity]. Qed.

Lemma dx_order_status_side_and_type_witness :
  own (Sample.value_of dx_parsed_order) "status" = VStr "canceled"
  /\ own (Sample.value_of dx_parsed_order) "side" = VStr "sell"
  /\ own (Sample.value_of dx_parsed_order) "type" = VStr "market"
  /\ own (Sample.value_of dx_parsed_order) "remaining"
     = sub (own (Sample.value_of dx_parsed_order) "amount")
           (own (Sample.value_of dx_parsed_order) "filled").
Proof.
  apply (dx_order_status_side_and_type (H := Sample.helpers) Sample.dx_loaded
           dx_history_order VUndefined (Sample.value_of dx_parsed_order)).
  vm_compute. reflexivity.
Defined.




(** An order of [dx] is parsed only with its three amounts: when the
    payload has no [price], as that of a market order may, or no
    [quantity] or [filledQuantity], [parseOrder] fails instead of
    leaving the field undefined. *)
Theorem dx_order_needs_its_amounts `{Helpers} i order market :
  let inner := safeValue order "order" VUndefined in
  let raw := if negb (strict_eq inner VUndefined) then inner else order in
  own raw "quantity" = VUndefined
  \/ own raw "filledQuantity" = VUndefined
  \/ own raw "price" = VUndefined ->
  forall parsed, Dx.parseOrder i order market <> Ok parsed.
Proof.
  intros inner raw Hmissing parsed E.
  unfold Dx.parseOrder in E. cbv zeta in E.
  fold inner in E. fold raw in E.
  apply bind_Ok in E. destruct E as [direction [_ E]].
  apply bind_Ok in E. destruct E as [orderSide [_ E]].
  apply bind_Ok in E. destruct E as [sell [_ E]].
  apply bind_Ok in E. destruct E as [known [_ E]].
  apply bind_Ok in E. destruct E as [listed [_ E]].
  apply bind_Ok in E. destruct E as [symbol [_ E]].
  apply bind_Ok in E. destruct E as [orderTypes [_ E]].
  apply bind_Ok in E. destruct E as [kind [_ E]].
  apply bind_Ok in E. destruct E as [marketType [_ E]].
  apply bind_Ok in E. destruct E as [quantity [Eq E]].
  apply bind_Ok in E. destruct E as [filled [Ef E]].
  apply bind_Ok in E. destruct E as [price [Ep _]].
  destruct Hmissing as [Hm | [Hm | Hm]]; rewrite Hm in *; discriminate.
Qed.

(** An open market order of [dx], with no price. *)
Definition dx_market_order : value :=
  VObj [("externalOrderId", VStr "9");
        ("instrumentId", num 7);
        ("direction", num 1);
        ("orderType", num 1);
        ("status", num 1);
        ("time", num 1540000000);
        ("quantity", VObj [("value", num 5); ("decimals", num 1)]);
        ("filledQuantity", VObj [("value", num 0); ("decimals", num 0)])].

Lemma dx_order_needs_its_amounts_witness :
  own dx_market_order "price" = VUndefined
  /\ Dx.parseOrder (H := Sample.helpers) Sample.dx_loaded dx_market_order
       VUndefined <> Ok (VObj []).
Proof.
  split; [reflexivity |].
  apply (dx_order_needs_its_amounts (H := Sample.helpers) Sample.dx_loaded
           dx_market_order VUndefined).
  right. right. reflexivity.
Defined.
